(** * melaniebot.core.bank: the virtual-currency ledger

    A shallow embedding of [src/melaniebot/core/bank.py] and the properties
    of its account store, transfer engine, purchase guard, mode controller,
    settings, leaderboard, pruning, data deletion and schema migration.

    Python coroutines are embedded as state transformers that either return
    a value or raise an exception; the state when an exception is raised is
    kept, since Python does not roll back what was already written. *)

From Stdlib Require Import ZArith String Bool Lia Permutation Sorted.
From Stdlib Require Import Floats.SpecFloat.
From stdpp Require Import base option list gmap.

Local Open Scope Z_scope.

(** ** Exceptions *)

(** The messages of the [ValueError]s the bank raises. *)
Inductive value_error : Type :=
  | NegativeBalance      (* "Not allowed to have negative balance." *)
  | InvalidWithdrawal    (* "Invalid withdrawal amount .. < 0" *)
  | InsufficientFunds    (* "Insufficient funds .. > .." *)
  | InvalidDeposit       (* "Invalid deposit amount .. <= 0" *)
  | InvalidTransfer      (* "Invalid transfer amount .. <= 0" *)
  | InvalidCost          (* "This decorator requires an integer cost .." *)
  | NotANumber           (* int(nan) *)
  | YearOutOfRange       (* "year .. is out of range" *)
  | MaxBalanceOutOfRange      (* "Amount must be greater than zero and less than .." *)
  | DefaultBalanceOutOfRange. (* "Amount must be greater than or equal zero and less than or equal .." *)

(** The user-facing rejections of the purchase guard. *)
Inductive feedback : Type :=
  | NoGlobalBankInDM
  | NeedAtLeast (amount : Z) (credits_name : string).

Inductive exn : Type :=
  | ValueError (why : value_error)
  | TypeError
  | RuntimeError
  | AttributeError
  | OverflowError
  | BalanceTooHigh (user : string) (max_bal : Z) (currency_name : string)
  | UserFeedbackCheckFailure (msg : feedback)
  | AbortPurchase
  | StoreError
  | OtherError (tag : nat)
  | OSError
  | BankPruneError.

Inductive outcome (A : Type) : Type :=
  | Return (a : A)
  | Raise (e : exn).
Arguments Return {A} a.
Arguments Raise {A} e.

Definition outcome_map {A B : Type} (f : A -> B) (o : outcome A) : outcome B :=
  match o with
  | Return a => Return (f a)
  | Raise e => Raise e
  end.

(** ** Discord objects *)

Module discord.

Record Guild : Type := {
  guild_id : Z;
  member_ids : list Z   (* the ids [guild.get_member] finds *)
}.

(** A [discord.Member] has a guild; a [discord.User] has no such attribute. *)
Record Member : Type := {
  id : Z;
  display_name : string;
  guild : option Guild
}.

Definition get_member (g : Guild) (user_id : Z) : bool :=
  bool_decide (user_id ∈ member_ids g).

End discord.

Module commands.

Record Context : Type := {
  guild : option discord.Guild;
  author : discord.Member
}.

End commands.

(** ** The persisted store *)

Record Settings : Type := {
  bank_name : string;
  currency : string;
  default_balance : Z;
  max_balance : Z
}.

Record Account : Type := {
  name : string;
  balance : Z;
  created_at : Z
}.

Definition _MAX_BALANCE : Z := 2 ^ 63 - 1.

Definition _DEFAULT_GUILD : Settings :=
  {| bank_name := "Twentysix bank"; currency := "credits";
     default_balance := 100; max_balance := _MAX_BALANCE |}.

Definition _DEFAULT_MEMBER : Account :=
  {| name := ""; balance := 0; created_at := 0 |}.

(** A Python dict of accounts: keys are unique and iteration follows the
    order in which the keys were first inserted. *)
Abbreviation accounts := (list (Z * Account)).

Fixpoint dict_get (k : Z) (d : accounts) : option Account :=
  match d with
  | [] => None
  | (k', v) :: d' => if decide (k' = k) then Some v else dict_get k d'
  end.

(** [d[k] = f(d.get(k, dflt))]: an existing key keeps its position, a new key
    goes to the end. *)
Fixpoint dict_update (k : Z) (f : Account -> Account) (dflt : Account)
    (d : accounts) : accounts :=
  match d with
  | [] => [(k, f dflt)]
  | (k', v) :: d' =>
      if decide (k' = k) then (k', f v) :: d'
      else (k', v) :: dict_update k f dflt d'
  end.

(** Modelled from the spec: the persisted key-value store ([Config], whose
    module is not among the sources), with the layout of the spec's section 6:
    the mode flag, the settings of the global scope and of each guild, the
    accounts of the global namespace and of each guild's namespace. A record
    that misses a field reads as the registered default of that field. *)
Record Config : Type := {
  cfg_is_global : bool;
  cfg_global : Settings;
  cfg_guilds : gmap Z Settings;
  cfg_users : accounts;
  cfg_members : gmap Z accounts
}.

(** The process-wide cache [_cache] of the global settings. *)
Record SettingsCache : Type := {
  c_bank_name : option string;
  c_currency : option string;
  c_default_balance : option Z;
  c_max_balance : option Z
}.

(** The state the bank runs in: the store, the two module-level caches, and
    the number of writes the store was asked to do so far. *)
Record State : Type := {
  _config : Config;
  _cache_is_global : option bool;
  _cache : SettingsCache;
  writes : nat
}.

(** A coroutine over a state [St]: it returns or raises, and leaves a state. *)
Definition M (St A : Type) : Type := St -> outcome A * St.

Definition ret {St A : Type} (a : A) : M St A := fun s => (Return a, s).

Definition raise {St A : Type} (e : exn) : M St A := fun s => (Raise e, s).

Definition bind {St A B : Type} (m : M St A) (k : A -> M St B) : M St B :=
  fun s =>
    match m s with
    | (Return a, s') => k a s'
    | (Raise e, s') => (Raise e, s')
    end.

(** [try: m / except Exception as e: h e / else: k]. *)
Definition try_except_else {St A B : Type} (m : M St A) (h : exn -> M St B)
    (k : A -> M St B) : M St B :=
  fun s =>
    match m s with
    | (Return a, s') => k a s'
    | (Raise e, s') => h e s'
    end.

(** [try: m / except Exception as e: h e]. *)
Definition try_except {St A : Type} (m : M St A) (h : exn -> M St A) : M St A :=
  try_except_else m h ret.

(** A computation that does not touch the state. *)
Definition lift {St A : Type} (o : outcome A) : M St A := fun s => (o, s).

Declare Scope py_scope.
Delimit Scope py_scope with py.
Notation "'let!' x ':=' m 'in' k" := (bind m (fun x => k))
  (at level 10, x name, m at level 200, k at level 200) : py_scope.
Notation "'do!' m 'in' k" := (bind m (fun _ => k))
  (at level 10, m at level 200, k at level 200) : py_scope.
Local Open Scope py_scope.

(** ** Python built-ins the bank uses *)

(** [sorted(l, key=key, reverse=True)]: descending by key, and stable, so
    items with equal keys stay in the order they had in [l]. *)
Fixpoint insert_desc {A : Type} (key : A -> Z) (x : A) (l : list A) : list A :=
  match l with
  | [] => [x]
  | y :: l' => if key x <? key y then y :: insert_desc key x l' else x :: l
  end.

Definition sorted_reverse {A : Type} (key : A -> Z) (l : list A) : list A :=
  foldr (insert_desc key) [] l.

(** [l[:stop]]: a negative [stop] counts from the end of the list. *)
Definition slice_to {A : Type} (stop : Z) (l : list A) : list A :=
  if stop <? 0 then take (Z.to_nat (Z.of_nat (length l) + stop)) l
  else take (Z.to_nat stop) l.

(** [del d[k]] on a dict of accounts. *)
Definition dict_del (k : Z) (d : accounts) : accounts :=
  filter (fun kv => kv.1 ≠ k) d.

(** ** Access to the store and to the caches *)

Definition with_config (c : Config) (s : State) : State :=
  {| _config := c; _cache_is_global := _cache_is_global s;
     _cache := _cache s; writes := writes s |}.

Definition with_cache_is_global (v : option bool) (s : State) : State :=
  {| _config := _config s; _cache_is_global := v;
     _cache := _cache s; writes := writes s |}.

Definition with_cache (c : SettingsCache) (s : State) : State :=
  {| _config := _config s; _cache_is_global := _cache_is_global s;
     _cache := c; writes := writes s |}.

Definition count_write (s : State) : State :=
  {| _config := _config s; _cache_is_global := _cache_is_global s;
     _cache := _cache s; writes := S (writes s) |}.

Definition with_currency (v : option string) (c : SettingsCache) : SettingsCache :=
  {| c_bank_name := c_bank_name c; c_currency := v;
     c_default_balance := c_default_balance c; c_max_balance := c_max_balance c |}.

Definition with_default_balance (v : option Z) (c : SettingsCache) : SettingsCache :=
  {| c_bank_name := c_bank_name c; c_currency := c_currency c;
     c_default_balance := v; c_max_balance := c_max_balance c |}.

Definition with_max_balance (v : option Z) (c : SettingsCache) : SettingsCache :=
  {| c_bank_name := c_bank_name c; c_currency := c_currency c;
     c_default_balance := c_default_balance c; c_max_balance := v |}.

Definition with_users (d : accounts) (c : Config) : Config :=
  {| cfg_is_global := cfg_is_global c; cfg_global := cfg_global c;
     cfg_guilds := cfg_guilds c; cfg_users := d; cfg_members := cfg_members c |}.

Definition with_members (m : gmap Z accounts) (c : Config) : Config :=
  {| cfg_is_global := cfg_is_global c; cfg_global := cfg_global c;
     cfg_guilds := cfg_guilds c; cfg_users := cfg_users c; cfg_members := m |}.

Definition with_is_global (b : bool) (c : Config) : Config :=
  {| cfg_is_global := b; cfg_global := cfg_global c;
     cfg_guilds := cfg_guilds c; cfg_users := cfg_users c;
     cfg_members := cfg_members c |}.

Definition with_balance (v : Z) (a : Account) : Account :=
  {| name := name a; balance := v; created_at := created_at a |}.

Definition with_created_at (v : Z) (a : Account) : Account :=
  {| name := name a; balance := balance a; created_at := v |}.

Definition with_name (v : string) (a : Account) : Account :=
  {| name := v; balance := balance a; created_at := created_at a |}.

(** [_config.all_users()] and [_config.all_members(guild)]. *)
Definition all_users (c : Config) : accounts := cfg_users c.

Definition all_members (g : discord.Guild) (c : Config) : accounts :=
  default [] (cfg_members c !! discord.guild_id g).

(** [_config.guild(guild)]: the guild's settings, registered defaults when
    nothing was stored. *)
Definition guild_settings (g : discord.Guild) (c : Config) : Settings :=
  default _DEFAULT_GUILD (cfg_guilds c !! discord.guild_id g).

(** The group of one account: [_config.user(member)] in the global namespace,
    [_config.member(member)] in a guild's. *)
Inductive group : Type :=
  | user_group (user_id : Z)
  | member_group (guild_id : Z) (member_id : Z).

#[global] Instance group_eq_dec : EqDecision group.
Proof. solve_decision. Defined.

Definition group_get (gr : group) (c : Config) : Account :=
  match gr with
  | user_group uid => default _DEFAULT_MEMBER (dict_get uid (cfg_users c))
  | member_group gid mid =>
      default _DEFAULT_MEMBER (dict_get mid (default [] (cfg_members c !! gid)))
  end.

Definition group_update (gr : group) (f : Account -> Account) (c : Config) : Config :=
  match gr with
  | user_group uid =>
      with_users (dict_update uid f _DEFAULT_MEMBER (cfg_users c)) c
  | member_group gid mid =>
      with_members
        (<[gid := dict_update mid f _DEFAULT_MEMBER
                    (default [] (cfg_members c !! gid))]> (cfg_members c)) c
  end.

(** ** The schema migration *)

(** A number as the store's JSON holds it: an integer, or a Python float (an
    IEEE 754 double: zero, infinity, nan, or [(-1)^s * m * 2^e]). *)
Inductive number : Type :=
  | Int (z : Z)
  | Float (f : spec_float).

(** Python's [int(x)]: a float is truncated towards zero; an infinity or a
    nan has no integer. *)
Definition int (x : number) : outcome Z :=
  match x with
  | Int z => Return z
  | Float (S754_zero _) => Return 0
  | Float (S754_finite s m e) =>
      let v := if 0 <=? e then Z.pos m * 2 ^ e else Z.pos m / 2 ^ (- e) in
      Return (if s then - v else v)
  | Float (S754_infinity _) => Raise OverflowError
  | Float S754_nan => Raise (ValueError NotANumber)
  end.

(** An account as the driver holds it before the migration: a dict in which
    any key may be missing and the balance may be a float. *)
Record raw_account : Type := {
  raw_name : option string;
  raw_balance : option number;
  raw_created_at : option Z
}.

Abbreviation raw_accounts := (list (Z * raw_account)).

(** Modelled from the spec: the raw contents of the store that the migration
    reads and writes through [Config]'s base groups: the schema version, the
    USER group (identity to record) and the MEMBER group (guild to identity to
    record), each a dict in insertion order. *)
Record RawConfig : Type := {
  schema_version : Z;
  USER : raw_accounts;
  MEMBER : list (Z * raw_accounts)
}.

Abbreviation migration := (M RawConfig).

Definition _SCHEMA_VERSION : Z := 1.

Definition with_raw_balance (v : option number) (a : raw_account) : raw_account :=
  {| raw_name := raw_name a; raw_balance := v; raw_created_at := raw_created_at a |}.

Definition with_schema_version (v : Z) (c : RawConfig) : RawConfig :=
  {| schema_version := v; USER := USER c; MEMBER := MEMBER c |}.

Definition with_USER (d : raw_accounts) (c : RawConfig) : RawConfig :=
  {| schema_version := schema_version c; USER := d; MEMBER := MEMBER c |}.

Definition with_MEMBER (d : list (Z * raw_accounts)) (c : RawConfig) : RawConfig :=
  {| schema_version := schema_version c; USER := USER c; MEMBER := d |}.

(** [group.all()] and [group.set(data)] of a base group. *)
Definition group_all {A : Type} (f : RawConfig -> A) : migration A :=
  fun c => (Return (f c), c).

Definition group_set (upd : RawConfig -> RawConfig) : migration unit :=
  fun c => (Return tt, upd c).

(** The body of both loops:
    [if "balance" in user_config: user_config["balance"] = int(user_config["balance"])]. *)
Definition balance_to_int (user_config : raw_account) : outcome raw_account :=
  match raw_balance user_config with
  | None => Return user_config
  | Some b =>
      match int b with
      | Return z => Return (with_raw_balance (Some (Int z)) user_config)
      | Raise e => Raise e
      end
  end.

(** [for v in d.values(): body(v)], on the dict read from the store; the
    first exception ends the loop. *)
Fixpoint for_values {V : Type} (body : V -> outcome V) (d : list (Z * V))
    : outcome (list (Z * V)) :=
  match d with
  | [] => Return []
  | (k, v) :: d' =>
      match body v with
      | Raise e => Raise e
      | Return v' =>
          match for_values body d' with
          | Raise e => Raise e
          | Return r => Return ((k, v') :: r)
          end
      end
  end.

Definition _schema_0_to_1 : migration unit :=
  let! bank_user_data := group_all USER in
  let! bank_user_data := lift (for_values balance_to_int bank_user_data) in
  do! group_set (with_USER bank_user_data) in
  let! bank_member_data := group_all MEMBER in
  let! bank_member_data :=
    lift (for_values (for_values balance_to_int) bank_member_data) in
  group_set (with_MEMBER bank_member_data).

Definition _migrate_config : migration unit :=
  let! schema_version := group_all schema_version in
  if bool_decide (schema_version = _SCHEMA_VERSION) then ret tt
  else if bool_decide (schema_version = 0) then
    do! _schema_0_to_1 in
    let schema_version := schema_version + 1 in
    group_set (with_schema_version schema_version)
  else ret tt.

(** What the spec asks of the migration: the integer part of a stored
    number, and an account with its balance, when it has one, replaced by
    that integer. *)
Definition integer_part (x : number) : Z :=
  match x with
  | Int z => z
  | Float (S754_finite s m e) =>
      Z.quot ((if s then -1 else 1) * Z.pos m * 2 ^ Z.max 0 e) (2 ^ Z.max 0 (- e))
  | Float _ => 0
  end.

Definition truncated (a : raw_account) : raw_account :=
  with_raw_balance ((fun b => Int (integer_part b)) <$> raw_balance a) a.

(** The numbers that have an integer part: integers and finite floats. *)
Definition is_finite (x : number) : bool :=
  match x with
  | Int _ => true
  | Float (S754_zero _) => true
  | Float (S754_finite _ _ _) => true
  | Float _ => false
  end.

Definition finite_balance (a : raw_account) : bool :=
  match raw_balance a with
  | None => true
  | Some b => is_finite b
  end.

Definition finite_balances (c : RawConfig) : bool :=
  forallb (fun kv => finite_balance kv.2) (USER c)
  && forallb (fun gd => forallb (fun kv => finite_balance kv.2) gd.2) (MEMBER c).

(** ** Time *)

(** The timestamps of the years 1 to 9999, the ones a [datetime] holds. *)
Definition in_datetime_range (time : Z) : bool :=
  (-62135596800 <=? time) && (time <=? 253402300799).

(** A [datetime], held as its timestamp (seconds since 1970, in UTC). *)
Record datetime : Type := {
  timestamp : Z;
  timestamp_in_range : in_datetime_range timestamp = true
}.

(** [int(time.timestamp())]. Python reads a naive datetime in the local
    zone; the zone is taken to be UTC. *)
Definition _encode_time (time : datetime) : Z := timestamp time.

(** [datetime.utcfromtimestamp(time)], as CPython does it where [time_t] has
    64 bits: outside the years 1 to 9999 it raises [ValueError] while the C
    library can still break the timestamp down, [OSError] when it cannot,
    and [OverflowError] when the timestamp does not fit [time_t]. *)
Definition _decode_time (time : Z) : outcome datetime :=
  match decide (in_datetime_range time = true) with
  | left in_range =>
      Return {| timestamp := time; timestamp_in_range := in_range |}
  | right _ =>
      if (-67768040609740800 <=? time) && (time <=? 67768036191676799)
      then Raise (ValueError YearOutOfRange)
      else if (- 2 ^ 63 <=? time) && (time <? 2 ^ 63) then Raise OSError
      else Raise OverflowError
  end.

(** The coroutines of the bank. *)
Abbreviation bank := (M State).

Section Bank.

(** Modelled from the spec: the store is a shared, possibly remote resource
    whose operations may fail (sections 5 and 7). [write_fails n] tells whether
    the store refuses the write it is asked to do after [n] earlier ones; a
    refused write raises and changes nothing. Reads are served from memory. *)
Variable write_fails : nat -> bool.

(** What [datetime.utcnow()] returns: a datetime, so a time of the years 1
    to 9999. *)
Variable utcnow : datetime.

Definition _encoded_current_time : Z := _encode_time utcnow.

Local Abbreviation now := _encoded_current_time.

Definition store_read {A : Type} (f : Config -> A) : bank A :=
  fun s => (Return (f (_config s)), s).

Definition store_write (upd : Config -> Config) : bank unit :=
  fun s =>
    if write_fails (writes s) then (Raise StoreError, count_write s)
    else (Return tt, count_write (with_config (upd (_config s)) s)).

Definition cache_read {A : Type} (f : SettingsCache -> A) : bank A :=
  fun s => (Return (f (_cache s)), s).

Definition cache_write (upd : SettingsCache -> SettingsCache) : bank unit :=
  fun s => (Return tt, with_cache (upd (_cache s)) s).

(** [member.guild], which a [discord.User] does not have. *)
Definition attr_guild (member : discord.Member) : bank discord.Guild :=
  match discord.guild member with
  | Some g => ret g
  | None => raise AttributeError
  end.

(** ** The mode and the settings *)

Definition is_global : bank bool :=
  fun s =>
    match _cache_is_global s with
    | None =>
        let v := cfg_is_global (_config s) in
        (Return v, with_cache_is_global (Some v) s)
    | Some v => (Return v, s)
    end.

Definition get_currency_name (guild : option discord.Guild) : bank string :=
  let! g := is_global in
  if g then
    let! cached := cache_read c_currency in
    match cached with
    | None =>
        let! v := store_read (fun c => currency (cfg_global c)) in
        do! cache_write (with_currency (Some v)) in
        ret v
    | Some v => ret v
    end
  else
    match guild with
    | Some gd => store_read (fun c => currency (guild_settings gd c))
    | None => raise RuntimeError
    end.

Definition get_max_balance (guild : option discord.Guild) : bank Z :=
  let! g := is_global in
  if g then
    let! cached := cache_read c_max_balance in
    match cached with
    | None =>
        let! v := store_read (fun c => max_balance (cfg_global c)) in
        do! cache_write (with_max_balance (Some v)) in
        ret v
    | Some v => ret v
    end
  else
    match guild with
    | Some gd => store_read (fun c => max_balance (guild_settings gd c))
    | None => raise RuntimeError
    end.

Definition get_default_balance (guild : option discord.Guild) : bank Z :=
  let! g := is_global in
  if g then
    let! cached := cache_read c_default_balance in
    match cached with
    | None =>
        let! v := store_read (fun c => default_balance (cfg_global c)) in
        do! cache_write (with_default_balance (Some v)) in
        ret v
    | Some v => ret v
    end
  else
    match guild with
    | Some gd => store_read (fun c => default_balance (guild_settings gd c))
    | None => raise RuntimeError
    end.

Definition clear_all_users : bank unit := store_write (with_users []).

Definition clear_all_members (guild : option discord.Guild) : bank unit :=
  match guild with
  | None => store_write (with_members ∅)
  | Some gd =>
      store_write (fun c => with_members (delete (discord.guild_id gd) (cfg_members c)) c)
  end.

Definition set_global (global_ : bool) : bank bool :=
  let! g := is_global in
  if bool_decide (g = global_) then ret global_
  else
    let! g' := is_global in
    do! (if g' then clear_all_users else clear_all_members None) in
    do! store_write (with_is_global global_) in
    do! (fun s => (Return tt, with_cache_is_global (Some global_) s)) in
    ret global_.

Definition wipe_bank (guild : option discord.Guild) : bank unit :=
  let! g := is_global in
  if g then clear_all_users else clear_all_members guild.

(** ** The account store *)

Definition get_account (member : discord.Member) : bank Account :=
  let! g := is_global in
  let! all_accounts :=
    (if g then store_read all_users
     else let! gd := attr_guild member in store_read (all_members gd)) in
  let! acc_data :=
    match dict_get (discord.id member) all_accounts with
    | None =>
        let! bal :=
          try_except
            (let! gd := attr_guild member in get_default_balance (Some gd))
            (fun e =>
               match e with
               | AttributeError => get_default_balance None
               | _ => raise e
               end) in
        ret {| name := discord.display_name member; balance := bal;
               created_at := created_at _DEFAULT_MEMBER |}
    | Some acc_data => ret acc_data
    end in
  let! time := lift (_decode_time (created_at acc_data)) in
  (* the [Account] holds the datetime, here as its timestamp *)
  ret (with_created_at (timestamp time) acc_data).

Definition get_balance (member : discord.Member) : bank Z :=
  let! acc := get_account member in
  ret (balance acc).

Definition _invalid_amount (amount : Z) : bool := amount <? 0.

Definition can_spend (member : discord.Member) (amount : Z) : bank bool :=
  if _invalid_amount amount then ret false
  else
    let! bal := get_balance member in
    ret (bool_decide (bal >= amount)).

Definition set_balance (member : discord.Member) (amount : Z) : bank Z :=
  if amount <? 0 then raise (ValueError NegativeBalance)
  else
    let guild := discord.guild member in
    let! max_bal := get_max_balance guild in
    if amount >? max_bal then
      let! currency := get_currency_name guild in
      raise (BalanceTooHigh (discord.display_name member) max_bal currency)
    else
      let! g := is_global in
      let! gr :=
        (if g then ret (user_group (discord.id member))
         else
           let! gd := attr_guild member in
           ret (member_group (discord.guild_id gd) (discord.id member))) in
      do! store_write (group_update gr (with_balance amount)) in
      let! c := store_read (fun c => created_at (group_get gr c)) in
      do! (if bool_decide (c = 0) then
             store_write (group_update gr (with_created_at now))
           else ret tt) in
      let! n := store_read (fun c => name (group_get gr c)) in
      do! (if bool_decide (n = ""%string) then
             store_write (group_update gr (with_name (discord.display_name member)))
           else ret tt) in
      ret amount.

(** ** The transfer engine *)

Definition withdraw_credits (member : discord.Member) (amount : Z) : bank Z :=
  if _invalid_amount amount then raise (ValueError InvalidWithdrawal)
  else
    let! bal := get_balance member in
    if amount >? bal then raise (ValueError InsufficientFunds)
    else set_balance member (bal - amount).

Definition deposit_credits (member : discord.Member) (amount : Z) : bank Z :=
  if _invalid_amount amount then raise (ValueError InvalidDeposit)
  else
    let! bal := get_balance member in
    set_balance member (amount + bal).

Definition transfer_credits (from_ to : discord.Member) (amount : Z) : bank Z :=
  if _invalid_amount amount then raise (ValueError InvalidTransfer)
  else
    let guild := discord.guild to in
    let! max_bal := get_max_balance guild in
    let! bal_to := get_balance to in
    if bal_to + amount >? max_bal then
      let! currency := get_currency_name guild in
      raise (BalanceTooHigh (discord.display_name to) max_bal currency)
    else
      do! withdraw_credits from_ amount in
      deposit_credits to amount.

(** ** The leaderboard *)

(** The loop of [get_leaderboard] that drops, from a copy's keys, every
    account whose owner is not a member of the guild. *)
Definition drop_non_members (gd : discord.Guild) (tmp raw_accounts : accounts)
    : accounts :=
  foldl
    (fun d kv => if discord.get_member gd kv.1 then d else dict_del kv.1 d)
    raw_accounts tmp.

Definition get_leaderboard (positions : option Z) (guild : option discord.Guild)
    : bank accounts :=
  let! g := is_global in
  let! raw_accounts :=
    (if g then
       let! raw := store_read all_users in
       match guild with
       | Some gd => ret (drop_non_members gd raw raw)
       | None => ret raw
       end
     else
       match guild with
       | None => raise TypeError
       | Some gd => store_read (all_members gd)
       end) in
  let sorted_acc := sorted_reverse (fun x => balance x.2) raw_accounts in
  ret (match positions with
       | None => sorted_acc
       | Some p => slice_to p sorted_acc
       end).

(** ** The purchase guard *)

(** The coroutine that [cost(amount)] puts around [coro]; [context] is the
    first [commands.Context] among its arguments, if any. [None] is what it
    returns after a purchase was aborted. *)
Definition wrapped {A : Type} (amount : Z) (coro : bank A)
    (context : option commands.Context) : bank (option A) :=
  match context with
  | None => raise AttributeError
  | Some context =>
      let! no_bank :=
        (match commands.guild context with
         | Some _ => ret false
         | None => let! g := is_global in ret (negb g)
         end) in
      if (no_bank : bool) then
        raise (UserFeedbackCheckFailure NoGlobalBankInDM)
      else
        try_except_else
          (withdraw_credits (commands.author context) amount)
          (fun _ =>
             let! credits_name := get_currency_name (commands.guild context) in
             raise (UserFeedbackCheckFailure (NeedAtLeast amount credits_name)))
          (fun _ =>
             try_except
               (let! r := coro in ret (Some r))
               (fun e =>
                  match e with
                  | AbortPurchase =>
                      do! deposit_credits (commands.author context) amount in
                      ret None
                  | _ =>
                      do! deposit_credits (commands.author context) amount in
                      raise e
                  end))
  end.

(** [cost(amount)] itself: the decorator, or a [ValueError]. *)
Definition cost {A : Type} (amount : Z)
    : outcome (bank A -> option commands.Context -> bank (option A)) :=
  if amount <? 0 then Raise (ValueError InvalidCost)
  else Return (wrapped amount).


(** ** What a state shows to the bank

    The caches are filled on first use and then trusted, so the bank never
    sees the stored mode or the stored global settings once a cached value
    exists. A [View] is what the coroutines can observe of a state. *)

Record View : Type := {
  v_config : Config;
  v_writes : nat;
  v_mode : bool;          (* what [is_global()] answers *)
  v_settings : Settings   (* what the getters answer for the global scope *)
}.

Definition view (s : State) : View :=
  {| v_config := _config s;
     v_writes := writes s;
     v_mode := default (cfg_is_global (_config s)) (_cache_is_global s);
     v_settings :=
       {| bank_name :=
            default (bank_name (cfg_global (_config s))) (c_bank_name (_cache s));
          currency :=
            default (currency (cfg_global (_config s))) (c_currency (_cache s));
          default_balance :=
            default (default_balance (cfg_global (_config s)))
                    (c_default_balance (_cache s));
          max_balance :=
            default (max_balance (cfg_global (_config s)))
                    (c_max_balance (_cache s)) |} |}.

Arguments view : simpl never.

(** The setting [field] of the scope a call resolves to. *)
Definition setting_of {A : Type} (field : Settings -> A) (v : View)
    (guild : option discord.Guild) : outcome A :=
  if v_mode v then Return (field (v_settings v))
  else
    match guild with
    | Some gd => Return (field (guild_settings gd (v_config v)))
    | None => Raise RuntimeError
    end.

(** The group in which a member's account lives. *)
Definition group_of (v : View) (member : discord.Member) : option group :=
  if v_mode v then Some (user_group (discord.id member))
  else
    match discord.guild member with
    | Some gd => Some (member_group (discord.guild_id gd) (discord.id member))
    | None => None
    end.

(** The accounts of a group's namespace. *)
Definition namespace (gr : group) (c : Config) : accounts :=
  match gr with
  | user_group _ => cfg_users c
  | member_group gid _ => default [] (cfg_members c !! gid)
  end.

Definition group_key (gr : group) : Z :=
  match gr with
  | user_group uid => uid
  | member_group _ mid => mid
  end.

(** The balance the bank reports for a member: the persisted one, when the
    creation time persisted with it can be decoded, or the default balance
    of the scope when nothing is persisted. *)
Definition balance_of (v : View) (member : discord.Member) : outcome Z :=
  match group_of v member with
  | None => Raise AttributeError
  | Some gr =>
      match dict_get (group_key gr) (namespace gr (v_config v)) with
      | Some acc =>
          outcome_map (fun _ => balance acc) (_decode_time (created_at acc))
      | None => setting_of default_balance v (discord.guild member)
      end
  end.

(** The creation time persisted for the account [gr], if any, is one that
    [_decode_time] decodes. *)
Definition readable (gr : group) (c : Config) : Prop :=
  in_datetime_range (created_at (group_get gr c)) = true.

(** What a successful [set_balance] leaves in the store. *)
Definition persisted (gr : group) (display_name : string) (amount : Z) (c : Config)
    : Config :=
  let c1 := group_update gr (with_balance amount) c in
  let c2 :=
    if bool_decide (created_at (group_get gr c1) = 0)
    then group_update gr (with_created_at now) c1 else c1 in
  if bool_decide (name (group_get gr c2) = ""%string)
  then group_update gr (with_name display_name) c2 else c2.

(** A coroutine that only reads: it answers [f] of the view and leaves the
    view as it was. *)
Definition reads {A : Type} (m : bank A) (f : View -> outcome A) : Prop :=
  forall s, exists s', m s = (f (view s), s') /\ view s' = view s.

(** ** Sequences of balance-mutating operations *)

Inductive operation : Type :=
  | SetBalance (member : discord.Member) (amount : Z)
  | WithdrawCredits (member : discord.Member) (amount : Z)
  | DepositCredits (member : discord.Member) (amount : Z)
  | TransferCredits (from_ to : discord.Member) (amount : Z).

Definition run_operation (op : operation) : bank Z :=
  match op with
  | SetBalance member amount => set_balance member amount
  | WithdrawCredits member amount => withdraw_credits member amount
  | DepositCredits member amount => deposit_credits member amount
  | TransferCredits from_ to amount => transfer_credits from_ to amount
  end.

(** The operations one after the other, up to the first that raises. *)
Fixpoint run_operations (ops : list operation) : bank unit :=
  match ops with
  | [] => ret tt
  | op :: ops' => do! run_operation op in run_operations ops'
  end.

(** Every persisted balance lies between zero and the maximum of its scope:
    the global maximum, as the bank resolves it, for the accounts of the
    global namespace, and the guild's maximum for the accounts of a guild. *)
Definition balances_bounded (s : State) : Prop :=
  Forall (fun kv => 0 <= balance kv.2 <= max_balance (v_settings (view s)))
         (cfg_users (_config s))
  /\ map_Forall
       (fun gid d =>
          Forall (fun kv =>
                    0 <= balance kv.2
                    <= max_balance (default _DEFAULT_GUILD
                                            (cfg_guilds (_config s) !! gid))) d)
       (cfg_members (_config s)).

(** ** What the leaderboard ranks *)

(** The accounts [get_leaderboard] ranks: in the global mode every user, or
    the users that are members of the guild it was given; in the local mode
    the members of that guild. *)
Inductive ranked (s : State) : option discord.Guild -> accounts -> Prop :=
  | ranked_users :
      v_mode (view s) = true ->
      ranked s None (cfg_users (_config s))
  | ranked_guild_users gd :
      v_mode (view s) = true ->
      ranked s (Some gd)
             (filter (fun kv => discord.get_member gd kv.1) (cfg_users (_config s)))
  | ranked_members gd :
      v_mode (view s) = false ->
      ranked s (Some gd) (all_members gd (_config s)).

(** An account ranks before another when its balance is at least as high. *)
Definition ranks_before (x y : Z * Account) : Prop :=
  balance y.2 <= balance x.2.

(** ** The settings, written *)

Definition with_bank_name (v : option string) (c : SettingsCache) : SettingsCache :=
  {| c_bank_name := v; c_currency := c_currency c;
     c_default_balance := c_default_balance c; c_max_balance := c_max_balance c |}.

Definition bank_name_set (v : string) (st : Settings) : Settings :=
  {| bank_name := v; currency := currency st;
     default_balance := default_balance st; max_balance := max_balance st |}.

Definition currency_set (v : string) (st : Settings) : Settings :=
  {| bank_name := bank_name st; currency := v;
     default_balance := default_balance st; max_balance := max_balance st |}.

Definition default_balance_set (v : Z) (st : Settings) : Settings :=
  {| bank_name := bank_name st; currency := currency st;
     default_balance := v; max_balance := max_balance st |}.

Definition max_balance_set (v : Z) (st : Settings) : Settings :=
  {| bank_name := bank_name st; currency := currency st;
     default_balance := default_balance st; max_balance := v |}.

(** [_config.<setting>.set(v)]: a write to the global settings. *)
Definition with_global (f : Settings -> Settings) (c : Config) : Config :=
  {| cfg_is_global := cfg_is_global c; cfg_global := f (cfg_global c);
     cfg_guilds := cfg_guilds c; cfg_users := cfg_users c;
     cfg_members := cfg_members c |}.

(** [_config.guild(guild).<setting>.set(v)]: a write to a guild's settings. *)
Definition with_guild (gd : discord.Guild) (f : Settings -> Settings) (c : Config)
    : Config :=
  {| cfg_is_global := cfg_is_global c; cfg_global := cfg_global c;
     cfg_guilds := <[discord.guild_id gd := f (guild_settings gd c)]> (cfg_guilds c);
     cfg_users := cfg_users c; cfg_members := cfg_members c |}.

Definition get_bank_name (guild : option discord.Guild) : bank string :=
  let! g := is_global in
  if g then
    let! cached := cache_read c_bank_name in
    match cached with
    | None =>
        let! v := store_read (fun c => bank_name (cfg_global c)) in
        do! cache_write (with_bank_name (Some v)) in
        ret v
    | Some v => ret v
    end
  else
    match guild with
    | Some gd => store_read (fun c => bank_name (guild_settings gd c))
    | None => raise RuntimeError
    end.

(** The common shape of the four setters once the value was accepted:
    store and cache in the global mode, the guild's settings otherwise. *)
Definition set_setting {A : Type} (field_set : A -> Settings -> Settings)
    (cache_set : option A -> SettingsCache -> SettingsCache)
    (v : A) (guild : option discord.Guild) : bank A :=
  let! g := is_global in
  do! (if g then
         do! store_write (with_global (field_set v)) in
         cache_write (cache_set (Some v))
       else
         match guild with
         | Some gd => store_write (with_guild gd (field_set v))
         | None => raise RuntimeError
         end) in
  ret v.

Definition set_bank_name (name_ : string) (guild : option discord.Guild)
    : bank string :=
  set_setting bank_name_set with_bank_name name_ guild.

Definition set_currency_name (name_ : string) (guild : option discord.Guild)
    : bank string :=
  set_setting currency_set with_currency name_ guild.

Definition set_max_balance (amount : Z) (guild : option discord.Guild) : bank Z :=
  if negb ((0 <? amount) && (amount <=? _MAX_BALANCE)) then
    raise (ValueError MaxBalanceOutOfRange)
  else set_setting max_balance_set with_max_balance amount guild.

Definition set_default_balance (amount : Z) (guild : option discord.Guild)
    : bank Z :=
  let! max_bal := get_max_balance guild in
  if negb ((0 <=? amount) && (amount <=? max_bal)) then
    raise (ValueError DefaultBalanceOutOfRange)
  else set_setting default_balance_set with_default_balance amount guild.

(** ** The position on the leaderboard *)

(** [enumerate(l, start)]. *)
Fixpoint enumerate {A : Type} (start : Z) (l : list A) : list (Z * A) :=
  match l with
  | [] => []
  | x :: l' => (start, x) :: enumerate (start + 1) l'
  end.

(** [discord.utils.find(predicate, iterable)]: the first item that
    satisfies the predicate, if any. *)
Fixpoint utils_find {A : Type} (predicate : A -> bool) (l : list A) : option A :=
  match l with
  | [] => None
  | x :: l' => if predicate x then Some x else utils_find predicate l'
  end.

Definition get_leaderboard_position (member : discord.Member) : bank (option Z) :=
  let! g := is_global in
  let guild := if g then None else discord.guild member in
  let! leaderboard :=
    try_except (get_leaderboard None guild) (fun e => raise e) in
  let pos :=
    utils_find (fun x : Z * (Z * Account) =>
                  bool_decide (x.2.1 = discord.id member))
               (enumerate 1 leaderboard) in
  ret (match pos with
       | None => None
       | Some pos => Some pos.1
       end).

(** ** Data deletion *)

(** [for x in l: body(x)] over coroutines. *)
Fixpoint for_each {St A : Type} (l : list A) (body : A -> M St unit) : M St unit :=
  match l with
  | [] => ret tt
  | x :: l' => do! body x in for_each l' body
  end.

(** [_config.user_from_id(user_id).clear()] and
    [_config.member_from_ids(guild_id, user_id).clear()]. *)
Definition group_clear (gr : group) (c : Config) : Config :=
  match gr with
  | user_group uid => with_users (dict_del uid (cfg_users c)) c
  | member_group gid mid =>
      match cfg_members c !! gid with
      | Some d => with_members (<[gid := dict_del mid d]> (cfg_members c)) c
      | None => c
      end
  end.

(** [_process_data_deletion]: the requester only decides whether a warning
    is logged. The guilds are visited in the order in which [all_members()]
    lists them. *)
Definition _process_data_deletion (user_id : Z) : bank unit :=
  do! store_write (group_clear (user_group user_id)) in
  let! all_members := store_read (fun c => map_to_list (cfg_members c)) in
  for_each all_members
    (fun '(guild_id, member_dict) =>
       if bool_decide (is_Some (dict_get user_id member_dict)) then
         store_write (group_clear (member_group guild_id user_id))
       else ret tt).

(** ** Pruning *)

(** What the gateway cache says of a guild, beside its id and its members. *)
Record GuildStatus : Type := {
  unavailable : bool;
  large : bool;
  chunked : bool
}.

(** A guild as [bank_prune] sees it. *)
Abbreviation cached_guild := (discord.Guild * GuildStatus)%type.

(** The guild after [await guild.chunk()]: the same guild with the members
    the gateway lists for it. *)
Variable chunk : discord.Guild -> discord.Guild.

(** The base groups [_config._get_base_group(_config.USER)] and
    [_config._get_base_group(_config.MEMBER, str(guild.id))]. *)
Inductive base_group : Type :=
  | USER_group
  | MEMBER_group (guild_id : Z).

Definition base_group_all (gr : base_group) (c : Config) : accounts :=
  match gr with
  | USER_group => cfg_users c
  | MEMBER_group gid => default [] (cfg_members c !! gid)
  end.

Definition base_group_set (gr : base_group) (d : accounts) (c : Config) : Config :=
  match gr with
  | USER_group => with_users d c
  | MEMBER_group gid => with_members (<[gid := d]> (cfg_members c)) c
  end.

(** [g in guilds], guilds being compared by identity. *)
Definition guild_in (g : discord.Guild) (guilds : list cached_guild) : bool :=
  bool_decide (discord.guild_id g ∈ (fun x : cached_guild => discord.guild_id x.1) <$> guilds).

(** The members of a guild once the guilds of [_guilds] were chunked. *)
Definition members_of (_guilds : list cached_guild) (g : cached_guild) : list Z :=
  discord.member_ids (if guild_in g.1 _guilds then chunk g.1 else g.1).

(** [{str(m.id) for m in members if m.guild not in _uguilds}], members being
    listed guild by guild. *)
Definition user_list_of (_guilds _uguilds guilds : list cached_guild) : list Z :=
  concat ((fun g : cached_guild =>
             if guild_in g.1 _uguilds then [] else members_of _guilds g) <$> guilds).

(** [for acc in tmp: if acc not in user_list: del bank_data[acc]]. *)
Definition prune_loop (user_list : list Z) (tmp bank_data : accounts) : accounts :=
  foldl
    (fun d kv => if bool_decide (kv.1 ∈ user_list) then d else dict_del kv.1 d)
    bank_data tmp.

#[global] Instance Account_eq_dec : EqDecision Account.
Proof. solve_decision. Defined.

(** [async with group.all() as bank_data: body]: the body works on a copy of
    the group's data, and the copy is written back when it is no longer equal
    to what was read (the comparison the comment in [_schema_0_to_1] speaks
    of). *)
Definition group_all_ctx (gr : base_group) (body : accounts -> accounts)
    : bank unit :=
  let! original := store_read (base_group_all gr) in
  let bank_data := body original in
  if bool_decide (bank_data = original) then ret tt
  else store_write (base_group_set gr bank_data).

Definition bank_prune (bot_guilds : list cached_guild) (guild : option cached_guild)
    (user_id : option Z) : bank unit :=
  let! global_bank := is_global in
  let! found :=
    (if global_bank then
       ret (match user_id with
            | None =>
                (filter (fun g : cached_guild =>
                           negb (unavailable g.2) && large g.2 && negb (chunked g.2))
                        bot_guilds,
                 filter (fun g : cached_guild =>
                           negb (negb (unavailable g.2) && large g.2
                                 && negb (chunked g.2))
                           && unavailable g.2)
                        bot_guilds)
            | Some _ => ([], [])
            end, USER_group)
     else
       match guild with
       | None => raise BankPruneError
       | Some guild =>
           ret (match user_id with
                | None =>
                    (if negb (unavailable guild.2) && large guild.2
                     then [guild] else [],
                     if unavailable guild.2 then [guild] else [])
                | Some _ => ([], [])
                end, MEMBER_group (discord.guild_id guild.1))
       end) in
  let '(_guilds, _uguilds, gr) := found in
  match user_id with
  | None =>
      let! accounts := store_read (base_group_all gr) in
      let tmp := accounts in
      let members :=
        if global_bank then bot_guilds
        else match guild with Some guild => [guild] | None => [] end in
      let user_list := user_list_of _guilds _uguilds members in
      group_all_ctx gr (prune_loop user_list tmp)
  | Some user_id =>
      group_all_ctx gr
        (fun bank_data =>
           if bool_decide (is_Some (dict_get user_id bank_data))
           then dict_del user_id bank_data else bank_data)
  end.

(** ** What the further properties speak of *)

(** The members an operation names. *)
Definition parties (op : operation) : list discord.Member :=
  match op with
  | SetBalance member _ | WithdrawCredits member _ | DepositCredits member _ =>
      [member]
  | TransferCredits from_ to _ => [from_; to]
  end.

(** What [wrapped] does with an exception of the guarded coroutine. *)
Definition refund {A : Type} (context : commands.Context) (amount : Z) (e : exn)
    : bank (option A) :=
  match e with
  | AbortPurchase =>
      do! deposit_credits (commands.author context) amount in
      ret None
  | _ =>
      do! deposit_credits (commands.author context) amount in
      raise e
  end.

(** The settings the getters answer for the global scope, from the stored
    ones and the cache. *)
Definition resolved (st : Settings) (ca : SettingsCache) : Settings :=
  {| bank_name := default (bank_name st) (c_bank_name ca);
     currency := default (currency st) (c_currency ca);
     default_balance := default (default_balance st) (c_default_balance ca);
     max_balance := default (max_balance st) (c_max_balance ca) |}.

(** The view [v'] is [v] with [f] applied to the settings of the scope that
    [guild] resolves to: the global settings in the global mode, the
    settings of [guild] otherwise. *)
Definition settings_updated (f : Settings -> Settings)
    (guild : option discord.Guild) (v v' : View) : Prop :=
  v_mode v' = v_mode v
  /\ cfg_users (v_config v') = cfg_users (v_config v)
  /\ cfg_members (v_config v') = cfg_members (v_config v)
  /\ v_writes v' = S (v_writes v)
  /\ if v_mode v then
       v_settings v' = f (v_settings v)
       /\ cfg_guilds (v_config v') = cfg_guilds (v_config v)
     else
       v_settings v' = v_settings v
       /\ exists gd, guild = Some gd
            /\ cfg_guilds (v_config v')
               = <[discord.guild_id gd := f (guild_settings gd (v_config v))]>
                   (cfg_guilds (v_config v)).

(** The leaderboard a view gives. *)
Definition leaderboard_of (positions : option Z) (guild : option discord.Guild)
    (v : View) : outcome accounts :=
  let cut (raw : accounts) :=
    let sorted_acc := sorted_reverse (fun x => balance x.2) raw in
    match positions with
    | None => sorted_acc
    | Some p => slice_to p sorted_acc
    end in
  if v_mode v then
    Return (cut (match guild with
                 | Some gd =>
                     drop_non_members gd (cfg_users (v_config v))
                                      (cfg_users (v_config v))
                 | None => cfg_users (v_config v)
                 end))
  else
    match guild with
    | None => Raise TypeError
    | Some gd => Return (cut (all_members gd (v_config v)))
    end.

(** The place of the account [k] on a board. *)
Definition position_in (board : accounts) (k : Z) (pos : option Z) : Prop :=
  match pos with
  | Some p =>
      exists i acc,
        p = 1 + Z.of_nat i
        /\ board !! i = Some (k, acc)
        /\ forall j kv, (j < i)%nat -> board !! j = Some kv -> kv.1 <> k
  | None => forall acc, (k, acc) ∉ board
  end.

(** The members [bank_prune] reads from the one guild of a bank per guild:
    none when the guild is unavailable, the members after chunking when it
    is large. *)
Definition reachable_in (g : cached_guild) : list Z :=
  if unavailable g.2 then []
  else discord.member_ids (if large g.2 then chunk g.1 else g.1).

(** The identities [bank_prune] takes for known: the members of the guilds
    that are not unavailable, read after the guilds it has chunked (in the
    global mode the large guilds not yet chunked) were chunked. *)
Definition reachable (guilds : list cached_guild) : list Z :=
  concat ((fun g : cached_guild =>
             if unavailable g.2 then []
             else discord.member_ids
                    (if large g.2 && negb (chunked g.2) then chunk g.1 else g.1))
          <$> guilds).

(** ** Concrete stores and members *)

(** A clock that reads 42 seconds after the epoch. *)
Definition clock : datetime :=
  {| timestamp := 42; timestamp_in_range := eq_refl |}.

(** A store that accepts every write. *)
Definition no_fault : nat -> bool := fun _ => false.

(** A store that refuses the fourth write it is asked to do. *)
Definition fourth_write_fails (n : nat) : bool := bool_decide (n = 3%nat).

(** A store as registered, bank per guild, nothing persisted. *)
Definition fresh_config : Config :=
  {| cfg_is_global := false;
     cfg_global :=
       {| bank_name := "Twentysix bank"; currency := "credits";
          default_balance := 100; max_balance := _MAX_BALANCE |};
     cfg_guilds := ∅;
     cfg_users := [];
     cfg_members := ∅ |}.

Definition fresh_bank : State :=
  {| _config := fresh_config;
     _cache_is_global := None;
     _cache := {| c_bank_name := None; c_currency := None;
                  c_default_balance := None; c_max_balance := None |};
     writes := 0%nat |}.

Definition lounge : discord.Guild :=
  {| discord.guild_id := 7; discord.member_ids := [1; 2] |}.

Definition alice : discord.Member :=
  {| discord.id := 1; discord.display_name := "alice";
     discord.guild := Some lounge |}.

Definition bob : discord.Member :=
  {| discord.id := 2; discord.display_name := "bob";
     discord.guild := Some lounge |}.

(** The same store after the guild lowered its maximum balance to 50, below
    the default balance of 100. *)
Definition capped : State :=
  with_config
    (with_members ∅
       {| cfg_is_global := false;
          cfg_global := cfg_global fresh_config;
          cfg_guilds :=
            {[ 7 := {| bank_name := "Twentysix bank"; currency := "credits";
                       default_balance := 100; max_balance := 50 |} ]};
          cfg_users := [];
          cfg_members := ∅ |})
    fresh_bank.

Definition in_lounge : commands.Context :=
  {| commands.guild := Some lounge; commands.author := alice |}.

(** A command body that aborts its purchase at once. *)
Definition aborting : bank unit := raise AbortPurchase.

(** A store of schema version 0 that holds float balances. *)
Definition legacy : RawConfig :=
  {| schema_version := 0;
     USER :=
       [(1, {| raw_name := Some "alice"%string;
               raw_balance := Some (Float (S754_finite false 5629499534213120 (-50)));
               raw_created_at := Some 42 |})];
     MEMBER :=
       [(7, [(2, {| raw_name := None;
                    raw_balance := Some (Float (S754_finite true 6473924464345088 (-50)));
                    raw_created_at := None |});
             (3, {| raw_name := Some "carol"%string;
                    raw_balance := None;
                    raw_created_at := Some 7 |})])] |}.

Definition carol : discord.Member :=
  {| discord.id := 3; discord.display_name := "carol";
     discord.guild := Some lounge |}.

(** A bank per guild in which Alice and Carol hold accounts in the lounge;
    Carol is not among the members the lounge lists. *)
Definition settled : State :=
  with_config
    {| cfg_is_global := false;
       cfg_global := cfg_global fresh_config;
       cfg_guilds := ∅;
       cfg_users := [(1, {| name := "alice"; balance := 9; created_at := 42 |})];
       cfg_members :=
         {[ 7 := [(1, {| name := "alice"; balance := 500; created_at := 42 |});
                  (3, {| name := "carol"; balance := 20; created_at := 42 |})] ]} |}
    fresh_bank.

(** A global bank with the same accounts in the global namespace. *)
Definition global_bank : State :=
  with_config
    {| cfg_is_global := true;
       cfg_global := cfg_global fresh_config;
       cfg_guilds := ∅;
       cfg_users := [(1, {| name := "alice"; balance := 500; created_at := 42 |});
                     (3, {| name := "carol"; balance := 20; created_at := 42 |})];
       cfg_members :=
         {[ 7 := [(1, {| name := "alice"; balance := 9; created_at := 42 |})] ]} |}
    fresh_bank.

(** A bank per guild in which Alice's account was persisted with a creation
    time in the year 10000. *)
Definition misdated : State :=
  with_config
    {| cfg_is_global := false;
       cfg_global := cfg_global fresh_config;
       cfg_guilds := ∅;
       cfg_users := [];
       cfg_members :=
         {[ 7 := [(1, {| name := "alice"; balance := 500;
                         created_at := 253402300800 |})] ]} |}
    fresh_bank.

(** The lounge as the gateway cache holds it: available, small, chunked. *)
Definition lounge_cached : cached_guild :=
  (lounge, {| unavailable := false; large := false; chunked := true |}).

(** A private channel. *)
Definition in_dm : commands.Context :=
  {| commands.guild := None; commands.author := alice |}.

(** A command body that returns, and one that fails. *)
Definition returning : bank unit := ret tt.

Definition failing : bank unit := raise (OtherError 0).

(** A store of schema version 0 in which one member's balance is a nan. *)
Definition legacy_nan : RawConfig :=
  {| schema_version := 0;
     USER :=
       [(1, {| raw_name := Some "alice"%string;
               raw_balance := Some (Float (S754_finite false 5629499534213120 (-50)));
               raw_created_at := Some 42 |})];
     MEMBER :=
       [(7, [(2, {| raw_name := None;
                    raw_balance := Some (Float S754_nan);
                    raw_created_at := None |})])] |}.

(** * Properties *)

(** ** Dicts of accounts *)

Lemma dict_get_update_eq k f dflt (d : accounts) :
  dict_get k (dict_update k f dflt d) = Some (f (default dflt (dict_get k d))).
Proof.
  induction d as [|[k' v] d IH]; simpl.
  - by rewrite decide_True.
  - destruct (decide (k' = k)) as [->|Hne]; simpl.
    + by rewrite decide_True.
    + by rewrite decide_False.
Qed.

Lemma dict_get_update_ne k k' f dflt (d : accounts) :
  k ≠ k' -> dict_get k' (dict_update k f dflt d) = dict_get k' d.
Proof.
  intros Hne. induction d as [|[k0 v] d IH]; simpl.
  - by rewrite decide_False.
  - destruct (decide (k0 = k)) as [->|Hne0]; simpl.
    + by rewrite !decide_False.
    + destruct (decide (k0 = k')); [done | apply IH].
Qed.

Lemma dict_get_Some_elem k v (d : accounts) :
  dict_get k d = Some v -> (k, v) ∈ d.
Proof.
  induction d as [|[k' v'] d IH]; simpl; [done|].
  destruct (decide (k' = k)) as [->|Hne].
  - intros [= ->]. left.
  - intros H. right. by apply IH.
Qed.

(** Every account of an updated dict is the updated one or an old one. *)
Lemma elem_of_dict_update k f dflt (d : accounts) kv :
  kv ∈ dict_update k f dflt d ->
  kv = (k, f (default dflt (dict_get k d))) \/ kv ∈ d.
Proof.
  induction d as [|[k' v] d IH]; simpl.
  - intros ->%list_elem_of_singleton. by left.
  - destruct (decide (k' = k)) as [->|Hne]; simpl.
    + intros [->|H]%elem_of_cons; [by left | right; by right].
    + intros [->|H]%elem_of_cons; [right; left|].
      destruct (IH H) as [->|H']; [by left | right; by right].
Qed.

(** ** Coroutines that only read *)

Lemma reads_is_global : reads is_global (fun v => Return (v_mode v)).
Proof. intros [c [b|] ca w]; eexists; split; reflexivity. Qed.

Ltac reads_setting :=
  let c := fresh "c" in
  let ig := fresh "ig" in
  let ca := fresh "ca" in
  let E := fresh "E" in
  intros [c ig ca ?];
  unfold get_max_balance, get_currency_name, get_default_balance, bind,
    is_global, cache_read, cache_write, store_read, ret, raise, setting_of, view;
  cbn;
  destruct ig as [[]|]; [| |destruct (cfg_is_global c) eqn:E];
  destruct ca as [[?|] [?|] [?|] [?|]];
  (eexists; split; [reflexivity|]);
  cbn; rewrite ?E; reflexivity.

Lemma reads_get_max_balance guild :
  reads (get_max_balance guild) (fun v => setting_of max_balance v guild).
Proof. destruct guild; reads_setting. Qed.

Lemma reads_get_currency_name guild :
  reads (get_currency_name guild) (fun v => setting_of currency v guild).
Proof. destruct guild; reads_setting. Qed.

Lemma reads_get_default_balance guild :
  reads (get_default_balance guild) (fun v => setting_of default_balance v guild).
Proof. destruct guild; reads_setting. Qed.

Lemma bind_run {St A B : Type} (m : M St A) (k : A -> M St B) s :
  bind m k s =
  match m s with
  | (Return a, s') => k a s'
  | (Raise e, s') => (Raise e, s')
  end.
Proof. reflexivity. Qed.

Lemma reads_ret {A : Type} (a : A) : reads (ret a) (fun _ => Return a).
Proof. intros s. by exists s. Qed.

Lemma reads_raise {A : Type} e : reads (raise (A := A) e) (fun _ => Raise e).
Proof. intros s. by exists s. Qed.

Lemma reads_store_read {A : Type} (f : Config -> A) :
  reads (store_read f) (fun v => Return (f (v_config v))).
Proof. intros s. by exists s. Qed.

Lemma reads_attr_guild member :
  reads (attr_guild member)
        (fun _ => match discord.guild member with
                  | Some gd => Return gd
                  | None => Raise AttributeError
                  end).
Proof. intros s. exists s. unfold attr_guild. by destruct (discord.guild member). Qed.

Lemma reads_bind {A B : Type} (m : bank A) (k : A -> bank B) f g :
  reads m f -> (forall a, reads (k a) (g a)) ->
  reads (bind m k)
        (fun v => match f v with Return a => g a v | Raise e => Raise e end).
Proof.
  intros Hm Hk s. unfold bind.
  destruct (Hm s) as (s1 & -> & Hv1).
  destruct (f (view s)) as [a|e]; [|by exists s1].
  destruct (Hk a s1) as (s2 & -> & Hv2).
  exists s2. by rewrite Hv2, Hv1.
Qed.

Lemma reads_try_except {A : Type} (m : bank A) (h : exn -> bank A) f g :
  reads m f -> (forall e, reads (h e) (g e)) ->
  reads (try_except m h)
        (fun v => match f v with Return a => Return a | Raise e => g e v end).
Proof.
  intros Hm Hh s. unfold try_except, try_except_else.
  destruct (Hm s) as (s1 & -> & Hv1).
  destruct (f (view s)) as [a|e]; [by exists s1|].
  destruct (Hh e s1) as (s2 & -> & Hv2).
  exists s2. by rewrite Hv2, Hv1.
Qed.

Lemma reads_ext {A : Type} (m : bank A) f g :
  reads m f -> (forall v, f v = g v) -> reads m g.
Proof. intros Hm Hfg s. destruct (Hm s) as (s' & ? & ?). exists s'. by rewrite <- Hfg. Qed.

Lemma reads_all_accounts member (g : bool) :
  reads (if g then store_read all_users
         else let! gd := attr_guild member in store_read (all_members gd))
        (fun v => if g then Return (cfg_users (v_config v))
                  else match discord.guild member with
                       | Some gd => Return (all_members gd (v_config v))
                       | None => Raise AttributeError
                       end).
Proof.
  destruct g; [apply reads_store_read|].
  eapply reads_ext.
  - apply reads_bind; [apply reads_attr_guild|].
    intros gd. apply (reads_store_read (all_members gd)).
  - intros v. simpl. by destruct (discord.guild member).
Qed.

Lemma reads_default_of member :
  reads (try_except
           (let! gd := attr_guild member in get_default_balance (Some gd))
           (fun e => match e with
                     | AttributeError => get_default_balance None
                     | _ => raise e
                     end))
        (fun v => setting_of default_balance v (discord.guild member)).
Proof.
  intros s. unfold try_except, try_except_else, bind, attr_guild.
  destruct (discord.guild member) as [gd|]; simpl.
  - destruct (reads_get_default_balance (Some gd) s) as (s' & -> & Hv).
    exists s'. split; [|done].
    unfold setting_of. by destruct (v_mode (view s)).
  - apply reads_get_default_balance.
Qed.

Lemma decode_time_cases time :
  match _decode_time time with
  | Return d => in_datetime_range time = true /\ timestamp d = time
  | Raise _ => in_datetime_range time = false
  end.
Proof.
  unfold _decode_time.
  destruct (decide (in_datetime_range time = true)) as [H|H]; [done|].
  apply not_true_is_false in H.
  destruct ((-67768040609740800 <=? time) && (time <=? 67768036191676799));
    [done|].
  by destruct ((- 2 ^ 63 <=? time) && (time <? 2 ^ 63)).
Qed.

Lemma decode_time_Return time :
  in_datetime_range time = true -> exists d, _decode_time time = Return d.
Proof.
  intros H. pose proof (decode_time_cases time) as Hc.
  destruct (_decode_time time); [by eexists | congruence].
Qed.

Lemma reads_get_balance member :
  reads (get_balance member) (fun v => balance_of v member).
Proof.
  intros s. unfold get_balance, get_account.
  rewrite !bind_run.
  destruct (reads_is_global s) as (s1 & -> & Hv1).
  rewrite bind_run.
  destruct (reads_all_accounts member (v_mode (view s)) s1) as (s2 & -> & Hv2).
  rewrite Hv1 in *.
  assert (Hend : forall (acc_data : Account) s3,
            view s3 = view s ->
            exists s',
              (match
                 (match ret acc_data s3 with
                  | (Return acc_data, s') =>
                      (let! time := lift (_decode_time (created_at acc_data)) in
                       ret (with_created_at (timestamp time) acc_data)) s'
                  | (Raise e, s') => (Raise e, s')
                  end)
               with
               | (Return acc, s') => ret (balance acc) s'
               | (Raise e, s') => (Raise e, s')
               end)
              = (outcome_map (fun _ => balance acc_data)
                             (_decode_time (created_at acc_data)), s')
              /\ view s' = view s).
  { intros acc_data s3 Hv3. exists s3. split; [|done].
    unfold ret at 1. cbv beta iota. unfold bind, lift, ret.
    by destruct (_decode_time (created_at acc_data)). }
  unfold balance_of, group_of, namespace.
  destruct (v_mode (view s)) eqn:Em; cbv beta iota.
  - rewrite bind_run. change (v_config (view s)) with (_config s).
    cbn [group_key].
    destruct (dict_get (discord.id member) (cfg_users (_config s))) as [acc|].
    + by apply Hend.
    + rewrite bind_run.
      destruct (reads_default_of member s2) as (s3 & -> & Hv3).
      rewrite Hv2 in *.
      destruct (setting_of default_balance (view s) (discord.guild member))
        as [bal|e]; [|exists s3; by rewrite Hv3].
      destruct (Hend {| name := discord.display_name member; balance := bal;
                        created_at := created_at _DEFAULT_MEMBER |} s3)
        as (s4 & Hrun & Hv4); [congruence|].
      exists s4. split; [|done]. exact Hrun.
  - destruct (discord.guild member) as [gd|] eqn:Eg; [|exists s2; by rewrite Hv2].
    cbv beta iota. rewrite bind_run. change (v_config (view s)) with (_config s).
    cbn [group_key]. unfold all_members.
    destruct (dict_get (discord.id member)
                (default [] (cfg_members (_config s) !! discord.guild_id gd)))
      as [acc|].
    + by apply Hend.
    + rewrite bind_run.
      destruct (reads_default_of member s2) as (s3 & -> & Hv3).
      rewrite Hv2, ?Eg in *.
      destruct (setting_of default_balance (view s) (Some gd))
        as [bal|e]; [|exists s3; by rewrite Hv3].
      destruct (Hend {| name := discord.display_name member; balance := bal;
                        created_at := created_at _DEFAULT_MEMBER |} s3)
        as (s4 & Hrun & Hv4); [congruence|].
      exists s4. split; [|done]. exact Hrun.
Qed.

(** ** Writing an account *)

Lemma setting_of_Return {A B : Type} (f : Settings -> A) (g : Settings -> B) v guild x :
  setting_of f v guild = Return x -> exists y, setting_of g v guild = Return y.
Proof.
  unfold setting_of. destruct (v_mode v); [by eexists|].
  destruct guild; [by eexists | done].
Qed.

Lemma setting_of_Raise {A : Type} (f : Settings -> A) v guild e :
  setting_of f v guild = Raise e ->
  e = RuntimeError /\ v_mode v = false /\ guild = None.
Proof.
  unfold setting_of. destruct (v_mode v); [done|].
  destruct guild; [done|]. by intros [= <-].
Qed.

(** The group [set_balance] builds once the maximum was found. *)
Lemma group_of_max v member max_bal :
  setting_of max_balance v (discord.guild member) = Return max_bal ->
  exists gr, group_of v member = Some gr.
Proof.
  unfold setting_of, group_of. destruct (v_mode v); [by eexists|].
  destruct (discord.guild member); [by eexists | done].
Qed.

Lemma view_group_update gr f s :
  view (count_write (with_config (group_update gr f (_config s)) s)) =
  {| v_config := group_update gr f (v_config (view s));
     v_writes := S (v_writes (view s));
     v_mode := v_mode (view s);
     v_settings := v_settings (view s) |}.
Proof. by destruct gr. Qed.

Lemma view_count_write s :
  view (count_write s) =
  {| v_config := v_config (view s); v_writes := S (v_writes (view s));
     v_mode := v_mode (view s); v_settings := v_settings (view s) |}.
Proof. done. Qed.

(** A view [v'] that differs from [v] in the accounts only. *)
Definition same_scopes (v v' : View) : Prop :=
  v_mode v' = v_mode v /\ v_settings v' = v_settings v
  /\ cfg_guilds (v_config v') = cfg_guilds (v_config v).

(** Every way [set_balance] can end. *)
Lemma set_balance_cases member amount s :
  match set_balance member amount s with
  | (Return r, s') =>
      exists gr max_bal,
        r = amount /\
        group_of (view s) member = Some gr /\
        setting_of max_balance (view s) (discord.guild member) = Return max_bal /\
        0 <= amount <= max_bal /\
        v_config (view s') =
          persisted gr (discord.display_name member) amount (v_config (view s)) /\
        same_scopes (view s) (view s')
  | (Raise (ValueError why), s') =>
      why = NegativeBalance /\ amount < 0 /\ s' = s
  | (Raise (BalanceTooHigh user max_bal cur), s') =>
      user = discord.display_name member /\
      setting_of max_balance (view s) (discord.guild member) = Return max_bal /\
      setting_of currency (view s) (discord.guild member) = Return cur /\
      max_bal < amount /\ view s' = view s
  | (Raise RuntimeError, s') =>
      v_mode (view s) = false /\ discord.guild member = None /\ view s' = view s
  | (Raise StoreError, s') =>
      (exists n, write_fails n = true) /\ same_scopes (view s) (view s')
  | (Raise _, _) => False
  end.
Proof.
  unfold set_balance.
  destruct (amount <? 0) eqn:E0.
  { simpl. repeat split. lia. }
  rewrite bind_run.
  destruct (reads_get_max_balance (discord.guild member) s) as (s1 & -> & Hv1).
  destruct (setting_of max_balance (view s) (discord.guild member))
    as [max_bal|e] eqn:Emax.
  2:{ apply setting_of_Raise in Emax as (-> & ? & ?). by rewrite Hv1. }
  destruct (amount >? max_bal) eqn:E1.
  { rewrite bind_run.
    destruct (reads_get_currency_name (discord.guild member) s1) as (s2 & -> & Hv2).
    rewrite Hv1 in *.
    destruct (setting_of_Return max_balance currency _ _ _ Emax) as (cur & Ecur).
    rewrite Ecur. simpl. rewrite Hv2. repeat split. lia. }
  rewrite bind_run.
  destruct (reads_is_global s1) as (s2 & -> & Hv2). rewrite Hv1 in Hv2.
  destruct (group_of_max _ _ _ Emax) as (gr & Egr).
  assert (Hgr : (if v_mode (view s)
                 then ret (user_group (discord.id member))
                 else let! gd := attr_guild member in
                      ret (member_group (discord.guild_id gd) (discord.id member))) s2
                = (Return gr, s2)).
  { unfold group_of in Egr. destruct (v_mode (view s)); [by inversion Egr|].
    unfold bind, attr_guild. destruct (discord.guild member); [|done].
    by inversion Egr. }
  rewrite Hv1. rewrite bind_run, Hgr.
  assert (Hss : forall s3 f, same_scopes (view s) (view s3) ->
            same_scopes (view s)
              (view (count_write (with_config (group_update gr f (_config s3)) s3)))).
  { intros s3 f (? & ? & ?). rewrite view_group_update.
    split_and!; simpl; [done | done |]. by destruct gr. }
  assert (Hcw : forall s3, same_scopes (view s) (view s3) ->
            same_scopes (view s) (view (count_write s3))).
  { intros s3 (? & ? & ?). by rewrite view_count_write. }
  assert (Hs2 : same_scopes (view s) (view s2)) by (by rewrite Hv2).
  rewrite bind_run. unfold store_write at 1.
  destruct (write_fails (writes s2)) eqn:Ew1; [split; [by eexists | by apply Hcw]|].
  set (s3 := count_write (with_config _ s2)).
  assert (Hs3 : same_scopes (view s) (view s3)) by (by apply Hss).
  assert (Hc3 : _config s3 =
                group_update gr (with_balance amount) (v_config (view s))).
  { subst s3. unfold count_write, with_config. cbn [_config].
    change (_config s2) with (v_config (view s2)). by rewrite Hv2. }
  rewrite bind_run. unfold store_read at 1.
  rewrite bind_run.
  destruct (bool_decide (created_at (group_get gr (_config s3)) = 0)) eqn:Ec.
  - unfold store_write at 1.
    destruct (write_fails (writes s3)) eqn:Ew2; [split; [by eexists | by apply Hcw]|].
    set (s4 := count_write (with_config _ s3)).
    assert (Hs4 : same_scopes (view s) (view s4)) by (by apply Hss).
    rewrite bind_run. unfold store_read at 1. rewrite bind_run.
    destruct (bool_decide (name (group_get gr (_config s4)) = ""%string)) eqn:En.
    + unfold store_write at 1.
      destruct (write_fails (writes s4)) eqn:Ew3; [split; [by eexists | by apply Hcw]|].
      unfold ret; cbv beta iota. exists gr, max_bal. split_and!; [done | done | done | lia | lia | | by apply Hss].
      unfold persisted. rewrite <- Hc3, Ec.
      change (group_update gr (with_created_at now) (_config s3)) with (_config s4).
      by rewrite En.
    + unfold ret; cbv beta iota. exists gr, max_bal. split_and!; [done | done | done | lia | lia | | done].
      unfold persisted. rewrite <- Hc3, Ec.
      change (group_update gr (with_created_at now) (_config s3)) with (_config s4).
      by rewrite En.
  - unfold ret at 1; cbv beta iota. rewrite bind_run. unfold store_read at 1.
    rewrite bind_run.
    destruct (bool_decide (name (group_get gr (_config s3)) = ""%string)) eqn:En.
    + unfold store_write at 1.
      destruct (write_fails (writes s3)) eqn:Ew3; [split; [by eexists | by apply Hcw]|].
      unfold ret; cbv beta iota. exists gr, max_bal. split_and!; [done | done | done | lia | lia | | by apply Hss].
      unfold persisted. rewrite <- Hc3, Ec. by rewrite En.
    + unfold ret; cbv beta iota. exists gr, max_bal. split_and!; [done | done | done | lia | lia | | done].
      unfold persisted. rewrite <- Hc3, Ec. by rewrite En.
Qed.

(** ** What a write to one account changes *)

Lemma group_get_namespace gr c :
  group_get gr c = default _DEFAULT_MEMBER (dict_get (group_key gr) (namespace gr c)).
Proof. by destruct gr. Qed.

Lemma namespace_group_update_eq gr f c :
  dict_get (group_key gr) (namespace gr (group_update gr f c))
  = Some (f (group_get gr c)).
Proof.
  destruct gr as [uid|gid mid]; simpl.
  - apply dict_get_update_eq.
  - rewrite lookup_insert_eq. simpl. apply dict_get_update_eq.
Qed.

Lemma namespace_group_update_ne gr gr' f c :
  gr <> gr' ->
  dict_get (group_key gr') (namespace gr' (group_update gr f c))
  = dict_get (group_key gr') (namespace gr' c).
Proof.
  intros Hne. destruct gr as [uid|gid mid], gr' as [uid'|gid' mid']; simpl; try done.
  - apply dict_get_update_ne. congruence.
  - destruct (decide (gid = gid')) as [->|Hg].
    + rewrite lookup_insert_eq. simpl. apply dict_get_update_ne. congruence.
    + by rewrite lookup_insert_ne.
Qed.

Lemma group_get_update gr f c :
  group_get gr (group_update gr f c) = f (group_get gr c).
Proof. by rewrite group_get_namespace, namespace_group_update_eq. Qed.

(** The accounts of an updated store: old ones, and the updated one. *)
Lemma users_group_update gr f c kv :
  kv ∈ cfg_users (group_update gr f c) ->
  kv ∈ cfg_users c \/ (gr = user_group kv.1 /\ kv.2 = f (group_get gr c)).
Proof.
  destruct gr as [uid|gid mid]; simpl; [|by left].
  intros [->|H]%elem_of_dict_update; [by right | by left].
Qed.

Lemma members_group_update gr f c gid d' kv :
  cfg_members (group_update gr f c) !! gid = Some d' -> kv ∈ d' ->
  (exists d, cfg_members c !! gid = Some d /\ kv ∈ d)
  \/ (gr = member_group gid kv.1 /\ kv.2 = f (group_get gr c)).
Proof.
  destruct gr as [uid|gid0 mid]; simpl; [left; by exists d'|].
  destruct (decide (gid0 = gid)) as [->|Hg].
  - rewrite lookup_insert_eq. intros [= <-] [->|H]%elem_of_dict_update; [by right|].
    left. destruct (cfg_members c !! gid) as [d|]; [by exists d|].
    simpl in H. by apply elem_of_nil in H.
  - rewrite lookup_insert_ne by done. left. by exists d'.
Qed.

Lemma scopes_group_update gr f c :
  cfg_is_global (group_update gr f c) = cfg_is_global c
  /\ cfg_global (group_update gr f c) = cfg_global c
  /\ cfg_guilds (group_update gr f c) = cfg_guilds c.
Proof. by destruct gr. Qed.

(** A store [c'] that differs from [c] in one account, whose balance is now
    [bal]. *)
Record only_account (gr : group) (bal : Z) (c c' : Config) : Prop := {
  oa_guilds : cfg_guilds c' = cfg_guilds c;
  oa_this : exists acc,
    dict_get (group_key gr) (namespace gr c') = Some acc /\ balance acc = bal;
  oa_others : forall gr', gr <> gr' ->
    dict_get (group_key gr') (namespace gr' c')
    = dict_get (group_key gr') (namespace gr' c);
  oa_users : forall kv, kv ∈ cfg_users c' ->
    kv ∈ cfg_users c \/ (gr = user_group kv.1 /\ balance kv.2 = bal);
  oa_members : forall gid d' kv,
    cfg_members c' !! gid = Some d' -> kv ∈ d' ->
    (exists d, cfg_members c !! gid = Some d /\ kv ∈ d)
    \/ (gr = member_group gid kv.1 /\ balance kv.2 = bal)
}.

Lemma only_account_set gr bal c :
  only_account gr bal c (group_update gr (with_balance bal) c).
Proof.
  split.
  - apply scopes_group_update.
  - rewrite namespace_group_update_eq. by eexists.
  - intros gr' Hne. by apply namespace_group_update_ne.
  - intros kv [H|[-> ->]]%users_group_update; [by left | by right].
  - intros gid d' kv Hd [H|[-> ->]]%(members_group_update _ _ _ _ _ _ Hd);
      [by left | by right].
Qed.

(** Updates of the same account that keep its balance. *)
Lemma only_account_keep gr bal c c' f :
  (forall a, balance (f a) = balance a) ->
  only_account gr bal c c' ->
  only_account gr bal c (group_update gr f c').
Proof.
  intros Hf [Hg (acc & Hacc & Hbal) Ho Hu Hm]. split.
  - by destruct (scopes_group_update gr f c') as (_ & _ & ->).
  - rewrite namespace_group_update_eq. eexists. split; [done|].
    by rewrite Hf, group_get_namespace, Hacc.
  - intros gr' Hne. rewrite namespace_group_update_ne by done. by apply Ho.
  - intros kv [H|[-> ->]]%users_group_update; [by apply Hu|].
    right. split; [done|]. by rewrite Hf, group_get_namespace, Hacc.
  - intros gid d' kv Hd [(d & H1 & H2)|[-> ->]]%(members_group_update _ _ _ _ _ _ Hd).
    + by eapply Hm.
    + right. split; [done|]. by rewrite Hf, group_get_namespace, Hacc.
Qed.

Lemma only_account_persisted gr nm bal c :
  only_account gr bal c (persisted gr nm bal c).
Proof.
  assert (Hif : forall (b : bool) f c',
            (forall a, balance (f a) = balance a) ->
            only_account gr bal c c' ->
            only_account gr bal c (if b then group_update gr f c' else c')).
  { intros [] f c' Hf Hc'; [by apply only_account_keep | done]. }
  unfold persisted. cbv zeta.
  apply Hif; [done|]. apply Hif; [done|]. apply only_account_set.
Qed.

Lemma same_scopes_refl v : same_scopes v v.
Proof. done. Qed.

Lemma same_scopes_trans v1 v2 v3 :
  same_scopes v1 v2 -> same_scopes v2 v3 -> same_scopes v1 v3.
Proof. intros (?&?&?) (?&?&?). split_and!; congruence. Qed.

Lemma same_scopes_view s s' : view s' = view s -> same_scopes (view s) (view s').
Proof. by intros ->. Qed.

Lemma setting_of_same_scopes {A : Type} (f : Settings -> A) v v' guild :
  same_scopes v v' -> setting_of f v' guild = setting_of f v guild.
Proof.
  intros (Hm & Hs & Hg). unfold setting_of, guild_settings.
  by rewrite Hm, Hs, Hg.
Qed.

Lemma group_of_same_scopes v v' member :
  same_scopes v v' -> group_of v' member = group_of v member.
Proof. intros (Hm & _). unfold group_of. by rewrite Hm. Qed.

(** The balances after one account was written, with a creation time that
    can be decoded. *)
Lemma balance_of_only_account v v' gr bal member :
  same_scopes v v' ->
  only_account gr bal (v_config v) (v_config v') ->
  readable gr (v_config v') ->
  balance_of v' member =
  if decide (group_of v member = Some gr) then Return bal else balance_of v member.
Proof.
  intros Hss [_ (acc & Hacc & Hbal) Ho _ _] Hrd. unfold balance_of.
  rewrite (group_of_same_scopes _ _ _ Hss).
  destruct (group_of v member) as [gr'|]; [|by rewrite decide_False].
  destruct (decide (Some gr' = Some gr)) as [[= ->]|Hne].
  - rewrite Hacc. unfold readable in Hrd.
    rewrite group_get_namespace, Hacc in Hrd. simpl in Hrd.
    destruct (decode_time_Return _ Hrd) as (d & ->). simpl. by rewrite Hbal.
  - rewrite Ho by congruence.
    by rewrite (setting_of_same_scopes _ _ _ _ Hss).
Qed.

(** The balances of the other accounts after one account was written. *)
Lemma balance_of_other_account v v' gr bal member :
  same_scopes v v' ->
  only_account gr bal (v_config v) (v_config v') ->
  group_of v member <> Some gr ->
  balance_of v' member = balance_of v member.
Proof.
  intros Hss [_ _ Ho _ _] Hne. unfold balance_of.
  rewrite (group_of_same_scopes _ _ _ Hss).
  destruct (group_of v member) as [gr'|]; [|done].
  rewrite Ho by congruence.
  by rewrite (setting_of_same_scopes _ _ _ _ Hss).
Qed.

(** A balance that was read belongs to an account whose creation time can
    be decoded. *)
Lemma balance_of_readable v member gr bal :
  balance_of v member = Return bal ->
  group_of v member = Some gr ->
  readable gr (v_config v).
Proof.
  unfold balance_of, readable. intros Hbal Hgr. rewrite Hgr in Hbal.
  rewrite group_get_namespace.
  destruct (dict_get (group_key gr) (namespace gr (v_config v))) as [acc|];
    [|done].
  simpl. pose proof (decode_time_cases (created_at acc)) as Hc.
  destruct (_decode_time (created_at acc)); [by destruct Hc | done].
Qed.

(** What [set_balance] persists keeps the creation time decodable. *)
Lemma readable_persisted gr nm amount c :
  readable gr c -> readable gr (persisted gr nm amount c).
Proof.
  unfold readable, persisted. cbv zeta. intros Hrd.
  assert (Hif : forall (b : bool) v c',
            in_datetime_range (created_at (group_get gr c')) = true ->
            in_datetime_range
              (created_at (group_get gr
                 (if b then group_update gr (with_name v) c' else c'))) = true).
  { intros [] v c' H; [|done]. by rewrite group_get_update. }
  apply Hif.
  rewrite (group_get_update gr (with_balance amount)). cbn [created_at with_balance].
  destruct (bool_decide (created_at (group_get gr c) = 0)).
  - rewrite group_get_update. cbn [created_at with_created_at].
    apply (timestamp_in_range utcnow).
  - by rewrite group_get_update.
Qed.

Lemma set_balance_Return member amount s r s' :
  set_balance member amount s = (Return r, s') ->
  exists gr max_bal,
    r = amount /\
    group_of (view s) member = Some gr /\
    setting_of max_balance (view s) (discord.guild member) = Return max_bal /\
    0 <= amount <= max_bal /\
    same_scopes (view s) (view s') /\
    only_account gr amount (v_config (view s)) (v_config (view s')).
Proof.
  intros H. pose proof (set_balance_cases member amount s) as Hc.
  rewrite H in Hc. destruct Hc as (gr & max_bal & ? & ? & ? & [? ?] & Hp & ?).
  exists gr, max_bal. rewrite Hp.
  split_and!; try done. apply only_account_persisted.
Qed.

Lemma set_balance_readable member amount s r s' gr :
  set_balance member amount s = (Return r, s') ->
  group_of (view s) member = Some gr ->
  readable gr (v_config (view s)) ->
  readable gr (v_config (view s')).
Proof.
  intros H Hgr Hrd. pose proof (set_balance_cases member amount s) as Hc.
  rewrite H in Hc. destruct Hc as (gr' & max_bal & _ & Hgr' & _ & _ & Hp & _).
  assert (gr' = gr) as -> by congruence.
  rewrite Hp. by apply readable_persisted.
Qed.

(** With a store that never refuses a write, [set_balance] accepts every
    amount between zero and the maximum of the scope. *)
Lemma set_balance_succeeds member amount s max_bal :
  (forall n, write_fails n = false) ->
  setting_of max_balance (view s) (discord.guild member) = Return max_bal ->
  0 <= amount <= max_bal ->
  exists s', set_balance member amount s = (Return amount, s').
Proof.
  intros Hnf Hmax Hamount.
  pose proof (set_balance_cases member amount s) as Hc.
  destruct (set_balance member amount s) as [[r|e] s'].
  - destruct Hc as (_ & _ & -> & _). by exists s'.
  - exfalso. destruct e as [why| | | | |u m c| | | | | |]; try done.
    + destruct Hc as (_ & ? & _). lia.
    + destruct Hc as (Hm & Hg & _). unfold setting_of in Hmax.
      by rewrite Hm, Hg in Hmax.
    + destruct Hc as (_ & Hm & _ & ? & _). rewrite Hmax in Hm.
      injection Hm as <-. lia.
    + destruct Hc as ((n & Hn) & _). by rewrite Hnf in Hn.
Qed.

(** ** Withdrawals and deposits *)

Lemma withdraw_credits_Return member amount s r s' :
  withdraw_credits member amount s = (Return r, s') ->
  exists gr bal max_bal,
    balance_of (view s) member = Return bal /\
    0 <= amount <= bal /\ r = bal - amount /\
    setting_of max_balance (view s) (discord.guild member) = Return max_bal /\
    0 <= r <= max_bal /\
    group_of (view s) member = Some gr /\
    same_scopes (view s) (view s') /\
    only_account gr r (v_config (view s)) (v_config (view s')) /\
    readable gr (v_config (view s')).
Proof.
  unfold withdraw_credits, _invalid_amount.
  destruct (amount <? 0) eqn:E0; [done|].
  rewrite bind_run.
  destruct (reads_get_balance member s) as (s1 & -> & Hv1).
  destruct (balance_of (view s) member) as [bal|e] eqn:Hbal; [|done].
  destruct (amount >? bal) eqn:E1; [done|].
  intros Hset. pose proof Hset as Hset'.
  apply set_balance_Return in Hset
    as (gr & max_bal & -> & Hgr & Hmax & ? & Hss & Ho).
  rewrite Hv1 in *. exists gr, bal, max_bal. split_and!; try done; try lia.
  apply (set_balance_readable _ _ _ _ _ _ Hset'); rewrite Hv1; [done|].
  by apply (balance_of_readable _ member gr bal).
Qed.

Lemma deposit_credits_Return member amount s r s' :
  deposit_credits member amount s = (Return r, s') ->
  exists gr bal max_bal,
    balance_of (view s) member = Return bal /\
    0 <= amount /\ r = amount + bal /\
    setting_of max_balance (view s) (discord.guild member) = Return max_bal /\
    0 <= r <= max_bal /\
    group_of (view s) member = Some gr /\
    same_scopes (view s) (view s') /\
    only_account gr r (v_config (view s)) (v_config (view s')) /\
    readable gr (v_config (view s')).
Proof.
  unfold deposit_credits, _invalid_amount.
  destruct (amount <? 0) eqn:E0; [done|].
  rewrite bind_run.
  destruct (reads_get_balance member s) as (s1 & -> & Hv1).
  destruct (balance_of (view s) member) as [bal|e] eqn:Hbal; [|done].
  intros Hset. pose proof Hset as Hset'.
  apply set_balance_Return in Hset
    as (gr & max_bal & -> & Hgr & Hmax & ? & Hss & Ho).
  rewrite Hv1 in *. exists gr, bal, max_bal. split_and!; try done; try lia.
  apply (set_balance_readable _ _ _ _ _ _ Hset'); rewrite Hv1; [done|].
  by apply (balance_of_readable _ member gr bal).
Qed.

(** ** The specified behaviour *)

(** C10. [can_spend member amount] answers [False], and raises nothing, for
    a negative amount; for any other amount it answers whether the member's
    balance is at least the amount (and fails exactly as reading the balance
    fails). It never writes: the store and the number of writes asked of it
    are as before, and so is everything the bank can observe (at most a
    cache was filled with the value the store holds). *)
Theorem can_spend_spec member amount s :
  (amount < 0 -> can_spend member amount s = (Return false, s))
  /\ (0 <= amount ->
      (can_spend member amount s).1
      = outcome_map (fun bal => bool_decide (amount <= bal)) (get_balance member s).1)
  /\ _config (can_spend member amount s).2 = _config s
  /\ writes (can_spend member amount s).2 = writes s
  /\ view (can_spend member amount s).2 = view s.
Proof.
  unfold can_spend, _invalid_amount.
  destruct (amount <? 0) eqn:E0.
  - split_and!; try done. lia.
  - rewrite bind_run.
    destruct (reads_get_balance member s) as (s1 & -> & Hv1).
    assert (_config s1 = _config s /\ writes s1 = writes s) as [Hc Hw].
    { split; [apply (f_equal v_config Hv1) | apply (f_equal v_writes Hv1)]. }
    destruct (balance_of (view s) member) as [bal|e]; simpl.
    + split_and!; try done; [lia|]. intros _. f_equal.
      apply bool_decide_ext. lia.
    + split_and!; try done. lia.
Qed.

Lemma get_balance_fst member s :
  (get_balance member s).1 = balance_of (view s) member.
Proof. by destruct (reads_get_balance member s) as (s1 & -> & _). Qed.

(** What a transfer that returned has done: the pre-check passed, the
    source was debited, then the destination was credited. *)
Lemma transfer_credits_Return from_ to amount s r s' :
  transfer_credits from_ to amount s = (Return r, s') ->
  exists s1 s2 r1,
    view s1 = view s /\
    withdraw_credits from_ amount s1 = (Return r1, s2) /\
    deposit_credits to amount s2 = (Return r, s').
Proof.
  unfold transfer_credits, _invalid_amount.
  destruct (amount <? 0) eqn:E0; [done|].
  rewrite bind_run.
  destruct (reads_get_max_balance (discord.guild to) s) as (s1 & -> & Hv1).
  destruct (setting_of max_balance (view s) (discord.guild to)) as [max_bal|e];
    [|done].
  rewrite bind_run.
  destruct (reads_get_balance to s1) as (s2 & -> & Hv2).
  destruct (balance_of (view s1) to) as [bal_to|e]; [|done].
  destruct (bal_to + amount >? max_bal).
  { rewrite bind_run.
    destruct (reads_get_currency_name (discord.guild to) s2) as (s3 & -> & Hv3).
    by destruct (setting_of currency (view s2) (discord.guild to)). }
  rewrite bind_run.
  destruct (withdraw_credits from_ amount s2) as [[r1|e] s3] eqn:Ew; [|done].
  intros Hd. exists s2, s3, r1. split_and!; [congruence | done | done].
Qed.

(** C2. When [transfer_credits from_ to amount] returns and the two members
    have distinct accounts (they resolve to different groups of the store),
    the balance of [from_] went down by [amount], the balance of [to] went
    up by [amount], their sum is what it was, and the value returned is the
    new balance of [to]. *)
Theorem transfer_credits_conserves from_ to amount s r s' :
  group_of (view s) from_ <> group_of (view s) to ->
  transfer_credits from_ to amount s = (Return r, s') ->
  exists bal_from bal_to,
    (get_balance from_ s).1 = Return bal_from
    /\ (get_balance to s).1 = Return bal_to
    /\ (get_balance from_ s').1 = Return (bal_from - amount)
    /\ (get_balance to s').1 = Return (bal_to + amount)
    /\ (bal_from - amount) + (bal_to + amount) = bal_from + bal_to
    /\ r = bal_to + amount.
Proof.
  intros Hne (s1 & s2 & r1 & Hv1 & Hw & Hd)%transfer_credits_Return.
  apply withdraw_credits_Return in Hw
    as (gr_from & bal_from & ? & Hbf & ? & -> & _ & _ & Hgf & Hss1 & Ho1 & Hr1).
  apply deposit_credits_Return in Hd
    as (gr_to & bal_to' & max_bal & Hbt & ? & -> & _ & _ & Hgt & Hss2 & Ho2 & Hr2).
  rewrite Hv1 in *.
  rewrite (group_of_same_scopes _ _ _ Hss1) in Hgt.
  rewrite (balance_of_only_account _ _ _ _ _ Hss1 Ho1 Hr1) in Hbt.
  rewrite decide_False in Hbt by congruence.
  exists bal_from, bal_to'. rewrite !get_balance_fst.
  rewrite !(balance_of_only_account _ _ _ _ _ Hss2 Ho2 Hr2).
  rewrite !(group_of_same_scopes _ _ _ Hss1).
  rewrite (decide_False (P := group_of (view s) from_ = Some gr_to)) by congruence.
  rewrite (decide_True (P := group_of (view s) to = Some gr_to)) by done.
  rewrite (balance_of_only_account _ _ _ _ _ Hss1 Ho1 Hr1).
  rewrite decide_True by done.
  split_and!; try done; try lia. f_equal. lia.
Qed.

Lemma get_max_balance_fst guild s :
  (get_max_balance guild s).1 = setting_of max_balance (view s) guild.
Proof. by destruct (reads_get_max_balance guild s) as (s1 & -> & _). Qed.

(** C3. When the balance of [to] plus the amount exceeds the maximum of its
    scope, [transfer_credits] raises [BalanceTooHigh] before anything is
    written: the store is the one it started with, no write was asked of it,
    and the balances of [from_] and [to] are what they were. *)
Theorem transfer_credits_too_high from_ to amount s max_bal bal_to :
  0 <= amount ->
  (get_max_balance (discord.guild to) s).1 = Return max_bal ->
  (get_balance to s).1 = Return bal_to ->
  max_bal < bal_to + amount ->
  exists cur s',
    transfer_credits from_ to amount s
    = (Raise (BalanceTooHigh (discord.display_name to) max_bal cur), s')
    /\ _config s' = _config s
    /\ writes s' = writes s
    /\ (get_balance from_ s').1 = (get_balance from_ s).1
    /\ (get_balance to s').1 = (get_balance to s).1.
Proof.
  rewrite get_max_balance_fst, get_balance_fst. intros Ha Hmax Hbal Hgt.
  unfold transfer_credits, _invalid_amount.
  destruct (amount <? 0) eqn:E0; [lia|].
  rewrite bind_run.
  destruct (reads_get_max_balance (discord.guild to) s) as (s1 & -> & Hv1).
  rewrite Hmax, bind_run.
  destruct (reads_get_balance to s1) as (s2 & -> & Hv2).
  rewrite Hv1 in *. rewrite Hbal.
  destruct (bal_to + amount >? max_bal) eqn:E1; [|lia].
  rewrite bind_run.
  destruct (reads_get_currency_name (discord.guild to) s2) as (s3 & -> & Hv3).
  rewrite Hv2 in *.
  destruct (setting_of_Return max_balance currency _ _ _ Hmax) as (cur & ->).
  exists cur, s3. rewrite !get_balance_fst, Hv3.
  split_and!; try done.
  - apply (f_equal v_config Hv3).
  - apply (f_equal v_writes Hv3).
Qed.

(** The bound survives a write of one account within its scope's maximum. *)
Lemma balances_bounded_only_account s s' gr bal max_bal member :
  balances_bounded s ->
  same_scopes (view s) (view s') ->
  only_account gr bal (v_config (view s)) (v_config (view s')) ->
  group_of (view s) member = Some gr ->
  setting_of max_balance (view s) (discord.guild member) = Return max_bal ->
  0 <= bal <= max_bal ->
  balances_bounded s'.
Proof.
  intros [Hu Hm] (Hmode & Hset & Hg) [_ _ _ Hou Hom] Hgr Hmax Hbal.
  unfold group_of, setting_of in *.
  change (v_config (view s)) with (_config s) in *.
  change (v_config (view s')) with (_config s') in *.
  split.
  - apply Forall_forall. intros kv [Hin|[-> Hb]]%Hou.
    + rewrite Hset. by apply (proj1 (Forall_forall _ _) Hu).
    + rewrite Hset, Hb. destruct (v_mode (view s)); [|by destruct (discord.guild member)].
      injection Hmax as <-. exact Hbal.
  - intros gid d' Hd'. apply Forall_forall.
    intros kv [(d & Hd & Hin)|[-> Hb]]%(Hom _ _ _ Hd').
    + rewrite Hg. by apply (proj1 (Forall_forall _ _) (Hm _ _ Hd)).
    + rewrite Hg, Hb. destruct (v_mode (view s)); [done|].
      destruct (discord.guild member) as [gd|]; [|done].
      injection Hgr as <-. injection Hmax as <-. exact Hbal.
Qed.

Lemma balances_bounded_same_view s s' :
  view s' = view s -> balances_bounded s -> balances_bounded s'.
Proof.
  intros Hv [Hu Hm]. unfold balances_bounded.
  change (_config s') with (v_config (view s')). by rewrite Hv.
Qed.

Lemma run_operation_bounded op s r s' :
  balances_bounded s ->
  run_operation op s = (Return r, s') ->
  balances_bounded s'.
Proof.
  intros Hb. destruct op as [m a|m a|m a|f t a]; simpl.
  - intros (gr & max_bal & -> & ? & ? & ? & ? & ?)%set_balance_Return.
    by eapply balances_bounded_only_account.
  - intros (gr & bal & max_bal & _ & _ & _ & ? & ? & ? & ? & ? & ?)%withdraw_credits_Return.
    by eapply balances_bounded_only_account.
  - intros (gr & bal & max_bal & _ & _ & _ & ? & ? & ? & ? & ? & ?)%deposit_credits_Return.
    by eapply balances_bounded_only_account.
  - intros (s1 & s2 & r1 & Hv1 & Hw & Hd)%transfer_credits_Return.
    apply (balances_bounded_same_view _ _ Hv1) in Hb.
    apply withdraw_credits_Return in Hw
      as (gr & bal & max_bal & _ & _ & _ & ? & ? & ? & ? & ? & ?).
    assert (balances_bounded s2) by (by eapply balances_bounded_only_account).
    apply deposit_credits_Return in Hd
      as (gr' & bal' & max_bal' & _ & _ & _ & ? & ? & ? & ? & ? & ?).
    by eapply balances_bounded_only_account.
Qed.

(** C6. Along any sequence of [set_balance], [withdraw_credits],
    [deposit_credits] and [transfer_credits] calls that all return, the
    persisted balances stay between zero and the maximum of their scope:
    if every balance is within bounds before the first call, every balance
    is within bounds after the last. *)
Theorem run_operations_bounded ops s s' :
  balances_bounded s ->
  run_operations ops s = (Return tt, s') ->
  balances_bounded s'.
Proof.
  revert s. induction ops as [|op ops IH]; intros s Hb; simpl.
  - by intros [= <-].
  - rewrite bind_run.
    destruct (run_operation op s) as [[r|e] s1] eqn:Hop; [|done].
    apply IH. by eapply run_operation_bounded.
Qed.

(** C7. [set_global global_] in the mode asked for returns [global_]
    without writing anything. In the other mode it first clears the
    namespace being left (the users when leaving the global mode, the
    members of every guild when leaving the local mode), then stores the
    flag, then updates the cache: when the store refuses the first write
    nothing has changed, when it refuses the second the accounts are gone
    but flag and cache still say the old mode, and otherwise the call
    returns [global_] with the flag stored and cached. A call that returned
    leaves a state in which the same call returns again and changes
    nothing. *)
Theorem set_global_spec (global_ : bool) s :
  ((is_global s).1 = Return global_ ->
   exists s',
     set_global global_ s = (Return global_, s')
     /\ _config s' = _config s /\ writes s' = writes s
     /\ (is_global s').1 = Return global_)
  /\ ((is_global s).1 = Return (negb global_) ->
      let wiped :=
        (if global_ then with_members ∅ else with_users []) (_config s) in
      let refused1 := write_fails (writes s) in
      let refused2 := write_fails (S (writes s)) in
      exists s',
        set_global global_ s
        = (if refused1 || refused2 then Raise StoreError else Return global_, s')
        /\ _config s'
           = (if refused1 then _config s
              else if refused2 then wiped
              else with_is_global global_ wiped)
        /\ _cache_is_global s'
           = Some (if refused1 || refused2 then negb global_ else global_))
  /\ (forall s',
        set_global global_ s = (Return global_, s') ->
        set_global global_ s' = (Return global_, s')).
Proof.
  destruct s as [c ig ca w].
  unfold set_global, is_global, bind, ret, clear_all_users, clear_all_members,
    store_write; simpl.
  split_and!.
  - destruct ig as [b|]; simpl; intros [= ->]; rewrite bool_decide_true by done;
      eexists; split_and!; reflexivity.
  - destruct ig as [b|]; simpl; intros [= ->];
      (rewrite bool_decide_false by (by destruct global_));
      destruct global_; simpl;
      destruct (write_fails w); simpl;
      try destruct (write_fails (S w)); simpl;
      eexists; split_and!; reflexivity.
  - intros s'. destruct ig as [b|]; simpl.
    + case_bool_decide as Hb.
      * intros [= <-]. simpl. by rewrite bool_decide_true.
      * destruct b; simpl; destruct (write_fails w); simpl; try done;
          destruct (write_fails (S w)); simpl; try done;
          intros [= <-]; simpl; by rewrite bool_decide_true.
    + case_bool_decide as Hb.
      * intros [= <-]. simpl. by rewrite bool_decide_true.
      * destruct (cfg_is_global c); simpl; destruct (write_fails w); simpl; try done;
          destruct (write_fails (S w)); simpl; try done;
          intros [= <-]; simpl; by rewrite bool_decide_true.
Qed.

(** ** Sorting and slicing *)

Section Sorting.

Context {A : Type} (key : A -> Z).

Lemma insert_desc_perm x l : insert_desc key x l ≡ₚ x :: l.
Proof.
  induction l as [|y l IH]; simpl; [done|].
  destruct (key x <? key y); [|done].
  by rewrite IH, Permutation_swap.
Qed.

Lemma sorted_reverse_perm l : sorted_reverse key l ≡ₚ l.
Proof.
  induction l as [|x l IH]; simpl; [done|].
  by rewrite insert_desc_perm, IH.
Qed.

Lemma insert_desc_sorted x l :
  StronglySorted (fun a b => key b <= key a) l ->
  StronglySorted (fun a b => key b <= key a) (insert_desc key x l).
Proof.
  induction 1 as [|y l Hl IH Hy]; simpl; [by repeat constructor|].
  destruct (key x <? key y) eqn:E.
  - constructor; [done|].
    rewrite insert_desc_perm. constructor; [lia | done].
  - constructor; [by constructor|].
    constructor; [lia|].
    eapply Forall_impl; [exact Hy|]. simpl. intros z Hz. lia.
Qed.

Lemma sorted_reverse_sorted l :
  StronglySorted (fun a b => key b <= key a) (sorted_reverse key l).
Proof.
  induction l as [|x l IH]; simpl; [constructor|].
  by apply insert_desc_sorted.
Qed.

(** Stability: the items of any one key come out in the order they went in. *)
Lemma insert_desc_stable k x l :
  filter (fun a => key a = k) (insert_desc key x l)
  = filter (fun a => key a = k) (x :: l).
Proof.
  induction l as [|y l IH]; simpl; [done|].
  destruct (key x <? key y) eqn:E; [|done].
  rewrite (filter_cons _ y), IH, !filter_cons.
  repeat case_decide; try done; lia.
Qed.

Lemma sorted_reverse_stable k l :
  filter (fun a => key a = k) (sorted_reverse key l)
  = filter (fun a => key a = k) l.
Proof.
  induction l as [|x l IH]; simpl; [done|].
  by rewrite insert_desc_stable, !filter_cons, IH.
Qed.

End Sorting.

Lemma slice_to_take {A : Type} (stop : Z) (l : list A) :
  0 <= stop -> slice_to stop l = take (Z.to_nat stop) l.
Proof. intros H. unfold slice_to. destruct (stop <? 0) eqn:E; [lia | done]. Qed.

Lemma filter_iff_elem {A : Type} (P1 P2 : A -> Prop)
    `{!forall x, Decision (P1 x), !forall x, Decision (P2 x)} (l : list A) :
  (forall x, x ∈ l -> P1 x <-> P2 x) -> filter P1 l = filter P2 l.
Proof.
  induction l as [|a l IH]; intros Hiff; [done|].
  rewrite !filter_cons.
  rewrite IH by (intros x Hx; apply Hiff; by right).
  apply decide_ext, Hiff. left.
Qed.

Lemma filter_all {A : Type} (P : A -> Prop) `{!forall x, Decision (P x)}
    (l : list A) :
  (forall x, x ∈ l -> P x) -> filter P l = l.
Proof.
  induction l as [|a l IH]; intros Hall; [done|].
  rewrite filter_cons_True by (apply Hall; left).
  f_equal. apply IH. intros x Hx. apply Hall. by right.
Qed.

(** The deletion loop keeps exactly the accounts of the guild's members. *)
Lemma drop_non_members_filter gd (raw : accounts) :
  drop_non_members gd raw raw
  = filter (fun kv => discord.get_member gd kv.1) raw.
Proof.
  unfold drop_non_members.
  assert (H : forall (tmp d : accounts),
    foldl (fun d kv => if discord.get_member gd kv.1 then d else dict_del kv.1 d)
          d tmp
    = filter (fun kv => discord.get_member gd kv.1 \/ kv.1 ∉ tmp.*1) d).
  { induction tmp as [|t tmp IH]; intros d; simpl.
    - symmetry. apply filter_all. intros x _. right. apply not_elem_of_nil.
    - rewrite IH. destruct (discord.get_member gd t.1) eqn:Et.
      + apply list_filter_iff. intros kv. rewrite not_elem_of_cons.
        split; [|tauto]. intros [?|?]; [by left|].
        destruct (decide (kv.1 = t.1)) as [Heq|?]; [|tauto].
        left. by rewrite Heq, Et.
      + unfold dict_del. rewrite list_filter_filter.
        apply list_filter_iff. intros kv. rewrite not_elem_of_cons.
        split; [intros [[Hm|?] Hne]; tauto|].
        intros [Hm|[? ?]]; [|tauto]. split; [by left|].
        intros Heq. rewrite Heq, Et in Hm. done. }
  rewrite H. apply filter_iff_elem. intros kv Hkv.
  split; [|tauto]. intros [?|Hn]; [done|].
  exfalso. apply Hn. by apply list_elem_of_fmap_2.
Qed.

Lemma is_global_fst s : (is_global s).1 = Return (v_mode (view s)).
Proof. by destruct (reads_is_global s) as (s1 & -> & _). Qed.

(** The leaderboard before it is cut to [positions] entries. *)
Lemma get_leaderboard_ranked positions guild s raw :
  ranked s guild raw ->
  (get_leaderboard positions guild s).1
  = Return (let sorted_acc := sorted_reverse (fun x => balance x.2) raw in
            match positions with
            | None => sorted_acc
            | Some p => slice_to p sorted_acc
            end).
Proof.
  intros Hr. unfold get_leaderboard. rewrite bind_run.
  destruct (reads_is_global s) as (s1 & -> & Hv1).
  assert (Hc : _config s1 = _config s) by apply (f_equal v_config Hv1).
  destruct Hr as [Hm|gd Hm|gd Hm];
    [change (v_mode (view s) = true) in Hm
    |change (v_mode (view s) = true) in Hm
    |change (v_mode (view s) = false) in Hm];
    rewrite Hm; unfold bind, store_read, ret; simpl; rewrite ?Hc; try done.
  by rewrite drop_non_members_filter.
Qed.

(** C8. In the local mode [get_leaderboard] without a guild raises the
    [TypeError] that asks for one. Otherwise the accounts it ranks come out
    by balance in descending order, accounts of equal balance in the order
    in which the store holds them (the order of insertion), every ranked
    account exactly once; and when [positions] is a number of entries, the
    answer is the first [positions] entries of that list. *)
Theorem get_leaderboard_spec positions guild s :
  ((is_global s).1 = Return false -> guild = None ->
   (get_leaderboard positions guild s).1 = Raise TypeError)
  /\ (forall raw, ranked s guild raw ->
      exists full,
        full ≡ₚ raw
        /\ StronglySorted ranks_before full
        /\ (forall b, filter (fun kv => balance kv.2 = b) full
                      = filter (fun kv => balance kv.2 = b) raw)
        /\ (positions = None ->
            (get_leaderboard positions guild s).1 = Return full)
        /\ (forall p, positions = Some p -> 0 <= p ->
            (get_leaderboard positions guild s).1
            = Return (take (Z.to_nat p) full))).
Proof.
  split.
  - rewrite is_global_fst. intros Hg ->.
    assert (Hm : v_mode (view s) = false) by congruence.
    unfold get_leaderboard. rewrite bind_run.
    destruct (reads_is_global s) as (s1 & -> & Hv1). by rewrite Hm.
  - intros raw Hr. exists (sorted_reverse (fun x => balance x.2) raw).
    split_and!.
    + apply sorted_reverse_perm.
    + apply (sorted_reverse_sorted (fun x : Z * Account => balance x.2)).
    + intros b. apply (sorted_reverse_stable (fun x : Z * Account => balance x.2)).
    + intros ->. by rewrite (get_leaderboard_ranked _ _ _ _ Hr).
    + intros p -> Hp. rewrite (get_leaderboard_ranked _ _ _ _ Hr). simpl.
      by rewrite slice_to_take.
Qed.

(** ** The migration *)

(** Python's [int] of a finite number is its integer part. *)
Lemma int_finite x : is_finite x = true -> int x = Return (integer_part x).
Proof.
  destruct x as [z|[sg|sg| |sg m e]]; simpl; try done. intros _. f_equal.
  destruct (0 <=? e) eqn:E.
  - rewrite (Z.max_r 0 e), (Z.max_l 0 (- e)) by lia.
    rewrite Z.pow_0_r, Z.quot_1_r. destruct sg; lia.
  - rewrite (Z.max_l 0 e), (Z.max_r 0 (- e)) by lia.
    rewrite Z.pow_0_r, Z.mul_1_r.
    assert (0 < 2 ^ (- e)) by (apply Z.pow_pos_nonneg; lia).
    destruct sg.
    + replace (-1 * Z.pos m) with (- Z.pos m) by lia.
      rewrite Z.quot_opp_l by lia. by rewrite Z.quot_div_nonneg by lia.
    + rewrite Z.mul_1_l. by rewrite Z.quot_div_nonneg by lia.
Qed.

Lemma balance_to_int_finite a :
  finite_balance a = true -> balance_to_int a = Return (truncated a).
Proof.
  unfold finite_balance, balance_to_int, truncated.
  destruct a as [n [b|] t]; simpl; [|done].
  intros Hb. by rewrite (int_finite _ Hb).
Qed.

(** A loop whose body returns on every value maps the body over the dict. *)
Lemma for_values_map {V : Type} (body : V -> outcome V) (f : V -> V) (ok : V -> bool)
    (d : list (Z * V)) :
  (forall v, ok v = true -> body v = Return (f v)) ->
  forallb (fun kv => ok kv.2) d = true ->
  for_values body d = Return ((fun kv => (kv.1, f kv.2)) <$> d).
Proof.
  intros Hbody. induction d as [|[k v] d IH]; simpl; [done|].
  intros [Hv Hd]%andb_prop. by rewrite (Hbody _ Hv), (IH Hd).
Qed.

(** A loop that raises leaves no result to store. *)
Lemma schema_0_to_1_keeps_version c o c' :
  _schema_0_to_1 c = (o, c') -> schema_version c' = schema_version c.
Proof.
  unfold _schema_0_to_1, bind, group_all, group_set, lift.
  destruct (for_values balance_to_int (USER c)); simpl; [|by intros [= _ <-]].
  destruct (for_values (for_values balance_to_int) (MEMBER c)); simpl;
    by intros [= _ <-].
Qed.

(** C9. The migration of a store at schema version 0, whose balances are
    integers or finite floats, returns; it replaces the balance of every
    account that has one, in the USER group and in every guild of the MEMBER
    group, by its integer part, changes nothing else, and leaves the schema
    version at 1; run again on the result it changes nothing. The version is
    written after the accounts: a migration that raises leaves it at 0. *)
Theorem migrate_config_spec c :
  schema_version c = 0 ->
  (finite_balances c = true ->
   exists c',
     _migrate_config c = (Return tt, c')
     /\ schema_version c' = 1
     /\ USER c' = (fun kv : Z * raw_account => (kv.1, truncated kv.2)) <$> USER c
     /\ MEMBER c'
        = (fun gd : Z * raw_accounts =>
             (gd.1, (fun kv : Z * raw_account => (kv.1, truncated kv.2)) <$> gd.2))
          <$> MEMBER c
     /\ _migrate_config c' = (Return tt, c'))
  /\ (forall e c', _migrate_config c = (Raise e, c') -> schema_version c' = 0).
Proof.
  intros Hv. split.
  - intros [Hu Hm]%andb_prop.
    unfold _migrate_config, bind, group_all. rewrite Hv. simpl.
    unfold _schema_0_to_1, bind, group_all, group_set, lift.
    rewrite (for_values_map _ truncated finite_balance _ balance_to_int_finite Hu).
    simpl.
    rewrite (for_values_map (for_values balance_to_int)
               (fmap (fun kv => (kv.1, truncated kv.2)))
               (forallb (fun kv => finite_balance kv.2)) (MEMBER c)).
    + eexists. split_and!; reflexivity.
    + intros d Hd.
      apply (for_values_map _ truncated finite_balance _ balance_to_int_finite Hd).
    + done.
  - intros e c'. unfold _migrate_config, bind, group_all. rewrite Hv. simpl.
    destruct (_schema_0_to_1 c) as [[[]|e0] c1] eqn:Hs; simpl.
    + done.
    + intros [= _ <-]. by rewrite (schema_0_to_1_keeps_version _ _ _ Hs).
Qed.

(** ** A store that accepts every write *)

Lemma deposit_credits_succeeds member amount s bal max_bal :
  (forall n, write_fails n = false) ->
  balance_of (view s) member = Return bal ->
  setting_of max_balance (view s) (discord.guild member) = Return max_bal ->
  0 <= amount -> 0 <= amount + bal <= max_bal ->
  exists s', deposit_credits member amount s = (Return (amount + bal), s').
Proof.
  intros Hnf Hbal Hmax Ha Hsum. unfold deposit_credits, _invalid_amount.
  destruct (amount <? 0) eqn:E0; [lia|].
  rewrite bind_run.
  destruct (reads_get_balance member s) as (s1 & -> & Hv1). rewrite Hbal.
  apply (set_balance_succeeds _ _ _ max_bal); [done | by rewrite Hv1 | done].
Qed.

Lemma withdraw_credits_succeeds member amount s bal max_bal :
  (forall n, write_fails n = false) ->
  balance_of (view s) member = Return bal ->
  setting_of max_balance (view s) (discord.guild member) = Return max_bal ->
  0 <= amount <= bal -> bal - amount <= max_bal ->
  exists s', withdraw_credits member amount s = (Return (bal - amount), s').
Proof.
  intros Hnf Hbal Hmax Ha Hle. unfold withdraw_credits, _invalid_amount.
  destruct (amount <? 0) eqn:E0; [lia|].
  rewrite bind_run.
  destruct (reads_get_balance member s) as (s1 & -> & Hv1). rewrite Hbal.
  destruct (amount >? bal) eqn:E1; [lia|].
  apply (set_balance_succeeds _ _ _ max_bal); [done | by rewrite Hv1 | lia].
Qed.

(** C1 (as the bank does it). [transfer_credits] has no compensation step:
    once the pre-check and the withdrawal have passed, the outcome of the
    transfer is the outcome of the deposit, exception and state included.
    The deposit can then only fail because the store refuses a write: with a
    store that accepts every write, and a destination whose balance is not
    negative, it returns. *)
Theorem transfer_credits_no_compensation from_ to amount s max_bal bal_to :
  0 <= amount ->
  (get_max_balance (discord.guild to) s).1 = Return max_bal ->
  (get_balance to s).1 = Return bal_to ->
  0 <= bal_to -> bal_to + amount <= max_bal ->
  exists s1,
    view s1 = view s
    /\ forall r1 s2,
         withdraw_credits from_ amount s1 = (Return r1, s2) ->
         transfer_credits from_ to amount s = deposit_credits to amount s2
         /\ ((forall n, write_fails n = false) ->
             exists r s3, deposit_credits to amount s2 = (Return r, s3)).
Proof.
  rewrite get_max_balance_fst, get_balance_fst. intros Ha Hmax Hbal Hb0 Hle.
  unfold transfer_credits, _invalid_amount.
  destruct (amount <? 0) eqn:E0; [lia|].
  rewrite bind_run.
  destruct (reads_get_max_balance (discord.guild to) s) as (s1 & -> & Hv1).
  rewrite Hmax, bind_run.
  destruct (reads_get_balance to s1) as (s2 & -> & Hv2).
  rewrite Hv1 in *. rewrite Hbal.
  destruct (bal_to + amount >? max_bal) eqn:E1; [lia|].
  exists s2. split; [done|]. intros r1 s3 Hw.
  rewrite bind_run, Hw. split; [done|]. intros Hnf.
  apply withdraw_credits_Return in Hw
    as (gr & bal & mx & Hbf & ? & -> & _ & _ & Hgf & Hss & Ho & Hr).
  rewrite Hv2 in *.
  pose proof (balance_of_only_account _ _ _ _ to Hss Ho Hr) as Hbt.
  rewrite <- (setting_of_same_scopes _ _ _ _ Hss) in Hmax.
  destruct (decide (group_of (view s) to = Some gr)) as [Heq|Hne].
  - assert (bal = bal_to) as ->.
    { unfold balance_of in Hbf, Hbal. rewrite Hgf in Hbf. rewrite Heq in Hbal.
      assert (Hsame : setting_of default_balance (view s) (discord.guild from_)
                      = setting_of default_balance (view s) (discord.guild to)).
      { unfold setting_of, group_of in *.
        destruct (v_mode (view s)); [done|].
        destruct (discord.guild from_) as [g1|], (discord.guild to) as [g2|];
          try done.
        unfold guild_settings. congruence. }
      destruct (dict_get _ _); [congruence|]. rewrite Hsame in Hbf. congruence. }
    destruct (deposit_credits_succeeds to amount s3 (bal_to - amount) max_bal
                Hnf Hbt Hmax) as (s4 & Hd); [lia..|].
    by exists (amount + (bal_to - amount)), s4.
  - rewrite Hbal in Hbt.
    destruct (deposit_credits_succeeds to amount s3 bal_to max_bal
                Hnf Hbt Hmax) as (s4 & Hd); [lia..|].
    by exists (amount + bal_to), s4.
Qed.

(** * Further properties of the bank *)

(** ** The account store *)

(** X1. A [set_balance] that returns has stored the amount: it returns the
    amount, the amount lies between zero and the maximum of the member's
    scope, and the balance of every member with another account is what it
    was. Reading the member's own balance afterwards gives the amount
    provided it could be read before the call: [set_balance] does not read
    the account, and a creation time persisted outside the range of
    [datetime] makes [get_balance] raise before and after. *)
Theorem set_balance_then_get_balance member amount s r s' :
  set_balance member amount s = (Return r, s') ->
  r = amount
  /\ (exists max_bal,
        (get_max_balance (discord.guild member) s).1 = Return max_bal
        /\ 0 <= amount <= max_bal)
  /\ (forall bal,
        (get_balance member s).1 = Return bal ->
        (get_balance member s').1 = Return amount)
  /\ (forall other,
        group_of (view s) other <> group_of (view s) member ->
        (get_balance other s').1 = (get_balance other s).1).
Proof.
  intros Hset. pose proof Hset as Hset'.
  apply set_balance_Return in Hset
    as (gr & max_bal & -> & Hgr & Hmax & Hb & Hss & Ho).
  split_and!.
  - done.
  - exists max_bal. by rewrite get_max_balance_fst.
  - intros bal. rewrite !get_balance_fst. intros Hbal.
    assert (Hr : readable gr (v_config (view s'))).
    { apply (set_balance_readable _ _ _ _ _ _ Hset' Hgr).
      by apply (balance_of_readable _ member gr bal). }
    rewrite (balance_of_only_account _ _ _ _ member Hss Ho Hr).
    by rewrite decide_True.
  - intros other Hne. rewrite !get_balance_fst.
    apply (balance_of_other_account _ _ gr amount); [done | done | congruence].
Qed.

(** X2. [set_balance] refuses a negative amount with the [ValueError] for
    negative balances, in the state it was called in, and an amount above
    the maximum of the scope with [BalanceTooHigh], which carries the
    member's display name, that maximum and the currency name; in both
    cases the store is not asked for any write. *)
Theorem set_balance_rejects member amount s :
  (amount < 0 ->
   set_balance member amount s = (Raise (ValueError NegativeBalance), s))
  /\ (forall max_bal,
        (get_max_balance (discord.guild member) s).1 = Return max_bal ->
        max_bal < amount -> 0 <= amount ->
        exists cur s',
          (get_currency_name (discord.guild member) s).1 = Return cur
          /\ set_balance member amount s
             = (Raise (BalanceTooHigh (discord.display_name member) max_bal cur), s')
          /\ view s' = view s).
Proof.
  unfold set_balance. split.
  - intros Ha. destruct (amount <? 0) eqn:E0; [done | lia].
  - intros max_bal. rewrite get_max_balance_fst. intros Hmax Hgt Ha.
    destruct (amount <? 0) eqn:E0; [lia|].
    rewrite bind_run.
    destruct (reads_get_max_balance (discord.guild member) s) as (s1 & -> & Hv1).
    rewrite Hmax. destruct (amount >? max_bal) eqn:E1; [|lia].
    rewrite bind_run.
    destruct (reads_get_currency_name (discord.guild member) s1) as (s2 & -> & Hv2).
    rewrite Hv1 in *.
    destruct (setting_of_Return max_balance currency _ _ _ Hmax) as (cur & Hcur).
    rewrite Hcur. exists cur, s2. split_and!; [|done|done].
    by destruct (reads_get_currency_name (discord.guild member) s) as (s3 & -> & _).
Qed.

(** X3. The record a returning [set_balance] leaves for the member holds the
    amount, and keeps the creation time and the name it had: only a creation
    time of 0 is replaced, by the current time, and only an empty name, by
    the member's display name. So both are set when the account is first
    persisted and a later change of display name is not recorded. *)
Theorem set_balance_metadata member amount s r s' gr :
  set_balance member amount s = (Return r, s') ->
  group_of (view s) member = Some gr ->
  let old := group_get gr (_config s) in
  group_get gr (_config s')
  = {| name := if bool_decide (name old = ""%string)
               then discord.display_name member else name old;
       balance := amount;
       created_at := if bool_decide (created_at old = 0) then now
                     else created_at old |}.
Proof.
  intros Hset Hgr. pose proof (set_balance_cases member amount s) as Hc.
  rewrite Hset in Hc. destruct Hc as (gr' & max_bal & _ & Hgr' & _ & _ & Hp & _).
  assert (gr' = gr) as -> by congruence.
  change (v_config (view s')) with (_config s') in Hp.
  change (v_config (view s)) with (_config s) in Hp.
  rewrite Hp. unfold persisted. cbv zeta.
  rewrite (group_get_update gr (with_balance amount)).
  cbn [created_at with_balance].
  destruct (bool_decide (created_at (group_get gr (_config s)) = 0)) eqn:Ec.
  - rewrite (group_get_update gr (with_created_at now)), group_get_update.
    cbn [name with_created_at with_balance].
    destruct (bool_decide (name (group_get gr (_config s)) = ""%string)) eqn:En;
      rewrite !group_get_update; reflexivity.
  - rewrite group_get_update. cbn [name with_balance].
    destruct (bool_decide (name (group_get gr (_config s)) = ""%string)) eqn:En;
      rewrite !group_get_update; reflexivity.
Qed.

(** ** Withdrawals and deposits *)

(** X4. [withdraw_credits] refuses a negative amount, in the state it was
    called in, and an amount above the member's balance with the
    insufficient-funds [ValueError]; the store is then not asked for any
    write and the balance is what it was. *)
Theorem withdraw_credits_rejects member amount s :
  (amount < 0 ->
   withdraw_credits member amount s = (Raise (ValueError InvalidWithdrawal), s))
  /\ (forall bal,
        (get_balance member s).1 = Return bal -> bal < amount -> 0 <= amount ->
        exists s',
          withdraw_credits member amount s
          = (Raise (ValueError InsufficientFunds), s')
          /\ view s' = view s
          /\ (get_balance member s').1 = Return bal).
Proof.
  unfold withdraw_credits, _invalid_amount. split.
  - intros Ha. destruct (amount <? 0) eqn:E0; [done | lia].
  - intros bal. rewrite get_balance_fst. intros Hbal Hlt Ha.
    destruct (amount <? 0) eqn:E0; [lia|].
    rewrite bind_run.
    destruct (reads_get_balance member s) as (s1 & -> & Hv1).
    rewrite Hbal. destruct (amount >? bal) eqn:E1; [|lia].
    exists s1. by rewrite get_balance_fst, Hv1.
Qed.

(** X5. A [withdraw_credits] that returns has taken the amount from the
    member's balance, which covered it: the value returned and the balance
    read afterwards are the old balance less the amount, and members with
    another account keep their balance. *)
Theorem withdraw_credits_debits member amount s r s' :
  withdraw_credits member amount s = (Return r, s') ->
  exists bal,
    (get_balance member s).1 = Return bal
    /\ 0 <= amount <= bal
    /\ r = bal - amount
    /\ (get_balance member s').1 = Return (bal - amount)
    /\ (forall other,
          group_of (view s) other <> group_of (view s) member ->
          (get_balance other s').1 = (get_balance other s).1).
Proof.
  intros (gr & bal & mx & Hbal & Ha & -> & _ & _ & Hgr & Hss & Ho & Hr)%withdraw_credits_Return.
  exists bal. rewrite !get_balance_fst. split_and!; try done; try lia.
  - rewrite (balance_of_only_account _ _ _ _ member Hss Ho Hr).
    by rewrite decide_True.
  - intros other Hne.
    rewrite !get_balance_fst, (balance_of_only_account _ _ _ _ other Hss Ho Hr).
    rewrite decide_False; [done | congruence].
Qed.

(** X6. A deposit followed by a withdrawal of the same amount, both
    returning, brings the member's balance back to what it was. *)
Theorem deposit_then_withdraw member amount s r1 s1 r2 s2 :
  deposit_credits member amount s = (Return r1, s1) ->
  withdraw_credits member amount s1 = (Return r2, s2) ->
  (get_balance member s2).1 = (get_balance member s).1
  /\ (get_balance member s).1 = Return r2.
Proof.
  intros (gr & bal & mx & Hbal & Ha & -> & _ & _ & Hgr & Hss & Ho & Hr)%deposit_credits_Return.
  intros (gr2 & bal2 & mx2 & Hbal2 & Ha2 & -> & _ & _ & Hgr2 & Hss2 & Ho2 & Hr2)%withdraw_credits_Return.
  rewrite (balance_of_only_account _ _ _ _ member Hss Ho Hr) in Hbal2.
  rewrite decide_True in Hbal2 by done. injection Hbal2 as <-.
  rewrite !get_balance_fst, Hbal.
  rewrite (balance_of_only_account _ _ _ _ member Hss2 Ho2 Hr2).
  rewrite decide_True by done.
  split; f_equal; lia.
Qed.

(** ** What no operation touches *)

(** The state [s'] differs from [s] at most in the account [gr]: mode,
    settings and every other account are as they were. *)
Definition untouched_but (gr : option group) (s s' : State) : Prop :=
  same_scopes (view s) (view s')
  /\ forall gr', Some gr' <> gr ->
       dict_get (group_key gr') (namespace gr' (_config s'))
       = dict_get (group_key gr') (namespace gr' (_config s)).

Lemma untouched_view gr s s' : view s' = view s -> untouched_but gr s s'.
Proof.
  intros Hv. split; [by apply same_scopes_view|]. intros gr' _.
  change (_config s') with (v_config (view s')). by rewrite Hv.
Qed.

Lemma untouched_trans gr s1 s2 s3 :
  untouched_but gr s1 s2 -> untouched_but gr s2 s3 -> untouched_but gr s1 s3.
Proof.
  intros [Hs1 H1] [Hs2 H2]. split; [by eapply same_scopes_trans|].
  intros gr' Hne. by rewrite H2, H1.
Qed.

Lemma untouched_store_write gr f s :
  untouched_but (Some gr) s (store_write (group_update gr f) s).2.
Proof.
  unfold store_write. destruct (write_fails (writes s)); simpl.
  - split; [by rewrite view_count_write | done].
  - split.
    + rewrite view_group_update. split_and!; simpl; [done | done |].
      by destruct gr.
    + intros gr' Hne. apply namespace_group_update_ne. congruence.
Qed.

Lemma balance_of_untouched gr s s' member :
  untouched_but gr s s' -> group_of (view s) member <> gr ->
  balance_of (view s') member = balance_of (view s) member.
Proof.
  intros [Hss Ho] Hne. unfold balance_of.
  rewrite (group_of_same_scopes _ _ _ Hss).
  destruct (group_of (view s) member) as [gr'|]; [|done].
  change (v_config (view s')) with (_config s').
  change (v_config (view s)) with (_config s).
  rewrite Ho by done. by rewrite (setting_of_same_scopes _ _ _ _ Hss).
Qed.

(** However [set_balance] ends, it has touched the member's account only. *)
Lemma set_balance_untouched member amount s :
  untouched_but (group_of (view s) member) s (set_balance member amount s).2.
Proof.
  unfold set_balance.
  destruct (amount <? 0); [by apply untouched_view|].
  rewrite bind_run.
  destruct (reads_get_max_balance (discord.guild member) s) as (s1 & -> & Hv1).
  destruct (setting_of max_balance (view s) (discord.guild member))
    as [max_bal|e] eqn:Emax; [|by apply untouched_view].
  destruct (amount >? max_bal).
  { rewrite bind_run.
    destruct (reads_get_currency_name (discord.guild member) s1) as (s2 & -> & Hv2).
    destruct (setting_of currency (view s1) (discord.guild member)); simpl;
      apply untouched_view; congruence. }
  rewrite bind_run.
  destruct (reads_is_global s1) as (s2 & -> & Hv2). rewrite Hv1 in Hv2.
  destruct (group_of_max _ _ _ Emax) as (gr & Egr). rewrite Egr.
  assert (Hgr : (if v_mode (view s)
                 then ret (user_group (discord.id member))
                 else let! gd := attr_guild member in
                      ret (member_group (discord.guild_id gd) (discord.id member))) s2
                = (Return gr, s2)).
  { unfold group_of in Egr. destruct (v_mode (view s)); [by inversion Egr|].
    unfold bind, attr_guild. destruct (discord.guild member); [|done].
    by inversion Egr. }
  rewrite Hv1. rewrite bind_run, Hgr.
  apply (untouched_trans _ _ s2); [by apply untouched_view|].
  assert (Hstep : forall (b : bool) f (k : bank Z) s3,
            (forall s4, untouched_but (Some gr) s4 (k s4).2) ->
            untouched_but (Some gr) s3
              ((do! (if b then store_write (group_update gr f) else ret tt) in k) s3).2).
  { intros b f k s3 Hk. rewrite bind_run. destruct b.
    - pose proof (untouched_store_write gr f s3) as Hw.
      destruct (store_write (group_update gr f) s3) as [[[]|e] s4]; [|done].
      by apply (untouched_trans _ _ s4).
    - apply Hk. }
  rewrite bind_run.
  pose proof (untouched_store_write gr (with_balance amount) s2) as Hw.
  destruct (store_write (group_update gr (with_balance amount)) s2)
    as [[[]|e] s3]; [|done].
  apply (untouched_trans _ _ s3); [done|].
  rewrite bind_run. unfold store_read at 1.
  apply Hstep. intros s4. rewrite bind_run. unfold store_read at 1.
  apply Hstep. intros s5. by apply untouched_view.
Qed.

Lemma withdraw_credits_untouched member amount s :
  untouched_but (group_of (view s) member) s (withdraw_credits member amount s).2.
Proof.
  unfold withdraw_credits.
  destruct (_invalid_amount amount); [by apply untouched_view|].
  rewrite bind_run.
  destruct (reads_get_balance member s) as (s1 & -> & Hv1).
  destruct (balance_of (view s) member) as [bal|e]; [|by apply untouched_view].
  destruct (amount >? bal); [by apply untouched_view|].
  apply (untouched_trans _ _ s1); [by apply untouched_view|].
  rewrite <- Hv1. apply set_balance_untouched.
Qed.

Lemma deposit_credits_untouched member amount s :
  untouched_but (group_of (view s) member) s (deposit_credits member amount s).2.
Proof.
  unfold deposit_credits.
  destruct (_invalid_amount amount); [by apply untouched_view|].
  rewrite bind_run.
  destruct (reads_get_balance member s) as (s1 & -> & Hv1).
  destruct (balance_of (view s) member) as [bal|e]; [|by apply untouched_view].
  apply (untouched_trans _ _ s1); [by apply untouched_view|].
  rewrite <- Hv1. apply set_balance_untouched.
Qed.

(** X7. No operation touches the account of a third party: whether
    [set_balance], [withdraw_credits], [deposit_credits] or
    [transfer_credits] returns or raises (a refusal of the store included),
    a member whose account is not the account of a member the call names
    has the balance it had, and mode and settings are what they were. *)
Theorem run_operation_third_party op s other :
  (forall member, member ∈ parties op ->
     group_of (view s) other <> group_of (view s) member) ->
  let s' := (run_operation op s).2 in
  (get_balance other s').1 = (get_balance other s).1
  /\ same_scopes (view s) (view s').
Proof.
  intros Hne. cbv zeta. rewrite !get_balance_fst.
  assert (Hone : forall gr s', untouched_but gr s s' ->
            group_of (view s) other <> gr ->
            balance_of (view s') other = balance_of (view s) other
            /\ same_scopes (view s) (view s')).
  { intros gr s' Hu Hgr. split; [by eapply balance_of_untouched | apply Hu]. }
  destruct op as [m a|m a|m a|f t a]; simpl.
  - apply (Hone _ _ (set_balance_untouched m a s)). apply Hne. simpl. left.
  - apply (Hone _ _ (withdraw_credits_untouched m a s)). apply Hne. simpl. left.
  - apply (Hone _ _ (deposit_credits_untouched m a s)). apply Hne. simpl. left.
  - assert (Hf : group_of (view s) other <> group_of (view s) f).
    { apply Hne. simpl. left. }
    assert (Ht : group_of (view s) other <> group_of (view s) t).
    { apply Hne. simpl. right. left. }
    unfold transfer_credits.
    destruct (_invalid_amount a); [by split|].
    rewrite bind_run.
    destruct (reads_get_max_balance (discord.guild t) s) as (s1 & -> & Hv1).
    destruct (setting_of max_balance (view s) (discord.guild t)) as [max_bal|e];
      [|simpl; rewrite Hv1; by split].
    rewrite bind_run.
    destruct (reads_get_balance t s1) as (s2 & -> & Hv2). rewrite Hv1 in Hv2.
    destruct (balance_of (view s1) t) as [bal_to|e];
      [|simpl; rewrite Hv2; by split].
    destruct (bal_to + a >? max_bal).
    { rewrite bind_run.
      destruct (reads_get_currency_name (discord.guild t) s2) as (s3 & -> & Hv3).
      rewrite Hv2 in Hv3.
      destruct (setting_of currency (view s2) (discord.guild t)); simpl;
        rewrite Hv3; by split. }
    rewrite bind_run.
    pose proof (withdraw_credits_untouched f a s2) as Hw.
    rewrite Hv2 in Hw.
    assert (Hw' : untouched_but (group_of (view s) f) s
                    (withdraw_credits f a s2).2).
    { apply (untouched_trans _ _ s2); [by apply untouched_view | done]. }
    destruct (withdraw_credits f a s2) as [[r1|e] s3]; simpl in *.
    2:{ by apply (Hone _ _ Hw'). }
    destruct (Hone _ _ Hw' Hf) as [Hb3 Hss3].
    pose proof (deposit_credits_untouched t a s3) as Hd.
    rewrite (group_of_same_scopes _ _ _ Hss3) in Hd.
    destruct Hd as [Hss4 Ho4]. split.
    + rewrite <- Hb3.
      apply (balance_of_untouched (group_of (view s) t)); [by split|].
      by rewrite (group_of_same_scopes _ _ _ Hss3).
    + by eapply same_scopes_trans.
Qed.

(** ** Deposits and transfers *)

Lemma set_balance_too_high member amount s max_bal :
  setting_of max_balance (view s) (discord.guild member) = Return max_bal ->
  max_bal < amount -> 0 <= amount ->
  exists cur s',
    setting_of currency (view s) (discord.guild member) = Return cur
    /\ set_balance member amount s
       = (Raise (BalanceTooHigh (discord.display_name member) max_bal cur), s')
    /\ view s' = view s.
Proof.
  intros Hmax Hgt Ha. unfold set_balance.
  destruct (amount <? 0) eqn:E0; [lia|].
  rewrite bind_run.
  destruct (reads_get_max_balance (discord.guild member) s) as (s1 & -> & Hv1).
  rewrite Hmax. destruct (amount >? max_bal) eqn:E1; [|lia].
  rewrite bind_run.
  destruct (reads_get_currency_name (discord.guild member) s1) as (s2 & -> & Hv2).
  rewrite Hv1 in *.
  destruct (setting_of_Return max_balance currency _ _ _ Hmax) as (cur & Hcur).
  rewrite Hcur. by exists cur, s2.
Qed.

(** Members of one account read one balance. *)
Lemma balance_of_same_group v m1 m2 gr :
  group_of v m1 = Some gr -> group_of v m2 = Some gr ->
  balance_of v m1 = balance_of v m2.
Proof.
  intros H1 H2. unfold balance_of. rewrite H1, H2.
  destruct (dict_get _ _); [done|].
  unfold setting_of, group_of in *.
  destruct (v_mode v); [done|].
  destruct (discord.guild m1) as [g1|], (discord.guild m2) as [g2|]; try done.
  unfold guild_settings. congruence.
Qed.

(** X8. A [deposit_credits] that returns has added the amount, which was
    not negative, to the member's balance: the value returned and the
    balance read afterwards are the old balance plus the amount, and that
    sum is within the maximum of the member's scope. *)
Theorem deposit_credits_credits member amount s r s' :
  deposit_credits member amount s = (Return r, s') ->
  exists bal max_bal,
    (get_balance member s).1 = Return bal
    /\ (get_max_balance (discord.guild member) s).1 = Return max_bal
    /\ 0 <= amount
    /\ 0 <= bal + amount <= max_bal
    /\ r = bal + amount
    /\ (get_balance member s').1 = Return (bal + amount).
Proof.
  intros (gr & bal & mx & Hbal & Ha & -> & Hmx & Hrange & Hgr & Hss & Ho & Hr)%deposit_credits_Return.
  exists bal, mx. rewrite !get_balance_fst, get_max_balance_fst.
  rewrite (balance_of_only_account _ _ _ _ member Hss Ho Hr).
  rewrite decide_True by done.
  split_and!; try done; try lia. f_equal. lia.
Qed.

(** X9. [deposit_credits] refuses a negative amount in the state it was
    called in; it refuses with [BalanceTooHigh] an amount that would take
    the balance above the maximum of the member's scope, and with the
    [ValueError] for negative balances an amount that leaves a negative
    stored balance negative. In the last two cases the store is not asked
    for any write and the balance is what it was. *)
Theorem deposit_credits_rejects member amount s :
  (amount < 0 ->
   deposit_credits member amount s = (Raise (ValueError InvalidDeposit), s))
  /\ (forall bal max_bal,
        (get_balance member s).1 = Return bal ->
        (get_max_balance (discord.guild member) s).1 = Return max_bal ->
        0 <= amount -> 0 <= amount + bal -> max_bal < amount + bal ->
        exists cur s',
          deposit_credits member amount s
          = (Raise (BalanceTooHigh (discord.display_name member) max_bal cur), s')
          /\ view s' = view s
          /\ (get_balance member s').1 = Return bal)
  /\ (forall bal,
        (get_balance member s).1 = Return bal ->
        0 <= amount -> amount + bal < 0 ->
        exists s',
          deposit_credits member amount s
          = (Raise (ValueError NegativeBalance), s')
          /\ view s' = view s).
Proof.
  unfold deposit_credits, _invalid_amount. split_and!.
  - intros Ha. destruct (amount <? 0) eqn:E0; [done | lia].
  - intros bal max_bal. rewrite get_balance_fst, get_max_balance_fst.
    intros Hbal Hmax Ha H0 Hgt.
    destruct (amount <? 0) eqn:E0; [lia|].
    rewrite bind_run.
    destruct (reads_get_balance member s) as (s1 & -> & Hv1). rewrite Hbal.
    rewrite <- Hv1 in Hmax.
    destruct (set_balance_too_high member (amount + bal) s1 max_bal Hmax Hgt H0)
      as (cur & s2 & _ & -> & Hv2).
    exists cur, s2. rewrite get_balance_fst, Hv2, Hv1. by split_and!.
  - intros bal. rewrite get_balance_fst. intros Hbal Ha Hneg.
    destruct (amount <? 0) eqn:E0; [lia|].
    rewrite bind_run.
    destruct (reads_get_balance member s) as (s1 & -> & Hv1). rewrite Hbal.
    unfold set_balance. destruct (amount + bal <? 0) eqn:E1; [|lia].
    by exists s1.
Qed.

(** X10. [transfer_credits] refuses a negative amount in the state it was
    called in. When the destination has room for the amount but the source
    holds less than the amount, it raises the insufficient-funds
    [ValueError] of the withdrawal, and the store was not asked for any
    write. *)
Theorem transfer_credits_rejects from_ to amount s :
  (amount < 0 ->
   transfer_credits from_ to amount s = (Raise (ValueError InvalidTransfer), s))
  /\ (forall max_bal bal_to bal_from,
        (get_max_balance (discord.guild to) s).1 = Return max_bal ->
        (get_balance to s).1 = Return bal_to ->
        (get_balance from_ s).1 = Return bal_from ->
        0 <= amount -> bal_to + amount <= max_bal -> bal_from < amount ->
        exists s',
          transfer_credits from_ to amount s
          = (Raise (ValueError InsufficientFunds), s')
          /\ view s' = view s).
Proof.
  unfold transfer_credits, _invalid_amount. split.
  - intros Ha. destruct (amount <? 0) eqn:E0; [done | lia].
  - intros max_bal bal_to bal_from.
    rewrite get_max_balance_fst, !get_balance_fst.
    intros Hmax Hbt Hbf Ha Hroom Hlt.
    destruct (amount <? 0) eqn:E0; [lia|].
    rewrite bind_run.
    destruct (reads_get_max_balance (discord.guild to) s) as (s1 & -> & Hv1).
    rewrite Hmax, bind_run.
    destruct (reads_get_balance to s1) as (s2 & -> & Hv2).
    rewrite Hv1 in *. rewrite Hbt.
    destruct (bal_to + amount >? max_bal) eqn:E1; [lia|].
    rewrite bind_run. unfold withdraw_credits, _invalid_amount.
    rewrite E0, bind_run.
    destruct (reads_get_balance from_ s2) as (s3 & -> & Hv3).
    rewrite Hv2 in *. rewrite Hbf.
    destruct (amount >? bal_from) eqn:E2; [|lia].
    by exists s3.
Qed.

(** X11. A transfer between two members of one account (the same user seen
    in two guilds while the bank is global, or a member to themselves) that
    returns leaves the balance of the account where it was, and returns
    it. *)
Theorem transfer_credits_same_account from_ to amount s r s' :
  group_of (view s) from_ = group_of (view s) to ->
  transfer_credits from_ to amount s = (Return r, s') ->
  (get_balance to s).1 = Return r
  /\ (get_balance to s').1 = Return r
  /\ (get_balance from_ s').1 = Return r.
Proof.
  intros Heq (s1 & s2 & r1 & Hv1 & Hw & Hd)%transfer_credits_Return.
  apply withdraw_credits_Return in Hw
    as (gr & bal & ? & Hbf & ? & -> & _ & _ & Hgf & Hss1 & Ho1 & Hr1).
  apply deposit_credits_Return in Hd
    as (gr_to & bal_to & ? & Hbt & ? & -> & _ & _ & Hgt & Hss2 & Ho2 & Hr2).
  rewrite Hv1 in *.
  rewrite (group_of_same_scopes _ _ _ Hss1), <- Heq, Hgf in Hgt.
  injection Hgt as <-.
  rewrite (balance_of_only_account _ _ _ _ to Hss1 Ho1 Hr1) in Hbt.
  rewrite decide_True in Hbt by congruence. injection Hbt as <-.
  rewrite !get_balance_fst.
  rewrite !(balance_of_only_account _ _ _ _ _ Hss2 Ho2 Hr2).
  rewrite !(group_of_same_scopes _ _ _ Hss1), <- Heq.
  rewrite !decide_True by done.
  rewrite <- (balance_of_same_group _ from_ to gr) by congruence.
  rewrite Hbf. split_and!; f_equal; lia.
Qed.

(** ** The purchase guard *)

(** With an author who can pay, the guard comes to run the coroutine in a
    state in which the cost was taken. *)
Lemma wrapped_after_withdrawal {A : Type} amount (coro : bank A) context s
    bal max_bal :
  (forall n, write_fails n = false) ->
  commands.guild context = discord.guild (commands.author context) ->
  balance_of (view s) (commands.author context) = Return bal ->
  setting_of max_balance (view s) (discord.guild (commands.author context))
    = Return max_bal ->
  0 <= amount <= bal -> bal - amount <= max_bal ->
  exists s1,
    balance_of (view s1) (commands.author context) = Return (bal - amount)
    /\ same_scopes (view s) (view s1)
    /\ wrapped amount coro (Some context) s
       = try_except (let! r := coro in ret (Some r)) (refund context amount) s1.
Proof.
  intros Hnf Hctx Hbal Hmax Ha Hle.
  set (author := commands.author context) in *.
  unfold wrapped. rewrite bind_run.
  assert (Hcheck : exists s0,
    (match commands.guild context with
     | Some _ => ret false
     | None => let! g := is_global in ret (negb g)
     end) s = (Return false, s0) /\ view s0 = view s).
  { destruct (commands.guild context) as [gd|] eqn:Eg; [by exists s|].
    rewrite bind_run. destruct (reads_is_global s) as (s0 & -> & Hv0).
    exists s0. split; [|done].
    unfold balance_of, group_of in Hbal. rewrite <- Hctx in Hbal.
    by destruct (v_mode (view s)). }
  destruct Hcheck as (s0 & -> & Hv0). fold author.
  unfold try_except_else at 1.
  destruct (withdraw_credits_succeeds author amount s0 bal max_bal)
    as (s1 & Hw); [done | by rewrite Hv0 | by rewrite Hv0 | lia | lia |].
  rewrite Hw.
  apply withdraw_credits_Return in Hw
    as (gr & bal' & mx & Hb' & _ & _ & _ & _ & Hgr & Hss & Ho & Hr).
  rewrite Hv0 in *.
  exists s1. split_and!; [|done|done].
  rewrite (balance_of_only_account _ _ _ _ author Hss Ho Hr).
  by rewrite decide_True.
Qed.

(** X12. For an author whose balance covers the cost and, less the cost,
    is within the maximum of the scope, a store that accepts every write and
    a context whose guild is the author's: the guard runs the coroutine
    after the cost was taken from the author's balance, and when the
    coroutine returns, the guard returns its result in the state the
    coroutine left, so the cost stays paid. *)
Theorem wrapped_charges {A : Type} amount (coro : bank A) context s bal max_bal :
  (forall n, write_fails n = false) ->
  commands.guild context = discord.guild (commands.author context) ->
  (get_balance (commands.author context) s).1 = Return bal ->
  (get_max_balance (discord.guild (commands.author context)) s).1
    = Return max_bal ->
  0 <= amount <= bal -> bal - amount <= max_bal ->
  exists s1,
    (get_balance (commands.author context) s1).1 = Return (bal - amount)
    /\ forall r s2,
         coro s1 = (Return r, s2) ->
         wrapped amount coro (Some context) s = (Return (Some r), s2).
Proof.
  rewrite get_max_balance_fst, get_balance_fst.
  intros Hnf Hctx Hbal Hmax Ha Hle.
  destruct (wrapped_after_withdrawal amount coro context s bal max_bal)
    as (s1 & Hb1 & _ & ->); try done.
  exists s1. rewrite get_balance_fst. split; [done|].
  intros r s2 Hr. unfold try_except, try_except_else. by rewrite bind_run, Hr.
Qed.

(** The refund of the guard, for an author whose balance was within the
    maximum of the scope before the cost was taken: the deposit returns,
    and the balance is what it was. *)
Lemma wrapped_refund_deposit context amount s s1 s2 bal max_bal :
  (forall n, write_fails n = false) ->
  setting_of max_balance (view s) (discord.guild (commands.author context))
    = Return max_bal ->
  0 <= amount <= bal -> bal <= max_bal ->
  balance_of (view s1) (commands.author context) = Return (bal - amount) ->
  same_scopes (view s) (view s1) ->
  view s2 = view s1 ->
  exists s',
    deposit_credits (commands.author context) amount s2 = (Return bal, s')
    /\ (get_balance (commands.author context) s').1 = Return bal.
Proof.
  intros Hnf Hmax Ha Hle Hb1 Hss1 Hv2.
  destruct (deposit_credits_succeeds (commands.author context) amount s2
              (bal - amount) max_bal) as (s' & Hd); try done.
  - by rewrite Hv2.
  - by rewrite Hv2, (setting_of_same_scopes _ _ _ _ Hss1).
  - lia.
  - lia.
  - replace (amount + (bal - amount)) with bal in Hd by lia.
    exists s'. split; [done|].
    apply deposit_credits_Return in Hd
      as (gr3 & b3 & m3 & _ & _ & _ & _ & _ & Hg3 & Hss3 & Ho3 & Hr3).
    rewrite get_balance_fst, (balance_of_only_account _ _ _ _ _ Hss3 Ho3 Hr3).
    by rewrite decide_True.
Qed.

(** X13. For an author whose balance covers the cost and is within the
    maximum of the scope, a store that accepts every write, a context whose
    guild is the author's, and a coroutine that, run with the cost taken,
    raises an exception other than [AbortPurchase] and leaves what the bank
    observes as it found it: the guard runs the coroutine with the cost
    taken, deposits the cost back in the state the coroutine left, and
    raises that same exception in the state the deposit left; the author's
    balance after the call is the balance before it. *)
Theorem wrapped_error_refunds {A : Type} amount (coro : bank A) context s
    bal max_bal e :
  (forall n, write_fails n = false) ->
  commands.guild context = discord.guild (commands.author context) ->
  (get_balance (commands.author context) s).1 = Return bal ->
  (get_max_balance (discord.guild (commands.author context)) s).1
    = Return max_bal ->
  0 <= amount <= bal -> bal <= max_bal ->
  e <> AbortPurchase ->
  (forall s1,
     (get_balance (commands.author context) s1).1 = Return (bal - amount) ->
     exists s2, coro s1 = (Raise e, s2) /\ view s2 = view s1) ->
  exists s1 s2 s',
    (get_balance (commands.author context) s1).1 = Return (bal - amount)
    /\ coro s1 = (Raise e, s2)
    /\ deposit_credits (commands.author context) amount s2 = (Return bal, s')
    /\ wrapped amount coro (Some context) s = (Raise e, s')
    /\ (get_balance (commands.author context) s').1 = Return bal.
Proof.
  rewrite get_max_balance_fst, get_balance_fst.
  intros Hnf Hctx Hbal Hmax Ha Hle He Hcoro.
  destruct (wrapped_after_withdrawal amount coro context s bal max_bal)
    as (s1 & Hb1 & Hss1 & ->); try done; [lia|].
  destruct (Hcoro s1) as (s2 & Hrun & Hv2); [by rewrite get_balance_fst|].
  destruct (wrapped_refund_deposit context amount s s1 s2 bal max_bal)
    as (s' & Hd & Hb'); try done.
  exists s1, s2, s'. rewrite get_balance_fst. split_and!; try done.
  unfold try_except, try_except_else. rewrite bind_run, Hrun.
  assert (Hr : refund (A := A) context amount e
               = do! deposit_credits (commands.author context) amount in raise e)
    by (by destruct e).
  by rewrite Hr, bind_run, Hd.
Qed.

(** X28. For an author whose balance covers the cost and is within the
    maximum of the scope, a store that accepts every write, a context whose
    guild is the author's, and a coroutine that, run with the cost taken,
    raises [AbortPurchase] and leaves what the bank observes as it found
    it: the guard runs the coroutine with the cost taken, deposits the cost
    back in the state the coroutine left, and returns [None] in the state
    the deposit left, so the abort goes no further; the author's balance
    after the call is the balance before it. *)
Theorem wrapped_abort_refunds {A : Type} amount (coro : bank A) context s
    bal max_bal :
  (forall n, write_fails n = false) ->
  commands.guild context = discord.guild (commands.author context) ->
  (get_balance (commands.author context) s).1 = Return bal ->
  (get_max_balance (discord.guild (commands.author context)) s).1
    = Return max_bal ->
  0 <= amount <= bal -> bal <= max_bal ->
  (forall s1,
     (get_balance (commands.author context) s1).1 = Return (bal - amount) ->
     exists s2, coro s1 = (Raise AbortPurchase, s2) /\ view s2 = view s1) ->
  exists s1 s2 s',
    (get_balance (commands.author context) s1).1 = Return (bal - amount)
    /\ coro s1 = (Raise AbortPurchase, s2)
    /\ deposit_credits (commands.author context) amount s2 = (Return bal, s')
    /\ wrapped amount coro (Some context) s = (Return None, s')
    /\ (get_balance (commands.author context) s').1 = Return bal.
Proof.
  rewrite get_max_balance_fst, get_balance_fst.
  intros Hnf Hctx Hbal Hmax Ha Hle Hcoro.
  destruct (wrapped_after_withdrawal amount coro context s bal max_bal)
    as (s1 & Hb1 & Hss1 & ->); try done; [lia|].
  destruct (Hcoro s1) as (s2 & Hrun & Hv2); [by rewrite get_balance_fst|].
  destruct (wrapped_refund_deposit context amount s s1 s2 bal max_bal)
    as (s' & Hd & Hb'); try done.
  exists s1, s2, s'. rewrite get_balance_fst. split_and!; try done.
  unfold try_except, try_except_else. rewrite bind_run, Hrun.
  unfold refund. by rewrite bind_run, Hd.
Qed.


(** X15. In a private channel (a context without guild) and with a bank per
    guild, the guard raises the user-facing failure that asks for a global
    bank, whatever the cost and the coroutine: nothing is withdrawn and the
    coroutine is not run. *)
Theorem wrapped_in_dm {A : Type} amount (coro : bank A) context s :
  commands.guild context = None ->
  (is_global s).1 = Return false ->
  exists s',
    wrapped amount coro (Some context) s
    = (Raise (UserFeedbackCheckFailure NoGlobalBankInDM), s')
    /\ view s' = view s.
Proof.
  rewrite is_global_fst. intros Hg Hg'.
  assert (Hm : v_mode (view s) = false) by congruence.
  unfold wrapped. rewrite Hg, !bind_run.
  destruct (reads_is_global s) as (s0 & -> & Hv0).
  rewrite Hm. by exists s0.
Qed.

(** ** The settings *)

(** Every way the common part of the setters can end. *)
Lemma set_setting_cases {A : Type} (field_set : A -> Settings -> Settings)
    (cache_set : option A -> SettingsCache -> SettingsCache) (x : A) guild s :
  (forall st ca,
     resolved (field_set x st) (cache_set (Some x) ca)
     = field_set x (resolved st ca)) ->
  match set_setting field_set cache_set x guild s with
  | (Return r, s') =>
      r = x /\ write_fails (writes s) = false
      /\ settings_updated (field_set x) guild (view s) (view s')
  | (Raise RuntimeError, s') =>
      v_mode (view s) = false /\ guild = None /\ view s' = view s
  | (Raise StoreError, s') =>
      write_fails (writes s) = true /\ _config s' = _config s
  | (Raise _, _) => False
  end.
Proof.
  intros Hres. destruct s as [c ig ca w].
  unfold set_setting, bind, is_global, store_write, cache_write, ret, raise,
    settings_updated, view.
  cbn.
  destruct ig as [[]|]; cbn;
    [| |destruct (cfg_is_global c) eqn:Eg; cbn; rewrite ?Eg].
  1,3: (destruct (write_fails w) eqn:Ew; cbn; [done|]; rewrite ?Eg;
        split_and!; try done; exact (Hres (cfg_global c) ca)).
  all: destruct guild as [gd|]; cbn; [|by rewrite ?Eg];
    destruct (write_fails w) eqn:Ew; cbn; [done|]; rewrite ?Eg;
    split_and!; try done; by exists gd.
Qed.

(** The scope written reads the new value; in the global mode every guild
    does. *)
Lemma updated_read {A : Type} (field : Settings -> A) f guild v v' x :
  settings_updated f guild v v' ->
  (forall st, field (f st) = x) ->
  setting_of field v' guild = Return x
  /\ (v_mode v = true -> forall guild', setting_of field v' guild' = Return x).
Proof.
  intros (Hm & _ & _ & _ & Hs) Hf. unfold setting_of. rewrite Hm.
  destruct (v_mode v).
  - destruct Hs as [-> _]. rewrite Hf. split; [done|]. intros _ guild'. done.
  - destruct Hs as [_ (gd & -> & Hg)]. split; [|done].
    unfold guild_settings at 1. rewrite Hg, lookup_insert_eq. simpl.
    by rewrite Hf.
Qed.

(** The fields [f] does not change read as before, in every scope. *)
Lemma updated_other_field {A : Type} (field : Settings -> A) f guild v v' :
  settings_updated f guild v v' ->
  (forall st, field (f st) = field st) ->
  forall guild', setting_of field v' guild' = setting_of field v guild'.
Proof.
  intros (Hm & _ & _ & _ & Hs) Hf guild'. unfold setting_of. rewrite Hm.
  destruct (v_mode v).
  - destruct Hs as [-> _]. by rewrite Hf.
  - destruct Hs as [_ (gd & -> & Hg)]. destruct guild' as [gd'|]; [|done].
    unfold guild_settings at 1. rewrite Hg.
    destruct (decide (discord.guild_id gd = discord.guild_id gd')) as [Heq|Hne].
    + rewrite Heq, lookup_insert_eq. simpl. rewrite Hf.
      unfold guild_settings. by rewrite Heq.
    + by rewrite lookup_insert_ne.
Qed.

(** With a bank per guild, the other guilds read what they read before. *)
Lemma updated_other_guild {A : Type} (field : Settings -> A) f gd v v' gd' :
  settings_updated f (Some gd) v v' ->
  v_mode v = false ->
  discord.guild_id gd' <> discord.guild_id gd ->
  setting_of field v' (Some gd') = setting_of field v (Some gd').
Proof.
  intros (Hm & _ & _ & _ & Hs) Hmode Hne. unfold setting_of.
  rewrite Hm, Hmode. rewrite Hmode in Hs.
  destruct Hs as [_ (gd0 & [= <-] & Hg)].
  unfold guild_settings at 1. rewrite Hg. by rewrite lookup_insert_ne.
Qed.

(** A setter that leaves the default balance alone leaves every balance. *)
Lemma updated_balance_of f guild v v' member :
  settings_updated f guild v v' ->
  (forall st, default_balance (f st) = default_balance st) ->
  balance_of v' member = balance_of v member.
Proof.
  intros Hu Hf. pose proof Hu as (Hm & Husers & Hmem & _).
  unfold balance_of, group_of. rewrite Hm.
  rewrite (updated_other_field default_balance _ _ _ _ Hu Hf).
  destruct (v_mode v); simpl; [by rewrite Husers|].
  destruct (discord.guild member); [|done]. simpl. by rewrite Hmem.
Qed.

Lemma get_currency_name_fst guild s :
  (get_currency_name guild s).1 = setting_of currency (view s) guild.
Proof. by destruct (reads_get_currency_name guild s) as (s1 & -> & _). Qed.

Lemma get_default_balance_fst guild s :
  (get_default_balance guild s).1 = setting_of default_balance (view s) guild.
Proof. by destruct (reads_get_default_balance guild s) as (s1 & -> & _). Qed.

Lemma reads_get_bank_name guild :
  reads (get_bank_name guild) (fun v => setting_of bank_name v guild).
Proof.
  destruct guild;
    (intros [c ig ca ?];
     unfold get_bank_name, bind, is_global, cache_read, cache_write, store_read,
       ret, raise, setting_of, view;
     cbn;
     destruct ig as [[]|]; [| |destruct (cfg_is_global c) eqn:E];
     destruct ca as [[?|] [?|] [?|] [?|]];
     (eexists; split; [reflexivity|]);
     cbn; rewrite ?E; reflexivity).
Qed.

Lemma get_bank_name_fst guild s :
  (get_bank_name guild s).1 = setting_of bank_name (view s) guild.
Proof. by destruct (reads_get_bank_name guild s) as (s1 & -> & _). Qed.

(** X16. [set_max_balance] refuses, in the state it was called in, every
    amount that is not above zero and at most 2^63 - 1. An amount in that
    range, and a write the store accepts, make the call return the amount,
    after which [get_max_balance] for the same guild answers it. The
    accounts are not looked at: every member has the balance they had, even
    one above the new maximum, and the other settings read as before. With a
    bank per guild the other guilds keep their maximum, and a call without
    guild raises [RuntimeError] with nothing written. *)
Theorem set_max_balance_spec amount guild s :
  (~ (0 < amount <= _MAX_BALANCE) ->
   set_max_balance amount guild s
   = (Raise (ValueError MaxBalanceOutOfRange), s))
  /\ (0 < amount <= _MAX_BALANCE ->
      write_fails (writes s) = false ->
      (is_global s).1 = Return true \/ guild <> None ->
      exists s',
        set_max_balance amount guild s = (Return amount, s')
        /\ (get_max_balance guild s').1 = Return amount
        /\ (forall member, (get_balance member s').1 = (get_balance member s).1)
        /\ (forall guild',
              (get_default_balance guild' s').1 = (get_default_balance guild' s).1
              /\ (get_currency_name guild' s').1 = (get_currency_name guild' s).1
              /\ (get_bank_name guild' s').1 = (get_bank_name guild' s).1)
        /\ (forall gd gd',
              (is_global s).1 = Return false -> guild = Some gd ->
              discord.guild_id gd' <> discord.guild_id gd ->
              (get_max_balance (Some gd') s').1
              = (get_max_balance (Some gd') s).1))
  /\ (0 < amount <= _MAX_BALANCE ->
      (is_global s).1 = Return false -> guild = None ->
      exists s',
        set_max_balance amount guild s = (Raise RuntimeError, s')
        /\ view s' = view s).
Proof.
  unfold set_max_balance.
  assert (Hres : forall st ca,
            resolved (max_balance_set amount st) (with_max_balance (Some amount) ca)
            = max_balance_set amount (resolved st ca)) by done.
  pose proof (set_setting_cases max_balance_set with_max_balance amount guild s Hres)
    as Hc.
  rewrite !is_global_fst.
  split_and!.
  - intros Hn. destruct ((0 <? amount) && (amount <=? _MAX_BALANCE)) eqn:E; [|done].
    apply andb_prop in E as [? ?]. lia.
  - intros Hr Hw Hscope.
    destruct ((0 <? amount) && (amount <=? _MAX_BALANCE)) eqn:E.
    2:{ apply andb_false_iff in E as [?|?]; lia. }
    cbn [negb].
    destruct (set_setting max_balance_set with_max_balance amount guild s)
      as [[r|e] s'].
    + destruct Hc as (-> & _ & Hu). exists s'.
      rewrite !get_max_balance_fst.
      split_and!; [done| | | |].
      * by destruct (updated_read max_balance _ _ _ _ amount Hu).
      * intros member. rewrite !get_balance_fst.
        by apply (updated_balance_of _ _ _ _ member Hu).
      * intros guild'.
        rewrite !get_default_balance_fst, !get_currency_name_fst, !get_bank_name_fst.
        split_and!; by apply (updated_other_field _ _ _ _ _ Hu).
      * intros gd gd' Hm -> Hne. rewrite !get_max_balance_fst.
        assert (Hmode : v_mode (view s) = false) by congruence.
        by apply (updated_other_guild _ _ _ _ _ _ Hu).
    + exfalso. destruct e; try done.
      * destruct Hc as (Hm & -> & _). destruct Hscope as [?|?]; congruence.
      * destruct Hc as [? _]. congruence.
  - intros Hr Hm ->.
    destruct ((0 <? amount) && (amount <=? _MAX_BALANCE)) eqn:E.
    2:{ apply andb_false_iff in E as [?|?]; lia. }
    cbn [negb]. clear Hc. unfold set_setting. rewrite bind_run.
    destruct (reads_is_global s) as (s1 & -> & Hv1).
    assert (Hmode : v_mode (view s) = false) by congruence.
    rewrite Hmode. by exists s1.
Qed.

(** X17. [set_default_balance] reads the maximum of the scope and refuses,
    with nothing written, an amount below zero or above that maximum. An
    amount in that range, and a write the store accepts, make the call
    return the amount, after which [get_default_balance] for the same guild
    answers it; a member of that guild with no persisted account then has
    the amount as balance, and for a member with a persisted account
    [get_balance] answers what it answered before. *)
Theorem set_default_balance_spec amount guild s max_bal :
  (get_max_balance guild s).1 = Return max_bal ->
  (~ (0 <= amount <= max_bal) ->
   exists s',
     set_default_balance amount guild s
     = (Raise (ValueError DefaultBalanceOutOfRange), s')
     /\ view s' = view s)
  /\ (0 <= amount <= max_bal ->
      write_fails (writes s) = false ->
      exists s',
        set_default_balance amount guild s = (Return amount, s')
        /\ (get_default_balance guild s').1 = Return amount
        /\ (get_max_balance guild s').1 = Return max_bal
        /\ (forall member gr,
              discord.guild member = guild ->
              group_of (view s) member = Some gr ->
              (get_balance member s').1
              = match dict_get (group_key gr) (namespace gr (_config s)) with
                | Some _ => (get_balance member s).1
                | None => Return amount
                end)).
Proof.
  rewrite get_max_balance_fst. intros Hmax.
  unfold set_default_balance.
  assert (Hres : forall st ca,
            resolved (default_balance_set amount st)
                     (with_default_balance (Some amount) ca)
            = default_balance_set amount (resolved st ca)) by done.
  split.
  - intros Hn. rewrite bind_run.
    destruct (reads_get_max_balance guild s) as (s1 & -> & Hv1). rewrite Hmax.
    destruct ((0 <=? amount) && (amount <=? max_bal)) eqn:E.
    { apply andb_prop in E as [? ?]. lia. }
    by exists s1.
  - intros Hr Hw. rewrite bind_run.
    destruct (reads_get_max_balance guild s) as (s1 & -> & Hv1). rewrite Hmax.
    destruct ((0 <=? amount) && (amount <=? max_bal)) eqn:E.
    2:{ apply andb_false_iff in E as [?|?]; lia. }
    cbn [negb].
    pose proof (set_setting_cases default_balance_set with_default_balance
                  amount guild s1 Hres) as Hc.
    rewrite Hv1 in Hc.
    destruct (set_setting default_balance_set with_default_balance amount guild s1)
      as [[r|e] s'].
    + destruct Hc as (-> & _ & Hu). exists s'.
      rewrite get_default_balance_fst, get_max_balance_fst.
      split_and!; [done| | |].
      * by destruct (updated_read default_balance _ _ _ _ amount Hu).
      * rewrite <- Hmax. by apply (updated_other_field max_balance _ _ _ _ Hu).
      * intros member gr Hg Hgr. rewrite !get_balance_fst.
        pose proof Hu as (Hm & Husers & Hmem & _).
        unfold balance_of, group_of in *. rewrite Hm.
        change (v_config (view s)) with (_config s) in *.
        change (v_config (view s')) with (_config s') in *.
        destruct (v_mode (view s)) eqn:Emode.
        -- injection Hgr as <-. simpl. rewrite Husers.
           destruct (dict_get _ _); [done|].
           rewrite Hg. by destruct (updated_read default_balance _ _ _ _ amount Hu).
        -- destruct (discord.guild member) as [gd|] eqn:Egd; [|done].
           injection Hgr as <-. simpl. rewrite Hmem.
           destruct (dict_get _ _); [done|].
           rewrite Hg. by destruct (updated_read default_balance _ _ _ _ amount Hu).
    + exfalso. destruct e; try done.
      * destruct Hc as (Hm & -> & _). unfold setting_of in Hmax.
        by rewrite Hm in Hmax.
      * destruct Hc as [Hf _].
        assert (writes s1 = writes s) as Hws by apply (f_equal v_writes Hv1).
        congruence.
Qed.

(** X18. [set_bank_name] and [set_currency_name] accept any name: when the
    store accepts the write they return the name, and [get_bank_name],
    respectively [get_currency_name], for the same guild then answers it.
    With a global bank the guild is ignored and every guild reads the new
    name; with a bank per guild the other guilds read what they read before,
    and a call without guild raises [RuntimeError]. Neither setter changes
    what the other getter answers. *)
Theorem set_names_spec name_ guild s :
  write_fails (writes s) = false ->
  ((is_global s).1 = Return true \/ guild <> None ->
   exists s1 s2,
     set_bank_name name_ guild s = (Return name_, s1)
     /\ set_currency_name name_ guild s = (Return name_, s2)
     /\ (get_bank_name guild s1).1 = Return name_
     /\ (get_currency_name guild s2).1 = Return name_
     /\ (forall guild',
           (is_global s).1 = Return true ->
           (get_bank_name guild' s1).1 = Return name_
           /\ (get_currency_name guild' s2).1 = Return name_)
     /\ (forall gd gd',
           (is_global s).1 = Return false -> guild = Some gd ->
           discord.guild_id gd' <> discord.guild_id gd ->
           (get_bank_name (Some gd') s1).1 = (get_bank_name (Some gd') s).1
           /\ (get_currency_name (Some gd') s2).1
              = (get_currency_name (Some gd') s).1)
     /\ (forall guild',
           (get_currency_name guild' s1).1 = (get_currency_name guild' s).1
           /\ (get_bank_name guild' s2).1 = (get_bank_name guild' s).1))
  /\ ((is_global s).1 = Return false -> guild = None ->
      (set_bank_name name_ guild s).1 = Raise RuntimeError
      /\ (set_currency_name name_ guild s).1 = Raise RuntimeError).
Proof.
  intros Hw. rewrite !is_global_fst.
  unfold set_bank_name, set_currency_name.
  assert (Hres1 : forall st ca,
            resolved (bank_name_set name_ st) (with_bank_name (Some name_) ca)
            = bank_name_set name_ (resolved st ca)) by done.
  assert (Hres2 : forall st ca,
            resolved (currency_set name_ st) (with_currency (Some name_) ca)
            = currency_set name_ (resolved st ca)) by done.
  pose proof (set_setting_cases bank_name_set with_bank_name name_ guild s Hres1)
    as Hc1.
  pose proof (set_setting_cases currency_set with_currency name_ guild s Hres2)
    as Hc2.
  split.
  - intros Hscope.
    destruct (set_setting bank_name_set with_bank_name name_ guild s)
      as [[r1|e1] s1].
    2:{ exfalso. destruct e1; try done.
        - destruct Hc1 as (Hm & -> & _). destruct Hscope as [?|?]; congruence.
        - destruct Hc1 as [? _]. congruence. }
    destruct (set_setting currency_set with_currency name_ guild s)
      as [[r2|e2] s2].
    2:{ exfalso. destruct e2; try done.
        - destruct Hc2 as (Hm & -> & _). destruct Hscope as [?|?]; congruence.
        - destruct Hc2 as [? _]. congruence. }
    destruct Hc1 as (-> & _ & Hu1). destruct Hc2 as (-> & _ & Hu2).
    exists s1, s2.
    rewrite !get_bank_name_fst, !get_currency_name_fst.
    split_and!; [done | done | | | | |].
    + by destruct (updated_read bank_name _ _ _ _ name_ Hu1).
    + by destruct (updated_read currency _ _ _ _ name_ Hu2).
    + intros guild' Hm. rewrite !get_bank_name_fst, !get_currency_name_fst.
      assert (Hmode : v_mode (view s) = true) by congruence.
      split.
      * destruct (updated_read bank_name _ _ _ _ name_ Hu1) as [_ H]; [done|].
        by apply H.
      * destruct (updated_read currency _ _ _ _ name_ Hu2) as [_ H]; [done|].
        by apply H.
    + intros gd gd' Hm -> Hne.
      rewrite !get_bank_name_fst, !get_currency_name_fst.
      assert (Hmode : v_mode (view s) = false) by congruence.
      split.
      * by apply (updated_other_guild _ _ _ _ _ _ Hu1).
      * by apply (updated_other_guild _ _ _ _ _ _ Hu2).
    + intros guild'. rewrite !get_bank_name_fst, !get_currency_name_fst.
      split.
      * by apply (updated_other_field _ _ _ _ _ Hu1).
      * by apply (updated_other_field _ _ _ _ _ Hu2).
  - intros Hm ->. clear Hc1 Hc2.
    assert (Hmode : v_mode (view s) = false) by congruence.
    unfold set_setting. rewrite !bind_run.
    destruct (reads_is_global s) as (s1 & -> & Hv1).
    by rewrite Hmode.
Qed.

(** ** The leaderboard *)

Lemma Return_inj {A : Type} (x y : A) : Return x = Return y -> x = y.
Proof. congruence. Qed.

Lemma reads_get_leaderboard positions guild :
  reads (get_leaderboard positions guild) (leaderboard_of positions guild).
Proof.
  intros s. unfold get_leaderboard, leaderboard_of. rewrite bind_run.
  destruct (reads_is_global s) as (s1 & -> & Hv1).
  change (v_config (view s)) with (_config s).
  assert (Hc : _config s1 = _config s) by apply (f_equal v_config Hv1).
  exists s1. split; [|done].
  destruct (v_mode (view s)).
  - unfold bind, store_read, ret, all_users. rewrite Hc. by destruct guild.
  - destruct guild as [gd|]; [|done].
    unfold bind, store_read, ret. by rewrite Hc.
Qed.

Lemma get_leaderboard_fst positions guild s :
  (get_leaderboard positions guild s).1 = leaderboard_of positions guild (view s).
Proof. by destruct (reads_get_leaderboard positions guild s) as (s1 & -> & _). Qed.

(** What [discord.utils.find] finds in an enumerated board. *)
Lemma utils_find_enumerate (k : Z) (board : accounts) (start : Z) :
  match utils_find (fun x : Z * (Z * Account) => bool_decide (x.2.1 = k))
                   (enumerate start board) with
  | Some pos =>
      exists i acc,
        pos.1 = start + Z.of_nat i
        /\ board !! i = Some (k, acc)
        /\ forall j kv, (j < i)%nat -> board !! j = Some kv -> kv.1 <> k
  | None => forall acc, (k, acc) ∉ board
  end.
Proof.
  revert start. induction board as [|[k' a] board IH]; intros start; simpl.
  - intros acc. apply not_elem_of_nil.
  - case_bool_decide as Hk; simpl in Hk.
    + subst k'. exists 0%nat, a. simpl. split_and!; [lia | done |].
      intros j kv Hj. lia.
    + specialize (IH (start + 1)).
      destruct (utils_find _ (enumerate (start + 1) board)) as [pos|].
      * destruct IH as (i & acc & Hp & Hi & Hfirst).
        exists (S i), acc. split_and!; [lia | done |].
        intros [|j] kv Hj; simpl.
        -- by intros [= <-].
        -- apply Hfirst. lia.
      * intros acc [[= ? ?]|Hin]%elem_of_cons; [done|]. by apply (IH acc).
Qed.

(** X19. [get_leaderboard_position] answers the place, counted from 1, of
    the member's account on the whole leaderboard of the member's scope,
    and [None] when the member has no persisted account there. With a
    global bank that board is the one of all users, whatever the member's
    guild; with a bank per guild it is the board of the member's guild, and
    a user without guild makes the call raise [TypeError]. The call never
    writes. *)
Theorem get_leaderboard_position_spec member s :
  view (get_leaderboard_position member s).2 = view s
  /\ ((is_global s).1 = Return false -> discord.guild member = None ->
      (get_leaderboard_position member s).1 = Raise TypeError)
  /\ (forall g board,
        (is_global s).1 = Return g ->
        (get_leaderboard None (if g then None else discord.guild member) s).1
        = Return board ->
        exists pos,
          (get_leaderboard_position member s).1 = Return pos
          /\ position_in board (discord.id member) pos).
Proof.
  unfold get_leaderboard_position. rewrite bind_run, is_global_fst.
  destruct (reads_is_global s) as (s1 & -> & Hv1).
  rewrite bind_run. unfold try_except, try_except_else.
  set (guild := if v_mode (view s) then None else discord.guild member).
  destruct (reads_get_leaderboard None guild s1) as (s2 & -> & Hv2).
  rewrite Hv1 in *.
  split_and!.
  - by destruct (leaderboard_of None guild (view s)).
  - intros Hm Hg.
    assert (Hmode : v_mode (view s) = false) by congruence.
    subst guild. unfold leaderboard_of. by rewrite Hmode, Hg.
  - intros g board Hg.
    assert (Hmode : v_mode (view s) = g) by congruence.
    rewrite <- Hmode. fold guild. rewrite get_leaderboard_fst.
    intros ->. unfold ret at 1. cbv beta iota.
    pose proof (utils_find_enumerate (discord.id member) board 1) as Hf.
    destruct (utils_find _ (enumerate 1 board)) as [pos|].
    + exists (Some pos.1). split; [done|].
      destruct Hf as (i & acc & Hp & Hi & Hfirst). by exists i, acc.
    + by exists None.
Qed.

(** X20. [get_leaderboard] never writes. A limit that is at least the
    number of ranked accounts gives the whole board, and a negative limit
    does not raise: [-k] gives the board without its last [k] entries, the
    accounts of lowest balance. *)
Theorem get_leaderboard_limits positions guild s :
  view (get_leaderboard positions guild s).2 = view s
  /\ (forall full p,
        (get_leaderboard None guild s).1 = Return full ->
        positions = Some p ->
        exists board,
          (get_leaderboard positions guild s).1 = Return board
          /\ (Z.of_nat (length full) <= p -> board = full)
          /\ (p < 0 ->
              board = take (length full - Z.to_nat (- p)) full)).
Proof.
  split.
  - by destruct (reads_get_leaderboard positions guild s) as (s1 & -> & Hv1).
  - intros full p. rewrite !get_leaderboard_fst. intros Hfull ->.
    unfold leaderboard_of in *.
    assert (Hcut : forall raw,
              sorted_reverse (fun x : Z * Account => balance x.2) raw = full ->
              slice_to p (sorted_reverse (fun x : Z * Account => balance x.2) raw)
              = slice_to p full) by (by intros raw ->).
    assert (Hslice : (Z.of_nat (length full) <= p -> slice_to p full = full)
                     /\ (p < 0 -> slice_to p full
                                  = take (length full - Z.to_nat (- p)) full)).
    { unfold slice_to. split.
      - intros Hp. destruct (p <? 0) eqn:E; [lia|].
        apply take_ge. lia.
      - intros Hp. destruct (p <? 0) eqn:E; [|lia].
        f_equal. lia. }
    destruct (v_mode (view s)).
    + apply Return_inj in Hfull. eexists. split; [reflexivity|].
      by rewrite (Hcut _ Hfull).
    + destruct guild as [gd|]; [|done].
      apply Return_inj in Hfull. eexists. split; [reflexivity|].
      by rewrite (Hcut _ Hfull).
Qed.

(** ** Wiping and deleting accounts *)

(** A write that leaves mode and global settings alone. *)
Lemma view_with_config c' s :
  cfg_is_global c' = cfg_is_global (_config s) ->
  cfg_global c' = cfg_global (_config s) ->
  view (count_write (with_config c' s))
  = {| v_config := c'; v_writes := S (v_writes (view s));
       v_mode := v_mode (view s); v_settings := v_settings (view s) |}.
Proof. unfold view. simpl. by intros -> ->. Qed.

Lemma dict_get_del_eq k (d : accounts) : dict_get k (dict_del k d) = None.
Proof.
  unfold dict_del. induction d as [|[k' v] d IH]; [done|].
  rewrite filter_cons. simpl. destruct (decide (k' <> k)) as [Hne|Heq]; [|done].
  simpl. by rewrite decide_False.
Qed.

Lemma dict_get_del_ne k k' (d : accounts) :
  k <> k' -> dict_get k' (dict_del k d) = dict_get k' d.
Proof.
  intros Hne. unfold dict_del. induction d as [|[k0 v] d IH]; [done|].
  rewrite filter_cons. simpl. destruct (decide (k0 <> k)) as [H0|H0]; simpl.
  - by rewrite IH.
  - rewrite IH. destruct (decide (k0 = k')); [|done]. exfalso. apply H0. congruence.
Qed.

Lemma dict_del_absent k (d : accounts) : dict_get k d = None -> dict_del k d = d.
Proof.
  unfold dict_del. induction d as [|[k' v] d IH]; [done|]. simpl.
  destruct (decide (k' = k)) as [->|Hne]; [done|].
  intros H. rewrite filter_cons_True by done. f_equal. by apply IH.
Qed.

(** The balance of a member whose account is not persisted. *)
Lemma balance_of_absent v member gr :
  group_of v member = Some gr ->
  dict_get (group_key gr) (namespace gr (v_config v)) = None ->
  balance_of v member = setting_of default_balance v (discord.guild member).
Proof. intros Hgr Hn. unfold balance_of. by rewrite Hgr, Hn. Qed.

(** X21. [wipe_bank] asks the store for one write. When the store refuses
    it nothing is deleted. Otherwise a global bank loses every user account
    and keeps the accounts of the guilds, whatever guild was given; a bank
    per guild loses the accounts of the guild given, or of every guild when
    none was given, and keeps the others. Mode and settings are untouched,
    so every member of a wiped scope reads the default balance of the scope
    again. *)
Theorem wipe_bank_spec guild s :
  (write_fails (writes s) = true ->
   (wipe_bank guild s).1 = Raise StoreError
   /\ _config (wipe_bank guild s).2 = _config s)
  /\ (write_fails (writes s) = false ->
      exists s',
        wipe_bank guild s = (Return tt, s')
        /\ same_scopes (view s) (view s')
        /\ ((is_global s).1 = Return true ->
            cfg_users (_config s') = []
            /\ cfg_members (_config s') = cfg_members (_config s))
        /\ ((is_global s).1 = Return false ->
            cfg_users (_config s') = cfg_users (_config s)
            /\ cfg_members (_config s')
               = match guild with
                 | None => ∅
                 | Some gd =>
                     delete (discord.guild_id gd) (cfg_members (_config s))
                 end)
        /\ (forall member bal,
              (get_balance member s).1 = Return bal ->
              (is_global s).1 = Return true \/ guild = None
              \/ discord.guild member = guild ->
              (get_balance member s').1
              = (get_default_balance (discord.guild member) s).1)).
Proof.
  unfold wipe_bank. rewrite !bind_run, !is_global_fst.
  destruct (reads_is_global s) as (s1 & -> & Hv1).
  assert (Hc1 : _config s1 = _config s) by apply (f_equal v_config Hv1).
  assert (Hw1 : writes s1 = writes s) by apply (f_equal v_writes Hv1).
  split.
  - intros Hf.
    destruct (v_mode (view s)); [|destruct guild];
      unfold clear_all_users, clear_all_members, store_write;
      rewrite Hw1, Hf; by split.
  - intros Hf.
    set (upd := fun c =>
           if v_mode (view s) then with_users [] c
           else match guild with
                | None => with_members ∅ c
                | Some gd =>
                    with_members (delete (discord.guild_id gd) (cfg_members c)) c
                end).
    exists (count_write (with_config (upd (_config s1)) s1)).
    assert (Hview : view (count_write (with_config (upd (_config s1)) s1))
            = {| v_config := upd (_config s);
                 v_writes := S (v_writes (view s));
                 v_mode := v_mode (view s);
                 v_settings := v_settings (view s) |}).
    { rewrite view_with_config, Hv1, Hc1; [done| |];
        subst upd; cbv beta; destruct (v_mode (view s)); try done;
        by destruct guild. }
    assert (Hss : same_scopes (view s)
              (view (count_write (with_config (upd (_config s1)) s1)))).
    { rewrite Hview. split_and!; simpl; [done | done |].
      subst upd. cbv beta. destruct (v_mode (view s)); [done|]. by destruct guild. }
    split_and!.
    + subst upd. cbv beta.
      destruct (v_mode (view s)); [|destruct guild];
        unfold clear_all_users, clear_all_members, store_write;
        by rewrite Hw1, Hf.
    + done.
    + intros Hm. assert (Hmode : v_mode (view s) = true) by congruence.
      subst upd. cbn. rewrite Hmode, Hc1. by split.
    + intros Hm. assert (Hmode : v_mode (view s) = false) by congruence.
      subst upd. cbn. rewrite Hmode, Hc1. by destruct guild.
    + intros member bal. rewrite !get_balance_fst, get_default_balance_fst.
      intros Hbal Hscope.
      assert (Hgr : exists gr, group_of (view s) member = Some gr).
      { unfold balance_of in Hbal.
        destruct (group_of (view s) member); [by eexists | done]. }
      destruct Hgr as (gr & Hgr).
      rewrite (balance_of_absent _ _ gr).
      * by apply setting_of_same_scopes.
      * by rewrite (group_of_same_scopes _ _ _ Hss).
      * rewrite Hview. cbn [v_config]. subst upd. cbv beta.
        unfold group_of in Hgr.
        destruct (v_mode (view s)) eqn:Emode.
        { injection Hgr as <-. done. }
        destruct Hscope as [Hg|[->|<-]]; [congruence| |].
        -- destruct (discord.guild member); [|done]. injection Hgr as <-.
           simpl. by rewrite lookup_empty.
        -- destruct (discord.guild member) as [gd|]; [|done]. injection Hgr as <-.
           simpl. by rewrite lookup_delete_eq.
Qed.

(** The loop of [_process_data_deletion] over the guilds read at its
    start. *)
Lemma deletion_loop user_id (all_members : list (Z * accounts)) s :
  (forall n, write_fails n = false) ->
  NoDup all_members.*1 ->
  (forall gid d, (gid, d) ∈ all_members -> cfg_members (_config s) !! gid = Some d) ->
  exists s' m',
    for_each all_members
      (fun '(guild_id, member_dict) =>
         if bool_decide (is_Some (dict_get user_id member_dict)) then
           store_write (group_clear (member_group guild_id user_id))
         else ret tt) s
    = (Return tt, s')
    /\ _cache s' = _cache s /\ _cache_is_global s' = _cache_is_global s
    /\ _config s' = with_members m' (_config s)
    /\ forall gid,
         m' !! gid
         = if decide (gid ∈ all_members.*1)
           then dict_del user_id <$> cfg_members (_config s) !! gid
           else cfg_members (_config s) !! gid.
Proof.
  intros Hnf. revert s.
  induction all_members as [|[gid d] L IH]; intros s Hnd Hin.
  - exists s, (cfg_members (_config s)). simpl. split_and!; try done.
    by destruct (_config s).
  - apply NoDup_cons in Hnd as [Hgid HndL]. simpl in Hgid.
    assert (Hd : cfg_members (_config s) !! gid = Some d) by (apply Hin; left).
    cbn [for_each]. rewrite bind_run.
    case_bool_decide as Hpresent.
    + unfold store_write at 1. rewrite Hnf.
      set (s1 := count_write _).
      assert (Hc1 : _config s1
                    = with_members (<[gid := dict_del user_id d]>
                                      (cfg_members (_config s))) (_config s)).
      { subst s1. simpl. by rewrite Hd. }
      destruct (IH s1 HndL) as (s' & m' & -> & Hca & Hcg & Hc & Hm').
      { intros g' d' Hg'. rewrite Hc1. simpl.
        rewrite lookup_insert_ne; [apply Hin; by right|].
        intros <-. apply Hgid. by apply (list_elem_of_fmap_2 fst _ (gid, d')). }
      exists s', m'. split_and!; try done.
      * by rewrite Hc, Hc1.
      * intros g. rewrite Hm', Hc1. simpl.
        destruct (decide (g = gid)) as [->|Hne].
        -- rewrite decide_False by done. rewrite decide_True by left.
           by rewrite lookup_insert_eq, Hd.
        -- rewrite lookup_insert_ne by done.
           destruct (decide (g ∈ L.*1)) as [Hl|Hl].
           ++ rewrite decide_True; [done | by right].
           ++ rewrite decide_False; [done|]. by intros [?|?]%elem_of_cons.
    + unfold ret at 1. cbv beta iota.
      destruct (IH s HndL) as (s' & m' & -> & Hca & Hcg & Hc & Hm').
      { intros g' d' Hg'. apply Hin. by right. }
      exists s', m'. split_and!; try done.
      intros g. rewrite Hm'.
      destruct (decide (g = gid)) as [->|Hne].
      * rewrite decide_False by done. rewrite decide_True by left.
        rewrite Hd. simpl. f_equal. symmetry. apply dict_del_absent.
        destruct (dict_get user_id d) eqn:E; [|done].
        exfalso. apply Hpresent. by eexists.
      * destruct (decide (g ∈ L.*1)) as [Hl|Hl].
        -- rewrite decide_True; [done | by right].
        -- rewrite decide_False; [done|]. by intros [?|?]%elem_of_cons.
Qed.

(** X22. With a store that accepts every write, [_process_data_deletion]
    returns after removing the record of the user from the global namespace
    and from the namespace of every guild, whatever the mode of the bank;
    no other record, and no setting, is changed. The user then reads the
    default balance wherever they had a balance, and every other member
    reads the balance they had. *)
Theorem process_data_deletion_spec user_id s :
  (forall n, write_fails n = false) ->
  exists s',
    _process_data_deletion user_id s = (Return tt, s')
    /\ cfg_users (_config s') = dict_del user_id (cfg_users (_config s))
    /\ cfg_members (_config s') = dict_del user_id <$> cfg_members (_config s)
    /\ same_scopes (view s) (view s')
    /\ (forall member bal,
          discord.id member = user_id ->
          (get_balance member s).1 = Return bal ->
          (get_balance member s').1
          = (get_default_balance (discord.guild member) s).1)
    /\ (forall member,
          discord.id member <> user_id ->
          (get_balance member s').1 = (get_balance member s).1).
Proof.
  intros Hnf. unfold _process_data_deletion.
  rewrite bind_run. unfold store_write at 1. rewrite Hnf.
  set (s1 := count_write _).
  rewrite bind_run. unfold store_read at 1.
  destruct (deletion_loop user_id (map_to_list (cfg_members (_config s1))) s1 Hnf)
    as (s' & m' & Hrun & Hca & Hcg & Hc & Hm').
  { apply NoDup_fst_map_to_list. }
  { intros gid d. apply elem_of_map_to_list. }
  rewrite Hrun. exists s'.
  assert (Hm : m' = dict_del user_id <$> cfg_members (_config s)).
  { apply map_eq. intros gid. rewrite Hm', lookup_fmap.
    change (cfg_members (_config s1)) with (cfg_members (_config s)).
    destruct (decide (gid ∈ (map_to_list (cfg_members (_config s))).*1))
      as [Hl|Hl]; [done|].
    destruct (cfg_members (_config s) !! gid) as [d|] eqn:E; [|done].
    exfalso. apply Hl.
    apply (list_elem_of_fmap_2 fst _ (gid, d)). by apply elem_of_map_to_list. }
  subst m'.
  assert (Husers : cfg_users (_config s') = dict_del user_id (cfg_users (_config s)))
    by (by rewrite Hc).
  assert (Hmembers : cfg_members (_config s')
                     = dict_del user_id <$> cfg_members (_config s))
    by (by rewrite Hc).
  assert (Hss : same_scopes (view s) (view s')).
  { unfold same_scopes, view. cbn. rewrite Hc, Hca, Hcg. by split_and!. }
  assert (Hns : forall gr,
            namespace gr (_config s') = dict_del user_id (namespace gr (_config s))).
  { intros [uid|gid mid]; simpl; [done|].
    rewrite Hmembers, lookup_fmap.
    by destruct (cfg_members (_config s) !! gid). }
  split_and!; try done.
  - intros member bal Hid. rewrite !get_balance_fst, get_default_balance_fst.
    intros Hbal.
    assert (Hgr : exists gr, group_of (view s) member = Some gr).
    { unfold balance_of in Hbal.
      destruct (group_of (view s) member); [by eexists | done]. }
    destruct Hgr as (gr & Hgr).
    rewrite (balance_of_absent _ _ gr).
    + by apply setting_of_same_scopes.
    + by rewrite (group_of_same_scopes _ _ _ Hss).
    + change (v_config (view s')) with (_config s'). rewrite Hns.
      assert (group_key gr = user_id) as ->; [|apply dict_get_del_eq].
      unfold group_of in Hgr. destruct (v_mode (view s)); [by injection Hgr as <-|].
      destruct (discord.guild member); [by injection Hgr as <-|done].
  - intros member Hid. rewrite !get_balance_fst. unfold balance_of.
    rewrite (group_of_same_scopes _ _ _ Hss).
    destruct (group_of (view s) member) as [gr|] eqn:Hgr; [|done].
    change (v_config (view s')) with (_config s').
    change (v_config (view s)) with (_config s).
    rewrite Hns, dict_get_del_ne.
    + by rewrite (setting_of_same_scopes _ _ _ _ Hss).
    + unfold group_of in Hgr. destruct (v_mode (view s)).
      * injection Hgr as <-. simpl. congruence.
      * destruct (discord.guild member); [|done]. injection Hgr as <-.
        simpl. congruence.
Qed.

(** ** Pruning *)

(** A deletion loop over a copy keeps exactly the accounts it is told to
    keep. *)
Lemma del_loop_filter (keep : Z -> bool) (tmp d : accounts) :
  foldl (fun d kv => if keep kv.1 then d else dict_del kv.1 d) d tmp
  = filter (fun kv => keep kv.1 \/ kv.1 ∉ tmp.*1) d.
Proof.
  revert d. induction tmp as [|t tmp IH]; intros d; simpl.
  - symmetry. apply filter_all. intros x _. right. apply not_elem_of_nil.
  - rewrite IH. destruct (keep t.1) eqn:Et.
    + apply list_filter_iff. intros kv. rewrite not_elem_of_cons.
      split; [|tauto]. intros [?|?]; [by left|].
      destruct (decide (kv.1 = t.1)) as [Heq|?]; [|tauto].
      left. by rewrite Heq, Et.
    + unfold dict_del. rewrite list_filter_filter.
      apply list_filter_iff. intros kv. rewrite not_elem_of_cons.
      split; [intros [[Hm|?] Hne]; tauto|].
      intros [Hm|[? ?]]; [|tauto]. split; [by left|].
      intros Heq. rewrite Heq, Et in Hm. done.
Qed.

Lemma prune_loop_filter (user_list : list Z) (d : accounts) :
  prune_loop user_list d d = filter (fun kv => kv.1 ∈ user_list) d.
Proof.
  unfold prune_loop.
  pose proof (del_loop_filter (fun k => bool_decide (k ∈ user_list)) d d) as H.
  cbv beta in H. rewrite H. clear H.
  apply filter_iff_elem. intros kv Hkv. rewrite bool_decide_spec.
  split; [|tauto]. intros [?|Hn]; [done|].
  exfalso. apply Hn. by apply list_elem_of_fmap_2.
Qed.

(** What the context manager around a base group leaves. *)
Lemma group_all_ctx_spec gr body s :
  write_fails (writes s) = false ->
  exists s',
    group_all_ctx gr body s = (Return tt, s')
    /\ base_group_all gr (_config s') = body (base_group_all gr (_config s))
    /\ match gr with
       | USER_group => cfg_members (_config s') = cfg_members (_config s)
       | MEMBER_group gid =>
           cfg_users (_config s') = cfg_users (_config s)
           /\ forall gid', gid' <> gid ->
                cfg_members (_config s') !! gid' = cfg_members (_config s) !! gid'
       end
    /\ same_scopes (view s) (view s')
    /\ (body (base_group_all gr (_config s)) = base_group_all gr (_config s) ->
        s' = s).
Proof.
  intros Hw. unfold group_all_ctx. rewrite bind_run. unfold store_read at 1.
  case_bool_decide as Hsame.
  - exists s. split_and!; try done. by destruct gr.
  - unfold store_write. rewrite Hw.
    eexists. split; [reflexivity|].
    rewrite view_with_config by (by destruct gr).
    cbn [_config count_write with_config].
    split_and!.
    + destruct gr as [|gid]; simpl; [done|]. by rewrite lookup_insert_eq.
    + destruct gr as [|gid]; simpl; [done|]. split; [done|].
      intros gid' Hne. by rewrite lookup_insert_ne.
    + split_and!; simpl; [done | done | by destruct gr].
    + done.
Qed.

Lemma guild_in_filter (P : cached_guild -> bool) guilds (g : cached_guild) :
  NoDup ((fun x : cached_guild => discord.guild_id x.1) <$> guilds) ->
  g ∈ guilds ->
  guild_in g.1 (filter (fun x => P x) guilds) = P g.
Proof.
  intros Hnd Hg. unfold guild_in.
  destruct (P g) eqn:EP.
  - apply bool_decide_eq_true.
    apply (list_elem_of_fmap_2 (fun x : cached_guild => discord.guild_id x.1) _ g).
    apply list_elem_of_filter. split; [by rewrite EP | done].
  - apply bool_decide_eq_false.
    intros (g' & Hid & [HP Hg']%list_elem_of_filter)%list_elem_of_fmap.
    assert (g' = g) as ->; [|by rewrite EP in HP].
    clear HP EP. induction guilds as [|x guilds IH]; [by apply elem_of_nil in Hg|].
    rewrite fmap_cons in Hnd. apply NoDup_cons in Hnd as [Hx Hnd].
    apply elem_of_cons in Hg as [->|Hg]; apply elem_of_cons in Hg' as [->|Hg'].
    + done.
    + exfalso. apply Hx. rewrite Hid.
      by apply (list_elem_of_fmap_2 (fun x : cached_guild => discord.guild_id x.1)).
    + exfalso. apply Hx. rewrite <- Hid.
      by apply (list_elem_of_fmap_2 (fun x : cached_guild => discord.guild_id x.1)).
    + by apply IH.
Qed.

(** X23. [bank_prune] with a user id removes the record of that id from one
    namespace, without looking at the guilds of the bot: the global
    namespace with a global bank (the guild given is ignored), the
    namespace of the guild given with a bank per guild. Every other record,
    and every setting, stays; when the id has no record there the state is
    left as it was. With a bank per guild and no guild the call raises
    [BankPruneError] and nothing is written. *)
Theorem bank_prune_identity bot_guilds guild user_id s :
  ((is_global s).1 = Return false -> guild = None ->
   exists s',
     bank_prune bot_guilds guild (Some user_id) s = (Raise BankPruneError, s')
     /\ view s' = view s)
  /\ (write_fails (writes s) = false ->
      (is_global s).1 = Return true ->
      exists s',
        bank_prune bot_guilds guild (Some user_id) s = (Return tt, s')
        /\ cfg_users (_config s') = dict_del user_id (cfg_users (_config s))
        /\ cfg_members (_config s') = cfg_members (_config s)
        /\ same_scopes (view s) (view s')
        /\ (dict_get user_id (cfg_users (_config s)) = None -> view s' = view s))
  /\ (forall g,
        write_fails (writes s) = false ->
        (is_global s).1 = Return false -> guild = Some g ->
        exists s',
          bank_prune bot_guilds guild (Some user_id) s = (Return tt, s')
          /\ all_members g.1 (_config s')
             = dict_del user_id (all_members g.1 (_config s))
          /\ cfg_users (_config s') = cfg_users (_config s)
          /\ (forall gid, gid <> discord.guild_id g.1 ->
                cfg_members (_config s') !! gid = cfg_members (_config s) !! gid)
          /\ same_scopes (view s) (view s')
          /\ (dict_get user_id (all_members g.1 (_config s)) = None ->
              view s' = view s)).
Proof.
  rewrite !is_global_fst. unfold bank_prune. rewrite bind_run.
  destruct (reads_is_global s) as (s1 & -> & Hv1).
  assert (Hc1 : _config s1 = _config s) by apply (f_equal v_config Hv1).
  assert (Hw1 : writes s1 = writes s) by apply (f_equal v_writes Hv1).
  assert (Hbody : forall d : accounts,
            (if bool_decide (is_Some (dict_get user_id d))
             then dict_del user_id d else d) = dict_del user_id d).
  { intros d. case_bool_decide as Hp; [done|]. symmetry. apply dict_del_absent.
    destruct (dict_get user_id d); [|done]. exfalso. apply Hp. by eexists. }
  split_and!.
  - intros Hm ->. assert (Hmode : v_mode (view s) = false) by congruence.
    rewrite Hmode. by exists s1.
  - intros Hw Hm. assert (Hmode : v_mode (view s) = true) by congruence.
    rewrite Hmode. unfold ret at 1. rewrite bind_run. cbv beta iota.
    destruct (group_all_ctx_spec USER_group
                (fun bank_data =>
                   if bool_decide (is_Some (dict_get user_id bank_data))
                   then dict_del user_id bank_data else bank_data) s1)
      as (s' & -> & Hthis & Hothers & Hss & Hsame); [congruence|].
    exists s'. rewrite Hbody in Hthis, Hsame. simpl in Hthis, Hsame.
    rewrite Hc1 in Hthis, Hsame, Hothers. rewrite Hv1 in Hss.
    split_and!; try done.
    intros Hn. rewrite Hsame; [done|]. by apply dict_del_absent.
  - intros g Hw Hm ->. assert (Hmode : v_mode (view s) = false) by congruence.
    rewrite Hmode. unfold ret at 1. rewrite bind_run. cbv beta iota.
    destruct (group_all_ctx_spec (MEMBER_group (discord.guild_id g.1))
                (fun bank_data =>
                   if bool_decide (is_Some (dict_get user_id bank_data))
                   then dict_del user_id bank_data else bank_data) s1)
      as (s' & -> & Hthis & [Husers Hothers] & Hss & Hsame); [congruence|].
    exists s'. rewrite Hbody in Hthis, Hsame. simpl in Hthis, Hsame.
    rewrite Hc1 in Hthis, Hsame, Hothers, Husers. rewrite Hv1 in Hss.
    split_and!; try done.
    intros Hn. rewrite Hsame; [done|]. by apply dict_del_absent.
Qed.

(** X24. With a bank per guild, [bank_prune] without user id keeps, in the
    namespace of the guild given, the accounts of the ids the guild lists
    as members (after chunking, when the guild is large) and removes the
    others; the global namespace, the other guilds and the settings stay.
    When the guild is unavailable no id counts as a member, and every
    account of the guild is removed. *)
Theorem bank_prune_local bot_guilds (g : discord.Guild * GuildStatus) s :
  write_fails (writes s) = false ->
  (is_global s).1 = Return false ->
  exists s',
    bank_prune bot_guilds (Some g) None s = (Return tt, s')
    /\ all_members g.1 (_config s')
       = filter (fun kv => kv.1 ∈ reachable_in g) (all_members g.1 (_config s))
    /\ (unavailable g.2 = true -> all_members g.1 (_config s') = [])
    /\ cfg_users (_config s') = cfg_users (_config s)
    /\ (forall gid, gid <> discord.guild_id g.1 ->
          cfg_members (_config s') !! gid = cfg_members (_config s) !! gid)
    /\ same_scopes (view s) (view s').
Proof.
  rewrite is_global_fst. intros Hw Hm.
  assert (Hmode : v_mode (view s) = false) by congruence.
  unfold bank_prune. rewrite bind_run.
  destruct (reads_is_global s) as (s1 & -> & Hv1).
  assert (Hc1 : _config s1 = _config s) by apply (f_equal v_config Hv1).
  assert (Hw1 : writes s1 = writes s) by apply (f_equal v_writes Hv1).
  rewrite Hmode. unfold ret at 1. rewrite bind_run. cbv beta iota.
  rewrite bind_run. unfold store_read at 1.
  set (user_list := user_list_of _ _ [g]).
  assert (Hul : user_list = reachable_in g).
  { subst user_list. unfold user_list_of, members_of, reachable_in, guild_in.
    destruct g as [gd [u l c]]. simpl.
    destruct u, l; simpl; rewrite ?app_nil_r; try done.
    all: by rewrite bool_decide_true by left. }
  destruct (group_all_ctx_spec (MEMBER_group (discord.guild_id g.1))
              (prune_loop user_list
                 (base_group_all (MEMBER_group (discord.guild_id g.1)) (_config s1)))
              s1)
    as (s' & -> & Hthis & [Husers Hothers] & Hss & Hsame); [congruence|].
  exists s'. rewrite prune_loop_filter, Hul in Hthis. simpl in Hthis.
  rewrite Hc1 in Hthis, Hothers, Husers. rewrite Hv1 in Hss.
  split_and!; try done.
  intros Hu. unfold all_members. rewrite Hthis.
  unfold reachable_in. rewrite Hu.
  clear. generalize (default [] (cfg_members (_config s) !! discord.guild_id g.1)).
  intros d. induction d as [|kv d IH]; [done|].
  by rewrite filter_cons_False by apply not_elem_of_nil.
Qed.

(** X25. With a global bank, [bank_prune] without user id keeps the user
    accounts of the ids that some guild of the bot, not unavailable, lists
    as member (after chunking, for the large guilds not yet chunked) and
    removes the others, whatever guild was given; the accounts of the
    guilds and the settings stay. The guilds of the bot have distinct
    ids. *)
Theorem bank_prune_global bot_guilds guild s :
  NoDup ((fun x : discord.Guild * GuildStatus => discord.guild_id x.1)
           <$> bot_guilds) ->
  write_fails (writes s) = false ->
  (is_global s).1 = Return true ->
  exists s',
    bank_prune bot_guilds guild None s = (Return tt, s')
    /\ cfg_users (_config s')
       = filter (fun kv => kv.1 ∈ reachable bot_guilds) (cfg_users (_config s))
    /\ cfg_members (_config s') = cfg_members (_config s)
    /\ same_scopes (view s) (view s').
Proof.
  rewrite is_global_fst. intros Hnd Hw Hm.
  assert (Hmode : v_mode (view s) = true) by congruence.
  unfold bank_prune. rewrite bind_run.
  destruct (reads_is_global s) as (s1 & -> & Hv1).
  assert (Hc1 : _config s1 = _config s) by apply (f_equal v_config Hv1).
  assert (Hw1 : writes s1 = writes s) by apply (f_equal v_writes Hv1).
  rewrite Hmode. unfold ret at 1. rewrite bind_run. cbv beta iota.
  rewrite bind_run. unfold store_read at 1.
  set (user_list := user_list_of _ _ bot_guilds).
  assert (Hul : user_list = reachable bot_guilds).
  { subst user_list. unfold user_list_of, members_of, reachable. f_equal.
    apply list_fmap_ext. intros i g Hg%list_elem_of_lookup_2.
    rewrite !(guild_in_filter _ _ _ Hnd Hg).
    destruct (unavailable g.2), (large g.2), (chunked g.2); done. }
  destruct (group_all_ctx_spec USER_group
              (prune_loop user_list (base_group_all USER_group (_config s1))) s1)
    as (s' & -> & Hthis & Hothers & Hss & Hsame); [congruence|].
  exists s'. rewrite prune_loop_filter, Hul in Hthis. simpl in Hthis.
  rewrite Hc1 in Hthis, Hothers. rewrite Hv1 in Hss.
  by split_and!.
Qed.

(** ** A migration that fails *)

Lemma int_cases x :
  match int x with
  | Return z => is_finite x = true /\ z = integer_part x
  | Raise e => is_finite x = false /\ (e = OverflowError \/ e = ValueError NotANumber)
  end.
Proof.
  destruct (is_finite x) eqn:E.
  - by rewrite (int_finite _ E).
  - destruct x as [z|[sg|sg| |sg m e]]; simpl in *; try done.
    + split; [done | by left].
    + split; [done | by right].
Qed.

Lemma balance_to_int_cases a :
  match balance_to_int a with
  | Return a' => finite_balance a = true /\ a' = truncated a
  | Raise e =>
      finite_balance a = false /\ (e = OverflowError \/ e = ValueError NotANumber)
  end.
Proof.
  unfold balance_to_int, finite_balance, truncated.
  destruct a as [n [b|] t]; simpl; [|done].
  pose proof (int_cases b) as Hb. destruct (int b) as [z|e].
  - destruct Hb as [-> ->]. done.
  - done.
Qed.

(** How a loop over the values of a dict ends, from how its body ends. *)
Lemma for_values_cases {V : Type} (body : V -> outcome V) (f : V -> V)
    (ok : V -> bool) (Q : exn -> Prop) (d : list (Z * V)) :
  (forall v,
     match body v with
     | Return v' => ok v = true /\ v' = f v
     | Raise e => ok v = false /\ Q e
     end) ->
  match for_values body d with
  | Return r =>
      forallb (fun kv => ok kv.2) d = true
      /\ r = (fun kv => (kv.1, f kv.2)) <$> d
  | Raise e => forallb (fun kv => ok kv.2) d = false /\ Q e
  end.
Proof.
  intros Hbody. induction d as [|[k v] d IH]; simpl; [done|].
  specialize (Hbody v). destruct (body v) as [v'|e].
  - destruct Hbody as [-> ->]. simpl.
    destruct (for_values body d) as [r|e].
    + destruct IH as [-> ->]. done.
    + done.
  - destruct Hbody as [-> ?]. done.
Qed.

(** X26. The migration of a store at schema version 0 raises exactly when
    some balance is an infinity or a nan, and then with the error of
    [int()]: [OverflowError] or [ValueError]. The version stays 0 and the
    MEMBER group is as it was. When the balance at fault is in the USER
    group, nothing was stored; when the USER group is sound, it was stored
    with its balances converted before the MEMBER group made the migration
    fail. *)
Theorem migrate_config_failure c :
  schema_version c = 0 ->
  (finite_balances c = false <->
   exists e c', _migrate_config c = (Raise e, c'))
  /\ (forall e c',
        _migrate_config c = (Raise e, c') ->
        (e = OverflowError \/ e = ValueError NotANumber)
        /\ schema_version c' = 0
        /\ MEMBER c' = MEMBER c
        /\ (forallb (fun kv => finite_balance kv.2) (USER c) = false -> c' = c)
        /\ (forallb (fun kv => finite_balance kv.2) (USER c) = true ->
            USER c'
            = (fun kv : Z * raw_account => (kv.1, truncated kv.2)) <$> USER c)).
Proof.
  intros Hv.
  pose proof (for_values_cases balance_to_int truncated finite_balance
                (fun e => e = OverflowError \/ e = ValueError NotANumber)
                (USER c) balance_to_int_cases) as Hu.
  pose proof (for_values_cases (for_values balance_to_int)
                (fmap (fun kv : Z * raw_account => (kv.1, truncated kv.2)))
                (forallb (fun kv : Z * raw_account => finite_balance kv.2))
                (fun e => e = OverflowError \/ e = ValueError NotANumber)
                (MEMBER c)
                (fun d => for_values_cases balance_to_int truncated finite_balance
                            _ d balance_to_int_cases)) as Hm.
  unfold _migrate_config, bind, group_all. rewrite Hv. simpl.
  unfold _schema_0_to_1, bind, group_all, group_set, lift, finite_balances.
  destruct (for_values balance_to_int (USER c)) as [ru|eu]; simpl.
  - destruct Hu as [Hu ->]. rewrite Hu. simpl.
    destruct (for_values (for_values balance_to_int) (MEMBER c)) as [rm|em]; simpl.
    + destruct Hm as [Hm ->]. rewrite Hm. split.
      * split; [done|]. by intros (e & c' & ?).
      * by intros e c'.
    + destruct Hm as [Hm Hq]. rewrite Hm. split.
      * split; [by eexists _, _|done].
      * intros e c' [= <- <-]. by split_and!.
  - destruct Hu as [Hu Hq]. rewrite Hu. simpl. split.
    + split; [by eexists _, _|done].
    + intros e c' [= <- <-]. by split_and!.
Qed.

(** ** Asking before spending *)

(** X27. [can_spend] foretells [withdraw_credits]. For a member whose
    balance is within the maximum of the scope, and a store that accepts
    every write: when [can_spend] answers [True] the withdrawal of the same
    amount returns the balance less the amount, and when it answers
    [False] the withdrawal raises a [ValueError] (for a negative amount, or
    for insufficient funds) and writes nothing. *)
Theorem can_spend_then_withdraw member amount s bal max_bal :
  (forall n, write_fails n = false) ->
  (get_balance member s).1 = Return bal ->
  (get_max_balance (discord.guild member) s).1 = Return max_bal ->
  bal <= max_bal ->
  let s0 := (can_spend member amount s).2 in
  ((can_spend member amount s).1 = Return true ->
   exists s', withdraw_credits member amount s0 = (Return (bal - amount), s'))
  /\ ((can_spend member amount s).1 = Return false ->
      exists s',
        withdraw_credits member amount s0
        = (Raise (ValueError (if amount <? 0 then InvalidWithdrawal
                              else InsufficientFunds)), s')
        /\ view s' = view s).
Proof.
  rewrite get_balance_fst, get_max_balance_fst. intros Hnf Hbal Hmax Hle.
  cbv zeta. unfold can_spend, _invalid_amount.
  destruct (amount <? 0) eqn:E0.
  - split; [done|]. intros _. exists s.
    unfold withdraw_credits, _invalid_amount. by rewrite E0.
  - rewrite bind_run.
    destruct (reads_get_balance member s) as (s1 & -> & Hv1).
    rewrite Hbal. simpl. split.
    + intros [= Hge%bool_decide_eq_true].
      apply (withdraw_credits_succeeds _ _ _ _ max_bal); try done.
      * by rewrite Hv1.
      * by rewrite Hv1.
      * lia.
      * lia.
    + intros [= Hlt%bool_decide_eq_false].
      unfold withdraw_credits, _invalid_amount. rewrite E0, bind_run.
      destruct (reads_get_balance member s1) as (s2 & -> & Hv2).
      rewrite Hv1 in *. rewrite Hbal.
      destruct (amount >? bal) eqn:E1; [|lia].
      by exists s2.
Qed.

End Bank.

(** * Concrete runs *)

(** C1, counterexample. Alice has 100 credits and sends 30 to Bob; the store
    takes the three writes of the withdrawal and refuses the next one, the
    first of the deposit. The transfer raises the store's error, no write
    follows the refused one (so nothing was re-credited), Alice is left with
    70 and Bob with his 100: 30 credits are gone. *)
Lemma transfer_credits_loses_funds :
  (get_balance alice fresh_bank).1 = Return 100
  /\ (get_balance bob fresh_bank).1 = Return 100
  /\ (withdraw_credits fourth_write_fails clock alice 30 fresh_bank).1 = Return 70
  /\ (transfer_credits fourth_write_fails clock alice bob 30 fresh_bank).1
     = Raise StoreError
  /\ writes (transfer_credits fourth_write_fails clock alice bob 30 fresh_bank).2 = 4%nat
  /\ (get_balance alice
        (transfer_credits fourth_write_fails clock alice bob 30 fresh_bank).2).1
     = Return 70
  /\ (get_balance bob
        (transfer_credits fourth_write_fails clock alice bob 30 fresh_bank).2).1
     = Return 100.
Proof. vm_compute. repeat split. Qed.

(** The same transfer, read through the theorem: its outcome is the
    deposit's. *)
Lemma transfer_credits_no_compensation_witness :
  exists s1,
    view s1 = view fresh_bank
    /\ forall r1 s2,
         withdraw_credits fourth_write_fails clock alice 30 s1 = (Return r1, s2) ->
         transfer_credits fourth_write_fails clock alice bob 30 fresh_bank
         = deposit_credits fourth_write_fails clock bob 30 s2
         /\ ((forall n, fourth_write_fails n = false) ->
             exists r s3,
               deposit_credits fourth_write_fails clock bob 30 s2 = (Return r, s3)).
Proof.
  apply (transfer_credits_no_compensation fourth_write_fails clock alice bob 30
           fresh_bank _MAX_BALANCE 100).
  - lia.
  - reflexivity.
  - reflexivity.
  - lia.
  - vm_compute. discriminate.
Defined.

(** Alice sends 30 of her 100 credits to Bob, who has 100. *)
Lemma transfer_credits_conserves_witness :
  exists bal_from bal_to,
    (get_balance alice fresh_bank).1 = Return bal_from
    /\ (get_balance bob fresh_bank).1 = Return bal_to
    /\ (get_balance alice (transfer_credits no_fault clock alice bob 30 fresh_bank).2).1
       = Return (bal_from - 30)
    /\ (get_balance bob (transfer_credits no_fault clock alice bob 30 fresh_bank).2).1
       = Return (bal_to + 30)
    /\ (bal_from - 30) + (bal_to + 30) = bal_from + bal_to
    /\ 130 = bal_to + 30.
Proof.
  apply (transfer_credits_conserves no_fault clock alice bob 30 fresh_bank 130
           (transfer_credits no_fault clock alice bob 30 fresh_bank).2).
  - vm_compute. discriminate.
  - vm_compute. reflexivity.
Defined.

(** With the maximum at 50, Bob's 100 credits plus 30 are refused. *)
Lemma transfer_credits_too_high_witness :
  exists cur s',
    transfer_credits no_fault clock alice bob 30 capped
    = (Raise (BalanceTooHigh "bob" 50 cur), s')
    /\ _config s' = _config capped
    /\ writes s' = writes capped
    /\ (get_balance alice s').1 = (get_balance alice capped).1
    /\ (get_balance bob s').1 = (get_balance bob capped).1.
Proof.
  apply (transfer_credits_too_high no_fault clock alice bob 30 capped 50 100).
  - lia.
  - reflexivity.
  - reflexivity.
  - lia.
Defined.

(** C4, the run that departs from the spec: a deposit of 0 credits is not
    refused as an invalid amount. It returns the balance and persists the
    account (three writes); only negative amounts raise the error whose
    message reads "Invalid deposit amount .. <= 0". *)
Lemma deposit_credits_accepts_zero :
  (deposit_credits no_fault clock alice 0 fresh_bank).1 = Return 100
  /\ writes (deposit_credits no_fault clock alice 0 fresh_bank).2 = 3%nat
  /\ all_members lounge (_config (deposit_credits no_fault clock alice 0 fresh_bank).2)
     = [(1, {| name := "alice"; balance := 100; created_at := 42 |})]
  /\ deposit_credits no_fault clock alice (-1) fresh_bank
     = (Raise (ValueError InvalidDeposit), fresh_bank).
Proof. vm_compute. repeat split. Qed.

(** C5, the run that departs from the claim. Alice holds 100 credits in
    the lounge, and the lounge then lowers its maximum balance to 50, which
    [set_max_balance] accepts without looking at the accounts. Alice buys
    for 60 credits a command that aborts: the withdrawal returns, 40
    credits remain, and the deposit that should refund the cost is refused,
    40 + 60 being above the maximum. The call raises [BalanceTooHigh]
    instead of returning, and Alice is left 60 credits short. The same
    happens on the store as registered once the maximum is below the
    default balance. *)
Lemma wrapped_abort_over_max :
  let held := (set_balance no_fault clock alice 100 fresh_bank).2 in
  let lowered := (set_max_balance no_fault 50 (Some lounge) held).2 in
  (set_max_balance no_fault 50 (Some lounge) held).1 = Return 50
  /\ (get_balance alice lowered).1 = Return 100
  /\ (withdraw_credits no_fault clock alice 60 lowered).1 = Return 40
  /\ (wrapped no_fault clock 60 aborting (Some in_lounge) lowered).1
     = Raise (BalanceTooHigh "alice" 50 "credits")
  /\ (get_balance alice
        (wrapped no_fault clock 60 aborting (Some in_lounge) lowered).2).1
     = Return 40
  /\ (get_balance alice capped).1 = Return 100
  /\ (wrapped no_fault clock 60 aborting (Some in_lounge) capped).1
     = Raise (BalanceTooHigh "alice" 50 "credits")
  /\ (get_balance alice
        (wrapped no_fault clock 60 aborting (Some in_lounge) capped).2).1
     = Return 40.
Proof. vm_compute. repeat split. Qed.

(** Four operations on the store as registered. *)
Lemma run_operations_bounded_witness :
  balances_bounded
    (run_operations no_fault clock
       [SetBalance alice 500; WithdrawCredits alice 120;
        DepositCredits bob 7; TransferCredits alice bob 80] fresh_bank).2.
Proof.
  apply (run_operations_bounded no_fault clock
           [SetBalance alice 500; WithdrawCredits alice 120;
            DepositCredits bob 7; TransferCredits alice bob 80] fresh_bank).
  - split; [constructor | apply map_Forall_empty].
  - vm_compute. reflexivity.
Defined.

(** The migration of the legacy store. *)
Lemma migrate_config_witness :
  (exists c',
     _migrate_config legacy = (Return tt, c')
     /\ schema_version c' = 1
     /\ USER c' = (fun kv : Z * raw_account => (kv.1, truncated kv.2)) <$> USER legacy
     /\ MEMBER c'
        = (fun gd : Z * raw_accounts =>
             (gd.1, (fun kv : Z * raw_account => (kv.1, truncated kv.2)) <$> gd.2))
          <$> MEMBER legacy
     /\ _migrate_config c' = (Return tt, c'))
  /\ (forall e c', _migrate_config legacy = (Raise e, c') -> schema_version c' = 0).
Proof.
  destruct (migrate_config_spec legacy eq_refl) as [Hok Hraise].
  split; [apply Hok; reflexivity | exact Hraise].
Defined.

(** The stored 5.0 is 5 after the migration, and -5.75 is -5. *)
Lemma migrate_config_legacy :
  _migrate_config legacy
  = (Return tt,
     {| schema_version := 1;
        USER :=
          [(1, {| raw_name := Some "alice"%string;
                  raw_balance := Some (Int 5);
                  raw_created_at := Some 42 |})];
        MEMBER :=
          [(7, [(2, {| raw_name := None;
                       raw_balance := Some (Int (-5));
                       raw_created_at := None |});
                (3, {| raw_name := Some "carol"%string;
                       raw_balance := None;
                       raw_created_at := Some 7 |})])] |}).
Proof. reflexivity. Qed.

(** ** Runs of the further properties *)

(** Alice's balance, the default of 100, is set to 500. *)
Lemma set_balance_then_get_balance_witness :
  (get_balance alice fresh_bank).1 = Return 100
  /\ (get_balance alice (set_balance no_fault clock alice 500 fresh_bank).2).1
     = Return 500
  /\ (get_balance bob (set_balance no_fault clock alice 500 fresh_bank).2).1
     = (get_balance bob fresh_bank).1.
Proof.
  assert (H1 : set_balance no_fault clock alice 500 fresh_bank
               = (Return 500, (set_balance no_fault clock alice 500 fresh_bank).2))
    by (vm_compute; reflexivity).
  destruct (set_balance_then_get_balance no_fault clock alice 500 fresh_bank 500
              _ H1) as (_ & _ & Hown & Hothers).
  split_and!.
  - reflexivity.
  - apply (Hown 100). reflexivity.
  - apply Hothers. vm_compute. discriminate.
Defined.

(** A creation time of the year 10000 cannot be decoded: [get_balance]
    raises on such an account, also after a [set_balance] that returned. *)
Lemma get_balance_year_10000 :
  (get_balance alice misdated).1 = Raise (ValueError YearOutOfRange)
  /\ (set_balance no_fault clock alice 7 misdated).1 = Return 7
  /\ (get_balance alice (set_balance no_fault clock alice 7 misdated).2).1
     = Raise (ValueError YearOutOfRange).
Proof. vm_compute. repeat split. Qed.

(** The account this creates carries her name and the time of the call. *)
Lemma set_balance_metadata_witness :
  group_get (member_group 7 1)
            (_config (set_balance no_fault clock alice 500 fresh_bank).2)
  = {| name := "alice"; balance := 500; created_at := 42 |}.
Proof.
  assert (H1 : set_balance no_fault clock alice 500 fresh_bank
               = (Return 500, (set_balance no_fault clock alice 500 fresh_bank).2))
    by (vm_compute; reflexivity).
  assert (H2 : group_of (view fresh_bank) alice = Some (member_group 7 1))
    by reflexivity.
  exact (set_balance_metadata no_fault clock alice 500 fresh_bank 500 _ _ H1 H2).
Defined.

(** Alice withdraws 30 of her 100 credits. *)
Lemma withdraw_credits_debits_witness :
  exists bal,
    (get_balance alice fresh_bank).1 = Return bal
    /\ 0 <= 30 <= bal
    /\ 70 = bal - 30
    /\ (get_balance alice (withdraw_credits no_fault clock alice 30 fresh_bank).2).1
       = Return (bal - 30)
    /\ (forall other,
          group_of (view fresh_bank) other <> group_of (view fresh_bank) alice ->
          (get_balance other (withdraw_credits no_fault clock alice 30 fresh_bank).2).1
          = (get_balance other fresh_bank).1).
Proof.
  apply (withdraw_credits_debits no_fault clock alice 30 fresh_bank 70).
  vm_compute. reflexivity.
Defined.

(** Alice deposits 30 credits and withdraws them again. *)
Lemma deposit_then_withdraw_witness :
  (get_balance alice
     (withdraw_credits no_fault clock alice 30
        (deposit_credits no_fault clock alice 30 fresh_bank).2).2).1
  = (get_balance alice fresh_bank).1
  /\ (get_balance alice fresh_bank).1 = Return 100.
Proof.
  apply (deposit_then_withdraw no_fault clock alice 30 fresh_bank 130
           (deposit_credits no_fault clock alice 30 fresh_bank).2 100).
  - vm_compute. reflexivity.
  - vm_compute. reflexivity.
Defined.

(** A transfer from Alice to Bob leaves Carol's balance alone. *)
Lemma run_operation_third_party_witness :
  let s' := (run_operation no_fault clock (TransferCredits alice bob 30) fresh_bank).2 in
  (get_balance carol s').1 = (get_balance carol fresh_bank).1
  /\ same_scopes (view fresh_bank) (view s').
Proof.
  apply (run_operation_third_party no_fault clock (TransferCredits alice bob 30)
           fresh_bank carol).
  intros member Hin. simpl in Hin.
  apply elem_of_cons in Hin as [->|Hin]; [vm_compute; discriminate|].
  apply elem_of_cons in Hin as [->|Hin]; [vm_compute; discriminate|].
  by apply elem_of_nil in Hin.
Defined.

(** Alice deposits 30 credits. *)
Lemma deposit_credits_credits_witness :
  exists bal max_bal,
    (get_balance alice fresh_bank).1 = Return bal
    /\ (get_max_balance (discord.guild alice) fresh_bank).1 = Return max_bal
    /\ 0 <= 30
    /\ 0 <= bal + 30 <= max_bal
    /\ 130 = bal + 30
    /\ (get_balance alice (deposit_credits no_fault clock alice 30 fresh_bank).2).1
       = Return (bal + 30).
Proof.
  apply (deposit_credits_credits no_fault clock alice 30 fresh_bank 130).
  vm_compute. reflexivity.
Defined.

(** Alice sends herself 30 credits. *)
Lemma transfer_credits_same_account_witness :
  (get_balance alice fresh_bank).1 = Return 100
  /\ (get_balance alice
        (transfer_credits no_fault clock alice alice 30 fresh_bank).2).1
     = Return 100
  /\ (get_balance alice
        (transfer_credits no_fault clock alice alice 30 fresh_bank).2).1
     = Return 100.
Proof.
  apply (transfer_credits_same_account no_fault clock alice alice 30 fresh_bank 100).
  - reflexivity.
  - vm_compute. reflexivity.
Defined.

(** Alice buys for 60 credits a command that returns. *)
Lemma wrapped_charges_witness :
  exists s1,
    (get_balance (commands.author in_lounge) s1).1 = Return (100 - 60)
    /\ forall r s2,
         returning s1 = (Return r, s2) ->
         wrapped no_fault clock 60 returning (Some in_lounge) fresh_bank
         = (Return (Some r), s2).
Proof.
  apply (wrapped_charges no_fault clock 60 returning in_lounge fresh_bank 100
           _MAX_BALANCE).
  - intros n. reflexivity.
  - reflexivity.
  - reflexivity.
  - reflexivity.
  - lia.
  - vm_compute. discriminate.
Defined.

(** Alice buys for 60 credits a command that fails: she keeps her 100. *)
Lemma wrapped_error_refunds_witness :
  exists s1 s2 s',
    (get_balance (commands.author in_lounge) s1).1 = Return (100 - 60)
    /\ failing s1 = (Raise (OtherError 0), s2)
    /\ deposit_credits no_fault clock (commands.author in_lounge) 60 s2
       = (Return 100, s')
    /\ wrapped no_fault clock 60 failing (Some in_lounge) fresh_bank
       = (Raise (OtherError 0), s')
    /\ (get_balance (commands.author in_lounge) s').1 = Return 100.
Proof.
  apply (wrapped_error_refunds no_fault clock 60 failing in_lounge fresh_bank 100
           _MAX_BALANCE (OtherError 0)).
  - intros n. reflexivity.
  - reflexivity.
  - reflexivity.
  - reflexivity.
  - lia.
  - vm_compute. discriminate.
  - discriminate.
  - intros s1 _. exists s1. split; reflexivity.
Defined.

(** Alice buys for 60 credits a command that aborts: she keeps her 100. *)
Lemma wrapped_abort_refunds_witness :
  exists s1 s2 s',
    (get_balance (commands.author in_lounge) s1).1 = Return (100 - 60)
    /\ aborting s1 = (Raise AbortPurchase, s2)
    /\ deposit_credits no_fault clock (commands.author in_lounge) 60 s2
       = (Return 100, s')
    /\ wrapped no_fault clock 60 aborting (Some in_lounge) fresh_bank
       = (Return None, s')
    /\ (get_balance (commands.author in_lounge) s').1 = Return 100.
Proof.
  apply (wrapped_abort_refunds no_fault clock 60 aborting in_lounge fresh_bank 100
           _MAX_BALANCE).
  - intros n. reflexivity.
  - reflexivity.
  - reflexivity.
  - reflexivity.
  - lia.
  - vm_compute. discriminate.
  - intros s1 _. exists s1. split; reflexivity.
Defined.


(** In a private channel, with a bank per guild, nothing can be bought. *)
Lemma wrapped_in_dm_witness :
  exists s',
    wrapped no_fault clock 60 returning (Some in_dm) fresh_bank
    = (Raise (UserFeedbackCheckFailure NoGlobalBankInDM), s')
    /\ view s' = view fresh_bank.
Proof.
  apply (wrapped_in_dm no_fault clock 60 returning in_dm fresh_bank).
  - reflexivity.
  - reflexivity.
Defined.

(** The lounge sets its default balance to 250: Bob, who has no account,
    then has 250 credits. *)
Lemma set_default_balance_spec_witness :
  exists s',
    set_default_balance no_fault 250 (Some lounge) fresh_bank
    = (Return 250, s')
    /\ (get_default_balance (Some lounge) s').1 = Return 250
    /\ (get_balance bob s').1 = Return 250.
Proof.
  assert (H1 : (get_max_balance (Some lounge) fresh_bank).1 = Return _MAX_BALANCE)
    by reflexivity.
  destruct (set_default_balance_spec no_fault 250 (Some lounge)
              fresh_bank _MAX_BALANCE H1) as [_ Hok].
  destruct Hok as (s' & Hrun & Hget & _ & Hbal).
  - vm_compute. split; discriminate.
  - reflexivity.
  - exists s'. split_and!; [done | done |].
    apply (Hbal bob (member_group 7 2)); reflexivity.
Defined.

(** The lounge renames its bank and its currency. *)
Lemma set_names_spec_witness :
  exists s1 s2,
    set_bank_name no_fault "Lounge bank" (Some lounge) fresh_bank
    = (Return "Lounge bank"%string, s1)
    /\ set_currency_name no_fault "Lounge bank" (Some lounge) fresh_bank
       = (Return "Lounge bank"%string, s2)
    /\ (get_bank_name (Some lounge) s1).1 = Return "Lounge bank"%string
    /\ (get_currency_name (Some lounge) s2).1 = Return "Lounge bank"%string.
Proof.
  assert (H1 : no_fault (writes fresh_bank) = false) by reflexivity.
  destruct (set_names_spec no_fault "Lounge bank" (Some lounge) fresh_bank H1)
    as [Hok _].
  destruct Hok as (s1 & s2 & ? & ? & ? & ? & _); [by right|].
  by exists s1, s2.
Defined.

(** Alice asks for her data to be deleted. *)
Lemma process_data_deletion_spec_witness :
  exists s',
    _process_data_deletion no_fault 1 settled = (Return tt, s')
    /\ cfg_users (_config s') = []
    /\ cfg_members (_config s')
       = {[ 7 := [(3, {| name := "carol"; balance := 20; created_at := 42 |})] ]}.
Proof.
  assert (H1 : forall n, no_fault n = false) by (intros n; reflexivity).
  destruct (process_data_deletion_spec no_fault 1 settled H1)
    as (s' & Hrun & Hu & Hm & _).
  exists s'. split_and!; [done | by rewrite Hu | by rewrite Hm].
Defined.

(** The lounge is pruned: Carol, whom it does not list, loses her account. *)
Lemma bank_prune_local_witness :
  exists s',
    bank_prune no_fault (fun g => g) [] (Some lounge_cached) None
               settled
    = (Return tt, s')
    /\ all_members lounge (_config s')
       = [(1, {| name := "alice"; balance := 500; created_at := 42 |})].
Proof.
  assert (H1 : no_fault (writes settled) = false) by reflexivity.
  assert (H2 : (is_global settled).1 = Return false) by reflexivity.
  destruct (bank_prune_local no_fault (fun g => g) []
              lounge_cached settled H1 H2) as (s' & Hrun & Hthis & _).
  exists s'. split; [done|]. etransitivity; [exact Hthis|]. reflexivity.
Defined.

(** The global bank is pruned against the lounge. *)
Lemma bank_prune_global_witness :
  exists s',
    bank_prune no_fault (fun g => g) [lounge_cached] None None
               global_bank
    = (Return tt, s')
    /\ cfg_users (_config s')
       = [(1, {| name := "alice"; balance := 500; created_at := 42 |})].
Proof.
  assert (H0 : NoDup ((fun x : discord.Guild * GuildStatus => discord.guild_id x.1)
                        <$> [lounge_cached])).
  { simpl. constructor; [apply not_elem_of_nil | constructor]. }
  assert (H1 : no_fault (writes global_bank) = false) by reflexivity.
  assert (H2 : (is_global global_bank).1 = Return true) by reflexivity.
  destruct (bank_prune_global no_fault (fun g => g)
              [lounge_cached] None global_bank H0 H1 H2)
    as (s' & Hrun & Hthis & _).
  exists s'. split; [done|]. by rewrite Hthis.
Defined.

(** The migration of a store that holds a nan. *)
Lemma migrate_config_failure_witness :
  exists e c',
    _migrate_config legacy_nan = (Raise e, c')
    /\ (e = OverflowError \/ e = ValueError NotANumber)
    /\ schema_version c' = 0
    /\ USER c'
       = (fun kv : Z * raw_account => (kv.1, truncated kv.2)) <$> USER legacy_nan.
Proof.
  destruct (migrate_config_failure legacy_nan eq_refl) as [[Hraises _] Hwhat].
  destruct (Hraises eq_refl) as (e & c' & Hrun).
  destruct (Hwhat e c' Hrun) as (He & Hv & _ & _ & Hu).
  exists e, c'. split_and!; [done | done | done | by apply Hu].
Defined.

(** Alice may spend 30 credits, and then withdraws them. *)
Lemma can_spend_then_withdraw_witness :
  exists s',
    withdraw_credits no_fault clock alice 30 (can_spend alice 30 fresh_bank).2
    = (Return 70, s').
Proof.
  assert (H1 : forall n, no_fault n = false) by (intros n; reflexivity).
  assert (H2 : (get_balance alice fresh_bank).1 = Return 100) by reflexivity.
  assert (H3 : (get_max_balance (discord.guild alice) fresh_bank).1
               = Return _MAX_BALANCE) by reflexivity.
  assert (H4 : 100 <= _MAX_BALANCE) by (vm_compute; discriminate).
  destruct (can_spend_then_withdraw no_fault clock alice 30 fresh_bank 100
              _MAX_BALANCE H1 H2 H3 H4) as [Hyes _].
  apply Hyes. reflexivity.
Defined.

(** A balance of -5 is refused, and so is one of 60 where the maximum is 50. *)
Lemma set_balance_rejects_witness :
  set_balance no_fault clock alice (-5) fresh_bank
  = (Raise (ValueError NegativeBalance), fresh_bank)
  /\ exists cur s',
       set_balance no_fault clock alice 60 capped
       = (Raise (BalanceTooHigh "alice" 50 cur), s')
       /\ view s' = view capped.
Proof.
  destruct (set_balance_rejects no_fault clock alice (-5) fresh_bank) as [Hneg _].
  destruct (set_balance_rejects no_fault clock alice 60 capped) as [_ Hhigh].
  split; [apply Hneg; lia|].
  destruct (Hhigh 50) as (cur & s' & _ & Hrun & Hv); [reflexivity | lia | lia |].
  by exists cur, s'.
Defined.

(** Alice cannot withdraw 160 credits from her 100. *)
Lemma withdraw_credits_rejects_witness :
  exists s',
    withdraw_credits no_fault clock alice 160 fresh_bank
    = (Raise (ValueError InsufficientFunds), s')
    /\ view s' = view fresh_bank
    /\ (get_balance alice s').1 = Return 100.
Proof.
  destruct (withdraw_credits_rejects no_fault clock alice 160 fresh_bank) as [_ Hlow].
  apply (Hlow 100); [reflexivity | lia | lia].
Defined.

(** Where the maximum is 50, a deposit of 60 is refused. *)
Lemma deposit_credits_rejects_witness :
  exists cur s',
    deposit_credits no_fault clock alice 60 capped
    = (Raise (BalanceTooHigh "alice" 50 cur), s')
    /\ view s' = view capped
    /\ (get_balance alice s').1 = Return 100.
Proof.
  destruct (deposit_credits_rejects no_fault clock alice 60 capped) as (_ & Hhigh & _).
  apply (Hhigh 100 50); [reflexivity | reflexivity | lia | lia | lia].
Defined.

(** Alice cannot send Bob 160 credits from her 100. *)
Lemma transfer_credits_rejects_witness :
  exists s',
    transfer_credits no_fault clock alice bob 160 fresh_bank
    = (Raise (ValueError InsufficientFunds), s')
    /\ view s' = view fresh_bank.
Proof.
  destruct (transfer_credits_rejects no_fault clock alice bob 160 fresh_bank)
    as [_ Hlow].
  apply (Hlow _MAX_BALANCE 100 100);
    [reflexivity | reflexivity | reflexivity | lia | vm_compute; discriminate | lia].
Defined.

(** The lounge lowers its maximum to 50: Alice still has her 100 credits. *)
Lemma set_max_balance_spec_witness :
  exists s',
    set_max_balance no_fault 50 (Some lounge) fresh_bank
    = (Return 50, s')
    /\ (get_max_balance (Some lounge) s').1 = Return 50
    /\ (get_balance alice s').1 = Return 100.
Proof.
  destruct (set_max_balance_spec no_fault 50 (Some lounge) fresh_bank)
    as (_ & Hok & _).
  destruct Hok as (s' & Hrun & Hget & Hbal & _).
  - vm_compute. split; [reflexivity | discriminate].
  - reflexivity.
  - by right.
  - exists s'. split_and!; [done | done |]. by rewrite Hbal.
Defined.

(** Carol is second in the lounge. *)
Lemma get_leaderboard_position_spec_witness :
  exists pos,
    (get_leaderboard_position carol settled).1 = Return pos
    /\ position_in
         [(1, {| name := "alice"; balance := 500; created_at := 42 |});
          (3, {| name := "carol"; balance := 20; created_at := 42 |})]
         3 pos.
Proof.
  destruct (get_leaderboard_position_spec carol settled) as (_ & _ & Hpos).
  apply (Hpos false); reflexivity.
Defined.

(** The lounge's board without its last entry. *)
Lemma get_leaderboard_limits_witness :
  exists board,
    (get_leaderboard (Some (-1)) (Some lounge) settled).1 = Return board
    /\ board = [(1, {| name := "alice"; balance := 500; created_at := 42 |})].
Proof.
  destruct (get_leaderboard_limits (Some (-1)) (Some lounge) settled) as [_ Hcut].
  destruct (Hcut [(1, {| name := "alice"; balance := 500; created_at := 42 |});
                  (3, {| name := "carol"; balance := 20; created_at := 42 |})]
                 (-1)) as (board & Hrun & _ & Hneg); [reflexivity | reflexivity |].
  exists board. split; [done|]. apply Hneg. lia.
Defined.

(** The lounge is wiped: Alice reads the default balance again. *)
Lemma wipe_bank_spec_witness :
  exists s',
    wipe_bank no_fault (Some lounge) settled = (Return tt, s')
    /\ cfg_members (_config s') = ∅
    /\ (get_balance alice s').1 = Return 100.
Proof.
  destruct (wipe_bank_spec no_fault (Some lounge) settled) as [_ Hok].
  destruct Hok as (s' & Hrun & _ & _ & Hlocal & Hbal); [reflexivity|].
  exists s'. split_and!; [done | |].
  - destruct Hlocal as [_ ->]; reflexivity.
  - rewrite (Hbal alice 500); [reflexivity | reflexivity | by right; right].
Defined.

(** Carol's account is pruned from the lounge. *)
Lemma bank_prune_identity_witness :
  exists s',
    bank_prune no_fault (fun g => g) [] (Some lounge_cached)
               (Some 3) settled
    = (Return tt, s')
    /\ all_members lounge (_config s')
       = [(1, {| name := "alice"; balance := 500; created_at := 42 |})].
Proof.
  destruct (bank_prune_identity no_fault (fun g => g) []
              (Some lounge_cached) 3 settled) as (_ & _ & Hlocal).
  destruct (Hlocal lounge_cached) as (s' & Hrun & Hthis & _);
    [reflexivity | reflexivity | reflexivity |].
  exists s'. split; [done|]. etransitivity; [exact Hthis|]. reflexivity.
Defined.
